(** * Denno: the snake mini-game simulation loop and the digest shuffle

    A shallow embedding of
    - [src/components/SnakeGame.tsx] (module [SrcComponents]) and of the
      second copy of the component kept in the repository,
      [src/unnamed/part_000] (module [Part000]); the two copies share the
      stepper (module [Stepper]) and differ in the spawner and in what the
      frame callback does after a crash;
    - [shuffleArray] of [src/unnamed/part_003] (module [Shuffle]), with
      its callers [generateDailyDigest] and [generateAdditionalSections]
      up to the articles of the prompt (module [Digest]) and [sanitizeTag]
      (modules [Text], [Tags]);
    - the storage service [src/unnamed/part_001] (module [Storage]) and
      the notification scheduler [src/unnamed/part_002] (module
      [Notifier]).

    JavaScript numbers are modelled by exact rationals [Q]: the arithmetic
    of the source is kept operation by operation, without the rounding of
    IEEE doubles and without NaN or infinities.  A number written to a ref
    is stored in lowest terms ([Qred]), which leaves its value as it is and
    keeps its size bounded over long runs.  [Math.cos], [Math.sin],
    [Math.sqrt] (implementation-approximated by ECMAScript) and the draws of
    [Math.random] are the fields of the class [MathLib]; every theorem holds
    for every such library, and the closed examples run on the computable
    library [refMath]. *)

From Stdlib Require Import QArith Qround Qabs Qreduction ZArith List Bool Arith Lia Lqa.
From Stdlib Require Import Permutation.
Import ListNotations.

Open Scope Q_scope.

(** ** Numbers *)

Module JS.

(** [a < b] on numbers, as a boolean. *)
Definition Qltb (a b : Q) : bool := negb (Qle_bool b a).

(** The number of a [nat] (array lengths, loop counters). *)
Definition ofNat (n : nat) : Q := inject_Z (Z.of_nat n).

(** [Math.PI]: the double nearest to pi, 884279719003555 / 2^48. *)
Definition Math_PI : Q := 884279719003555 # 281474976710656.

(** [Math.pow(x, 2)] and [x ** 2]. *)
Definition pow2 (x : Q) : Q := x * x.

(** The part of [Math] that ECMAScript leaves to the implementation, and
    the sequence of values that successive calls of [Math.random()] return
    ([Math_random k] is the value of call number [k]). *)
Class MathLib : Type := {
  Math_cos : Q -> Q;
  Math_sin : Q -> Q;
  Math_sqrt : Q -> Q;
  Math_atan2 : Q -> Q -> Q;
  Math_random : nat -> Q
}.

(** [Math.random()] returns a number in [[0, 1)]. *)
Definition random_in_range (M : MathLib) : Prop :=
  forall k, 0 <= Math_random k /\ Math_random k < 1.

End JS.
Export JS.

(** ** The heading update: [let diff = ...; while ...; while ...] *)

Module Heading.

Definition TURN_SPEED : Q := 15 # 100.

(** [while (diff <= -Math.PI) diff += Math.PI * 2;] *)
Fixpoint while_le (fuel : nat) (diff : Q) : Q :=
  match fuel with
  | O => diff
  | S fuel' =>
      if Qle_bool diff (- Math_PI)
      then while_le fuel' (diff + Math_PI * 2)
      else diff
  end.

(** [while (diff > Math.PI) diff -= Math.PI * 2;] *)
Fixpoint while_gt (fuel : nat) (diff : Q) : Q :=
  match fuel with
  | O => diff
  | S fuel' =>
      if Qltb Math_PI diff
      then while_gt fuel' (diff - Math_PI * 2)
      else diff
  end.

(** A number of iterations that either loop cannot exceed on [diff]. *)
Definition turns (diff : Q) : nat :=
  S (Z.to_nat (Qceiling (Qabs diff / (Math_PI * 2)))).

(** The two loops in sequence. *)
Definition normalize (diff : Q) : Q :=
  let diff1 := while_le (turns diff) diff in
  while_gt (turns diff1) diff1.

(** [angle.current += diff * TURN_SPEED] on the normalized difference. *)
Definition ease (angle targetAngle : Q) : Q :=
  angle + normalize (targetAngle - angle) * TURN_SPEED.

End Heading.

(** ** The state of the component and the steps shared by both copies *)

Module Stepper.
Export Heading.

(** Configuration. *)
Definition SPEED : Q := 25 # 10.
Definition TAIL_LENGTH : nat := 20.
Definition GROWTH_PER_FOOD : nat := 10.
Definition SEGMENT_SPACING : nat := 4.

Record Point : Type := mkPoint { x : Q; y : Q }.

(** The point [{ x: a, y: b }], its numbers in lowest terms. *)
Definition point (a b : Q) : Point := mkPoint (Qred a) (Qred b).

(** The refs and React state of one mounted component.  [randomCalls] counts
    the calls of [Math.random()] made so far; [frameRequested] says whether a
    frame callback is pending ([requestAnimationFrame(loop)] sets it, the
    browser clears it when it runs the callback). *)
Record State : Type := mkState {
  pos : Point;
  angle : Q;
  targetAngle : Q;
  history : list Point;
  food : Point;
  score : nat;
  isPlaying : bool;
  isPlayingRef : bool;
  headPos : Point;
  width : Q;
  height : Q;
  randomCalls : nat;
  frameRequested : bool
}.

Definition set_pos (p : Point) (s : State) : State :=
  mkState p (angle s) (targetAngle s) (history s) (food s) (score s)
    (isPlaying s) (isPlayingRef s) (headPos s) (width s) (height s)
    (randomCalls s) (frameRequested s).

Definition set_angle (a : Q) (s : State) : State :=
  mkState (pos s) (Qred a) (targetAngle s) (history s) (food s) (score s)
    (isPlaying s) (isPlayingRef s) (headPos s) (width s) (height s)
    (randomCalls s) (frameRequested s).

Definition set_targetAngle (a : Q) (s : State) : State :=
  mkState (pos s) (angle s) (Qred a) (history s) (food s) (score s)
    (isPlaying s) (isPlayingRef s) (headPos s) (width s) (height s)
    (randomCalls s) (frameRequested s).

Definition set_history (h : list Point) (s : State) : State :=
  mkState (pos s) (angle s) (targetAngle s) h (food s) (score s)
    (isPlaying s) (isPlayingRef s) (headPos s) (width s) (height s)
    (randomCalls s) (frameRequested s).

(** [food.current = p] after [n] more calls of [Math.random()]. *)
Definition set_food (p : Point) (n : nat) (s : State) : State :=
  mkState (pos s) (angle s) (targetAngle s) (history s) p (score s)
    (isPlaying s) (isPlayingRef s) (headPos s) (width s) (height s)
    (n + randomCalls s) (frameRequested s).

Definition set_score (n : nat) (s : State) : State :=
  mkState (pos s) (angle s) (targetAngle s) (history s) (food s) n
    (isPlaying s) (isPlayingRef s) (headPos s) (width s) (height s)
    (randomCalls s) (frameRequested s).

(** [setIsPlaying(b); isPlayingRef.current = b]. *)
Definition set_playing (b : bool) (s : State) : State :=
  mkState (pos s) (angle s) (targetAngle s) (history s) (food s) (score s)
    b b (headPos s) (width s) (height s)
    (randomCalls s) (frameRequested s).

(** [setHeadPos({ ...pos.current })]. *)
Definition setHeadPos (s : State) : State :=
  mkState (pos s) (angle s) (targetAngle s) (history s) (food s) (score s)
    (isPlaying s) (isPlayingRef s) (pos s) (width s) (height s)
    (randomCalls s) (frameRequested s).

Definition set_size (w h : Q) (s : State) : State :=
  mkState (pos s) (angle s) (targetAngle s) (history s) (food s) (score s)
    (isPlaying s) (isPlayingRef s) (headPos s) (Qred w) (Qred h)
    (randomCalls s) (frameRequested s).

Definition set_frameRequested (b : bool) (s : State) : State :=
  mkState (pos s) (angle s) (targetAngle s) (history s) (food s) (score s)
    (isPlaying s) (isPlayingRef s) (headPos s) (width s) (height s)
    (randomCalls s) b.

(** The refs as [useRef] and [useState] create them, in a window of the
    given inner size. *)
Definition initialRefs (innerWidth innerHeight : Q) : State :=
  mkState (mkPoint 0 0) 0 0 [] (mkPoint 0 0) 0 false false (mkPoint 0 0)
    (Qred innerWidth) (Qred innerHeight) 0 false.

Definition startGame (s : State) : State := set_playing true s.

(** [handleResize], the container being [clientWidth] by [clientHeight]. *)
Definition handleResize (clientWidth clientHeight : Q) (s : State) : State :=
  set_size clientWidth clientHeight s.

(** [requestAnimationFrame(loop)]. *)
Definition requestAnimationFrame (s : State) : State :=
  set_frameRequested true s.

(** What can happen to a mounted component: the browser runs the frame
    callback, the user presses the start button, touches or clicks at a
    point, or the window is resized. *)
Inductive Event : Type :=
| Frame
| Start
| Pointer (clientX clientY : Q)
| Resize (clientWidth clientHeight : Q).

(** The distance between two points, as the source computes it:
    [Math.sqrt(dx*dx + dy*dy)]. *)
Definition distance {M : MathLib} (p q : Point) : Q :=
  Math_sqrt (pow2 (x p - x q) + pow2 (y p - y q)).

Section Steps.
Context {M : MathLib}.

(** [handleInteraction] on a mounted component. *)
Definition handleInteraction (clientX clientY : Q) (s : State) : State :=
  if negb (isPlayingRef s) then s
  else
    let dx := clientX - x (pos s) in
    let dy := clientY - y (pos s) in
    set_targetAngle (Math_atan2 dy dx) s.

(** The start corner of [initGame]. *)
Definition startX (s : State) : Q :=
  if Qltb 0 (width s) then width s - 50 else 300.

Definition startY (s : State) : Q :=
  if Qltb 0 (height s) then height s - 30 else 500.

(** The initial tail: [for (i = 0; i < TAIL_LENGTH * SEGMENT_SPACING; i++)
    history.current.push({ x: pos.current.x + i * SPEED, y: pos.current.y })]. *)
Definition initialTail (p : Point) : list Point :=
  map (fun i => point (x p + ofNat i * SPEED) (y p))
      (seq 0 (TAIL_LENGTH * SEGMENT_SPACING)).

(** [initGame(fullReset)], over the spawner of the copy at hand. *)
Definition initGame (spawnFood : State -> State) (fullReset : bool)
    (s : State) : State :=
  let s := set_pos (point (startX s) (startY s)) s in
  let s := setHeadPos s in
  let s := set_angle Math_PI s in
  let s := set_targetAngle (angle s) s in
  let s := set_history (initialTail (pos s)) s in
  let s := set_score 0 s in
  let s := spawnFood s in
  if fullReset then set_playing false s else s.

(** 1. Update direction. *)
Definition updateDirection (s : State) : State :=
  set_angle (ease (angle s) (targetAngle s)) s.

(** 2. Move head. *)
Definition moveHead (s : State) : State :=
  set_pos (point (x (pos s) + Math_cos (angle s) * SPEED)
                 (y (pos s) + Math_sin (angle s) * SPEED)) s.

(** 3. Wraparound, one coordinate: [if (v < 0) v = bound; if (v > bound) v = 0]. *)
Definition wrap (bound v : Q) : Q :=
  let v := if Qltb v 0 then bound else v in
  if Qltb bound v then 0 else v.

Definition wraparound (s : State) : State :=
  set_pos (point (wrap (width s) (x (pos s)))
                 (wrap (height s) (y (pos s)))) s.

(** The cap [currentLength] of the tail. *)
Definition currentLength (s : State) : nat :=
  (TAIL_LENGTH + score s * GROWTH_PER_FOOD) * SEGMENT_SPACING.

(** 4. Update tail: [unshift], then one [pop] above the cap. *)
Definition updateTail (s : State) : State :=
  let s := set_history (pos s :: history s) s in
  if currentLength s <? length (history s)
  then set_history (removelast (history s)) s
  else s.

(** 5. Food collision. *)
Definition eats (s : State) : bool :=
  Qltb (distance (pos s) (food s)) 15.

Definition foodCollision (spawnFood : State -> State) (s : State) : State :=
  if eats s then spawnFood (set_score (score s + 1) s) else s.

(** 6. Self collision, the test of one sampled index [i]; the loop only
    reads indices [i] and [i - 1] with [15 <= i < history.length]. *)
Definition segAt (s : State) (i : nat) : Point :=
  nth i (history s) (mkPoint 0 0).

Definition distHead (s : State) (i : nat) : Q :=
  distance (pos s) (segAt s i).

Definition segJump (s : State) (i : nat) : Q :=
  distance (segAt s i) (segAt s (i - 1)).

Definition crashAt (s : State) (i : nat) : bool :=
  Qltb (distHead s i) 5 && Qltb (segJump s i) 50.

(** Steps 1 to 4 of a playing frame, and steps 1 to 5. *)
Definition stepped (s : State) : State :=
  updateTail (wraparound (moveHead (updateDirection s))).

Definition advance (spawnFood : State -> State) (s : State) : State :=
  foodCollision spawnFood (stepped s).

(** The bubble: [if (!isPlayingRef.current) setHeadPos({ ...pos.current })]. *)
Definition bubble (s : State) : State :=
  if negb (isPlayingRef s) then setHeadPos s else s.

(** *** Vocabulary of the statements *)

(** The tail is within its cap. *)
Definition capped (s : State) : Prop :=
  (length (history s) <= currentLength s)%nat.

(** The indices that the self-collision loop samples. *)
Definition sampled (s : State) (i : nat) : Prop :=
  (exists k, i = 15 + k * SEGMENT_SPACING)%nat /\ (i < length (history s))%nat.

(** A genuine self-collision: a sampled point within 5 of the head whose
    distance to its predecessor is below the jump threshold. *)
Definition genuineCollision (s : State) : Prop :=
  exists i, sampled s i /\ distHead s i < 5 /\ segJump s i < 50.

(** What [initGame(true)] leaves, but for the food: the start corner, the
    start heading, the initial tail, no score, not playing. *)
Definition isReset (corner : Point) (s : State) : Prop :=
  pos s = corner /\ angle s = Math_PI /\ targetAngle s = Math_PI /\
  history s = initialTail corner /\ score s = 0%nat /\
  isPlaying s = false /\ isPlayingRef s = false.

(** A spawner writes the food and draws random numbers, nothing else. *)
Definition writesFood (spawnFood : State -> State) : Prop :=
  forall s, exists p n, spawnFood s = set_food p n s.

(** The number of frame events among [es]. *)
Definition framesOf (es : list Event) : nat :=
  length (filter (fun e => match e with Frame => true | _ => false end) es).

(** [r] is [s] after a reset: reset to the start corner of [s], in the same
    window, with the same pending frame. *)
Definition resetOf (s r : State) : Prop :=
  isReset (point (startX s) (startY s)) r /\
  width r = width s /\ height r = height s /\
  frameRequested r = frameRequested s.

End Steps.

End Stepper.

(** ** [src/components/SnakeGame.tsx] *)

Module SrcComponents.
Export Stepper.

Section Game.
Context {M : MathLib}.

(** [spawnFood]: one draw per coordinate inside the margin. *)
Definition spawnFood (s : State) : State :=
  let margin : Q := 20 in
  let k := randomCalls s in
  set_food
    (point (margin + Math_random k * (width s - 2 * margin))
           (margin + Math_random (S k) * (height s - 2 * margin)))
    2 s.

Definition initGame : bool -> State -> State := Stepper.initGame spawnFood.

(** 6. Self collision: [for (let i = 15; i < history.current.length;
    i += SEGMENT_SPACING)]; a crash calls [initGame(true)] and returns from
    [loop], which [Some] records. *)
Fixpoint selfCollision (fuel i : nat) (s : State) : option State :=
  match fuel with
  | O => None
  | S fuel' =>
      if i <? length (history s) then
        if crashAt s i then Some (initGame true s)
        else selfCollision fuel' (i + SEGMENT_SPACING) s
      else None
  end.

(** The frame callback.  The canvas drawing of step 7 reads the state and
    writes none of it. *)
Definition loop (s : State) : State :=
  if isPlayingRef s then
    let s := advance spawnFood s in
    match selfCollision (length (history s)) 15 s with
    | Some crashed => crashed
    | None => requestAnimationFrame (bubble s)
    end
  else requestAnimationFrame (bubble s).

(** The browser runs a pending frame callback. *)
Definition frame (s : State) : State :=
  if frameRequested s then loop (set_frameRequested false s) else s.

(** The effect on mount: [handleResize(); initGame(); loop();]. *)
Definition mount (innerWidth innerHeight clientWidth clientHeight : Q)
    : State :=
  loop (initGame false
          (handleResize clientWidth clientHeight
             (initialRefs innerWidth innerHeight))).

Definition step (s : State) (e : Event) : State :=
  match e with
  | Frame => frame s
  | Start => startGame s
  | Pointer cx cy => handleInteraction cx cy s
  | Resize w h => handleResize w h s
  end.

Definition run (s : State) (es : list Event) : State := fold_left step es s.

End Game.
End SrcComponents.

(** ** [src/unnamed/part_000] *)

Module Part000.
Export Stepper.

Section Game.
Context {M : MathLib}.

Definition margin : Q := 20.
Definition forbiddenW : Q := 340.
Definition forbiddenH : Q := 250.

(** The forbidden zone test of one draw. *)
Definition inBoxX (s : State) (newX : Q) : bool :=
  let centerX := width s / 2 in
  Qltb (centerX - forbiddenW / 2) newX && Qltb newX (centerX + forbiddenW / 2).

Definition inBoxY (s : State) (newY : Q) : bool :=
  let centerY := height s / 2 in
  Qltb (centerY - forbiddenH / 2) newY && Qltb newY (centerY + forbiddenH / 2).

(** The draw of attempt number [attempts], [k] calls of [Math.random()]
    having been made before the loop. *)
Definition drawX (s : State) (attempts : nat) : Q :=
  margin + Math_random (randomCalls s + 2 * attempts) * (width s - 2 * margin).

Definition drawY (s : State) (attempts : nat) : Q :=
  margin + Math_random (randomCalls s + 2 * attempts + 1) * (height s - 2 * margin).

(** The draw of attempt number [attempts] falls in the forbidden zone. *)
Definition rejected (s : State) (attempts : nat) : bool :=
  inBoxX s (drawX s attempts) && inBoxY s (drawY s attempts).

(** The play area inside the margin, and the forbidden zone at its
    centre. *)
Definition inPlayArea (s : State) (p : Point) : Prop :=
  margin <= x p /\ x p <= width s - margin /\
  margin <= y p /\ y p <= height s - margin.

Definition inForbiddenZone (s : State) (p : Point) : bool :=
  inBoxX s (x p) && inBoxY s (y p).

(** [while (!valid && attempts < 100)], with [left = 100 - attempts]
    iterations to go; the result is [(valid, newX, newY, attempts)]. *)
Fixpoint spawnWhile (s : State) (left attempts : nat) (newX newY : Q)
    : bool * Q * Q * nat :=
  match left with
  | O => (false, newX, newY, attempts)
  | S left' =>
      let newX := drawX s attempts in
      let newY := drawY s attempts in
      if negb (inBoxX s newX) || negb (inBoxY s newY)
      then (true, newX, newY, S attempts)
      else spawnWhile s left' (S attempts) newX newY
  end.

(** [spawnFood]: rejection sampling, then the corner fallback. *)
Definition spawnFood (s : State) : State :=
  match spawnWhile s 100 0 0 0 with
  | (valid, newX, newY, attempts) =>
      let p := if valid then point newX newY else point margin margin in
      set_food p (2 * attempts) s
  end.

Definition initGame : bool -> State -> State := Stepper.initGame spawnFood.

(** 6. Self collision: a crash calls [initGame(true)] and the [for] loop
    goes on, over the tail and the head that [initGame] has just set. *)
Fixpoint selfCollision (fuel i : nat) (s : State) : State :=
  match fuel with
  | O => s
  | S fuel' =>
      if i <? length (history s) then
        selfCollision fuel' (i + SEGMENT_SPACING)
          (if crashAt s i then initGame true s else s)
      else s
  end.

(** Iterations that the loop cannot exceed: the tail has its length on
    entry, or the initial one after a crash. *)
Definition collisionFuel (s : State) : nat :=
  Nat.max (length (history s)) (TAIL_LENGTH * SEGMENT_SPACING).

(** The frame callback.  The canvas drawing of step 7 reads the state and
    writes none of it. *)
Definition loop (s : State) : State :=
  let s :=
    if isPlayingRef s then
      let s := advance spawnFood s in
      selfCollision (collisionFuel s) 15 s
    else s in
  requestAnimationFrame (bubble s).

Definition frame (s : State) : State :=
  if frameRequested s then loop (set_frameRequested false s) else s.

Definition mount (innerWidth innerHeight clientWidth clientHeight : Q)
    : State :=
  loop (initGame false
          (handleResize clientWidth clientHeight
             (initialRefs innerWidth innerHeight))).

Definition step (s : State) (e : Event) : State :=
  match e with
  | Frame => frame s
  | Start => startGame s
  | Pointer cx cy => handleInteraction cx cy s
  | Resize w h => handleResize w h s
  end.

Definition run (s : State) (es : list Event) : State := fold_left step es s.

End Game.
End Part000.

(** ** [shuffleArray] of [src/unnamed/part_003] *)

Module Shuffle.

Section Arrays.
Context {T : Type} (undefined : T) {M : MathLib}.

(** Arrays live in a store and are passed by reference. *)
Definition Store : Type := list (list T).
Definition Ref : Type := nat.

Definition read (h : Store) (r : Ref) : list T := nth r h [].

(** The array at [r] becomes [a]. *)
Fixpoint write (h : Store) (r : Ref) (a : list T) : Store :=
  match h, r with
  | [], _ => []
  | _ :: h', O => a :: h'
  | b :: h', S r' => b :: write h' r' a
  end.

(** [[...array]]: a new array with the elements of [a]. *)
Definition spread (h : Store) (a : list T) : Store * Ref :=
  (h ++ [a], length h).

(** [a[n]] for an index [n]: [undefined] past the end. *)
Definition getAt (a : list T) (n : nat) : T := nth n a undefined.

(** [a[n] = v] for an index [n]: past the end the array grows, the gap
    reading [undefined]. *)
Fixpoint setAt (a : list T) (n : nat) (v : T) : list T :=
  match a, n with
  | [], _ => repeat undefined n ++ [v]
  | _ :: a', O => v :: a'
  | b :: a', S n' => b :: setAt a' n' v
  end.

(** [a[j]] and [a[j] = v] for an integer [j]: a negative [j] names a
    property that is no element. *)
Definition get (a : list T) (j : Z) : T :=
  if (j <? 0)%Z then undefined else getAt a (Z.to_nat j).

Definition set (a : list T) (j : Z) (v : T) : list T :=
  if (j <? 0)%Z then a else setAt a (Z.to_nat j) v.

(** [Math.floor(Math.random() * (i + 1))], on call number [k]. *)
Definition pick (k i : nat) : Z :=
  Qfloor (Math_random k * (ofNat i + 1)).

(** [[a[i], a[j]] = [a[j], a[i]]]: both reads, then the two writes. *)
Definition swap (a : list T) (i j : Z) : list T :=
  let vj := get a j in
  let vi := get a i in
  set (set a i vj) j vi.

(** [for (let i = newArray.length - 1; i > 0; i--)], from [i] down. *)
Fixpoint shuffleFor (i k : nat) (h : Store) (newArray : Ref) : Store :=
  match i with
  | O => h
  | S i' =>
      let j := pick k i in
      let h := write h newArray (swap (read h newArray) (Z.of_nat i) j) in
      shuffleFor i' (S k) h newArray
  end.

(** [shuffleArray(array)], [k] calls of [Math.random()] having been made:
    the store afterwards and the array returned. *)
Definition shuffleArray (h : Store) (array : Ref) (k : nat) : Store * Ref :=
  let (h, newArray) := spread h (read h array) in
  (shuffleFor (length (read h newArray) - 1) k h newArray, newArray).

End Arrays.
End Shuffle.

(** ** A computable [Math] *)

Module Reference.

(** The square root cut to 26 binary places; exact on the squares of such
    numbers. *)
Definition sqrt (v : Q) : Q :=
  Qred (Z.sqrt (Qfloor (v * inject_Z (2 ^ 52))) # 2 ^ 26).

(** Bhaskara's approximation of the sine on [[0, pi]]; exact at 0, pi/2
    and pi. *)
Definition bhaskara (t : Q) : Q :=
  16 * t * (Math_PI - t) / (5 * Math_PI * Math_PI - 4 * t * (Math_PI - t)).

Definition sin (a : Q) : Q :=
  let turn := Math_PI * 2 in
  let t := a - inject_Z (Qfloor (a / turn)) * turn in
  Qred (if Qle_bool t Math_PI then bhaskara t else - bhaskara (t - Math_PI)).

Definition cos (a : Q) : Q := sin (a + Math_PI / 2).

(** The arctangent on [[-1, 1]], to about 0.005. *)
Definition atan (z : Q) : Q := z / (1 + (28 # 100) * z * z).

Definition atan2 (dy dx : Q) : Q :=
  if Qeq_bool dx 0 && Qeq_bool dy 0 then 0
  else if Qle_bool (Qabs dy) (Qabs dx) then
    let a := atan (dy / dx) in
    if Qltb 0 dx then a
    else if Qle_bool 0 dy then a + Math_PI else a - Math_PI
  else
    let a := atan (dx / dy) in
    if Qltb 0 dy then Math_PI / 2 - a else - (Math_PI / 2) - a.

(** The draws of [Math.random()]: those listed, then one half for ever. *)
Definition draws (l : list Q) (k : nat) : Q := nth k l (1 # 2).

Definition inUnit (r : Q) : bool := Qle_bool 0 r && Qltb r 1.

Definition refMath (l : list Q) : MathLib := {|
  Math_cos := cos;
  Math_sin := sin;
  Math_sqrt := sqrt;
  Math_atan2 := atan2;
  Math_random := draws l
|}.

End Reference.

(** ** Concrete runs *)

Module Examples.
Import Stepper Reference.

(** Every draw of [Math.random()] is one half. *)
Definition halves : MathLib := refMath [].

(** A 800 x 600 container, mounted and started: the start state. *)
Definition started : State :=
  @Part000.run halves (@Part000.mount halves 1024 768 800 600) [Start].

(** The same container mounted by [src/components/SnakeGame.tsx]. *)
Definition mountedSrc : State :=
  @SrcComponents.mount halves 1024 768 800 600.

(** An empty (0 x 0) container, mounted, started and run for 15 frames, in
    either copy. *)
Definition emptySrc : State :=
  @SrcComponents.run halves (@SrcComponents.mount halves 1024 768 0 0)
    (Start :: repeat Frame 15).

Definition empty000 : State :=
  @Part000.run halves (@Part000.mount halves 1024 768 0 0)
    (Start :: repeat Frame 15).

(** A 95 x 600 container, mounted, started and run for 18 frames: the
    head, at [x = 0], is about to wrap onto the initial tail. *)
Definition narrowSrc : State :=
  @SrcComponents.run halves (@SrcComponents.mount halves 1024 768 95 600)
    (Start :: repeat Frame 18).

Definition narrow000 : State :=
  @Part000.run halves (@Part000.mount halves 1024 768 95 600)
    (Start :: repeat Frame 18).

(** The frame after [narrowSrc], in which the head wraps onto the tail. *)
Definition crashedSrc : State := @SrcComponents.frame halves narrowSrc.

(** Draws that put the food at (737, 570) of a 800 x 600 container, on
    the way of the head, eleven times. *)
Definition onTheWay : MathLib :=
  refMath (concat (repeat [717 # 760; 55 # 56] 11)).

(** Ten frames, a pickup in each. *)
Definition tenPickupsSrc : State :=
  @SrcComponents.run onTheWay (@SrcComponents.mount onTheWay 1024 768 800 600)
    (Start :: repeat Frame 10).

Definition tenPickups000 : State :=
  @Part000.run onTheWay (@Part000.mount onTheWay 1024 768 800 600)
    (Start :: repeat Frame 10).

(** A head at (3.5, 300) heading left in a 96 x 600 container: after one
    more step it is at (1, 300), where the point sampled at index 15 is,
    and the point at index 14 is across the wrap, at (96, 300). *)
Definition acrossTheWrap : State :=
  mkState (point (35 # 10) 300) Math_PI Math_PI
    (repeat (point (35 # 10) 300) 13 ++ [point 96 300; point 1 300])
    (point 20 20) 0 true true (point (35 # 10) 300) 96 600 0 false.

(** A head at (1, 570) heading left in a 800 x 600 container, about to
    leave it on the left. *)
Definition leavingLeft : State :=
  mkState (point 1 570) Math_PI Math_PI
    (initialTail (point 1 570))
    (point 20 20) 0 true true (point 1 570) 800 600 0 false.

(** A head at (799, 570) heading right in a 800 x 600 container, its
    tail behind it, about to leave the container on the right. *)
Definition leavingRight : State :=
  mkState (point 799 570) 0 0
    (map (fun i => point (799 - ofNat i * SPEED) 570) (seq 0 80))
    (point 20 20) 0 true true (point 799 570) 800 600 0 false.

(** The start state when the draws put the food at (737, 570), and when
    they put it at (732.5, 570), which is 15 from where the head is after
    one frame. *)
Definition startedOnTheWay : State :=
  @Part000.run onTheWay (@Part000.mount onTheWay 1024 768 800 600) [Start].



(** A store of two arrays, and four draws for the shuffle. *)
Definition shelf : @Shuffle.Store (option nat) :=
  [[Some 7]; [Some 1; Some 2; Some 3; Some 4; Some 5]]%nat.

Definition fourDraws : MathLib := refMath [9 # 10; 1 # 10; 1 # 2; 3 # 10].

End Examples.

(** ** The scene: the idle game, the window, the food, the bubble *)

Module Scene.
Import Stepper.

(** The simulation proper: what the stepper and the collision detector
    read and write. *)
Definition simulation (s : State)
    : Point * Q * Q * list Point * Point * nat :=
  (pos s, angle s, targetAngle s, history s, food s, score s).

(** The head is inside the window. *)
Definition inside (s : State) : Prop :=
  0 <= x (pos s) /\ x (pos s) <= width s /\
  0 <= y (pos s) /\ y (pos s) <= height s.

(** The window is large enough for the start corner. *)
Definition roomy (s : State) : Prop := 50 <= width s /\ 30 <= height s.





(** The state of the component and the ref that the loop reads agree, and
    the start bubble, shown while the game does not play, is where the
    head is. *)
Definition bubbleAtHead (s : State) : Prop :=
  isPlaying s = isPlayingRef s /\
  (isPlaying s = false -> headPos s = pos s).



Definition isStart (e : Event) : bool :=
  match e with Start => true | _ => false end.

Definition isResize (e : Event) : bool :=
  match e with Resize _ _ => true | _ => false end.

Definition isPointer (e : Event) : bool :=
  match e with Pointer _ _ => true | _ => false end.

(** What a frame that takes no reset adds to the score. *)
Definition pickup {M : MathLib} (s : State) : nat :=
  if eats (stepped s) then 1 else 0.

End Scene.

(** ** Step 7 of the frame callback: the canvas *)

Module Canvas.
Import Stepper.

Definition SNAKE_WIDTH : Q := 4.

(** The styles of the source: [SNAKE_COLOR = '#6466f1'],
    [FOOD_COLOR = '#fbbf24'] and the glow ['rgba(251, 191, 36, 0.4)']. *)
Inductive Style : Type := SNAKE_COLOR | FOOD_COLOR | GLOW.

(** The calls on the 2D context, in the order made. *)
Inductive Call : Type :=
| clearRect (x0 y0 w h : Q)
| fillStyle (c : Style)
| strokeStyle (c : Style)
| lineWidth (w : Q)
| lineCap_round
| lineJoin_round
| beginPath
| arc (cx cy r a0 a1 : Q)
| fill
| stroke
| moveTo (p : Point)
| lineTo (p : Point).

(** The straight lines that a run of [moveTo] and [lineTo] calls adds to
    an empty path: [moveTo] lifts the pen, [lineTo] draws from where the
    pen is (and only puts it down on an empty path). *)
Fixpoint lines (pen : option Point) (calls : list Call)
    : list (Point * Point) :=
  match calls with
  | [] => []
  | moveTo p :: rest => lines (Some p) rest
  | lineTo q :: rest =>
      match pen with
      | Some p => (p, q) :: lines (Some q) rest
      | None => lines (Some q) rest
      end
  | _ :: rest => lines pen rest
  end.

(** The points that a run of [moveTo] and [lineTo] calls visits. *)
Fixpoint visited (calls : list Call) : list Point :=
  match calls with
  | [] => []
  | moveTo p :: rest => p :: visited rest
  | lineTo p :: rest => p :: visited rest
  | _ :: rest => visited rest
  end.

(** The pairs of neighbours of a list. *)
Fixpoint neighbours {A : Type} (l : list A) : list (A * A) :=
  match l with
  | a :: (b :: _) as rest => (a, b) :: neighbours rest
  | _ => []
  end.

(** The elements of a list taken after skipping [wait] of them, then
    every [SEGMENT_SPACING]-th. *)
Fixpoint strided {A : Type} (wait : nat) (l : list A) : list A :=
  match l with
  | [] => []
  | a :: rest =>
      match wait with
      | O => a :: strided (SEGMENT_SPACING - 1) rest
      | S wait' => strided wait' rest
      end
  end.

(** The squared distance [(p1.x - p2.x) ** 2 + (p1.y - p2.y) ** 2]. *)
Definition distSq (p1 p2 : Point) : Q :=
  pow2 (x p1 - x p2) + pow2 (y p1 - y p2).


Section Render.
Context {M : MathLib}.

(** Two trail points that [src/components/SnakeGame.tsx] joins by a
    line. *)
Definition joinedSrc (pq : Point * Point) : bool :=
  negb (Qltb 100 (distance (fst pq) (snd pq))).

(** *** [src/unnamed/part_000] *)

(** [for (let i = 1; i < history.current.length; i++)], [p1] being the
    point before the rest. *)
Fixpoint follow000 (p1 : Point) (rest : list Point) : list Call :=
  match rest with
  | [] => []
  | p2 :: rest' =>
      (if Qltb 2500 (distSq p1 p2) then moveTo p2 else lineTo p2)
        :: follow000 p2 rest'
  end.

(** The calls between [beginPath()] and [stroke()] of the snake. *)
Definition trail000 (s : State) : list Call :=
  match history s with
  | [] => []
  | p0 :: rest => moveTo p0 :: follow000 p0 rest
  end.

Definition render000 (s : State) : list Call :=
  [clearRect 0 0 (width s) (height s);
   (* the food; its coordinates are numbers, never NaN *)
   fillStyle FOOD_COLOR; beginPath;
   arc (x (food s)) (y (food s)) 6 0 (Math_PI * 2); fill;
   strokeStyle GLOW; lineWidth 2; beginPath;
   arc (x (food s)) (y (food s)) 10 0 (Math_PI * 2); stroke;
   (* the snake *)
   lineCap_round; lineJoin_round; lineWidth SNAKE_WIDTH;
   strokeStyle SNAKE_COLOR; beginPath]
  ++ trail000 s
  ++ [stroke;
      (* the head *)
      fillStyle SNAKE_COLOR; beginPath;
      arc (x (pos s)) (y (pos s)) 3 0 (Math_PI * 2); fill].

(** *** [src/components/SnakeGame.tsx] *)

(** [for (let i = SEGMENT_SPACING; i < history.current.length;
    i += SEGMENT_SPACING)], with [lastIndex] the index drawn before. *)
Fixpoint followSrc (fuel i lastIndex : nat) (h : list Point) : list Call :=
  match fuel with
  | O => []
  | S fuel' =>
      if (i <? length h)%nat then
        let p1 := nth lastIndex h (mkPoint 0 0) in
        let p2 := nth i h (mkPoint 0 0) in
        (if Qltb 100 (distance p1 p2) then moveTo p2 else lineTo p2)
          :: followSrc fuel' (i + SEGMENT_SPACING) i h
      else []
  end.

Definition trailSrc (s : State) : list Call :=
  match history s with
  | [] => []
  | p0 :: _ =>
      moveTo p0 :: followSrc (length (history s)) SEGMENT_SPACING 0 (history s)
  end.

Definition renderSrc (s : State) : list Call :=
  [clearRect 0 0 (width s) (height s);
   fillStyle FOOD_COLOR; beginPath;
   arc (x (food s)) (y (food s)) 4 0 (Math_PI * 2); fill;
   lineCap_round; lineJoin_round; lineWidth SNAKE_WIDTH;
   strokeStyle SNAKE_COLOR; beginPath]
  ++ trailSrc s
  ++ [stroke;
      fillStyle SNAKE_COLOR; beginPath;
      arc (x (pos s)) (y (pos s)) 3 0 (Math_PI * 2); fill].

End Render.
End Canvas.

(** ** More concrete runs *)

Module Episodes.
Import Stepper Examples.

(** What happens around an idle game: frames, a touch, a resize. *)
Definition whileIdle : list Event :=
  [Frame; Pointer 10 10; Resize 500 500; Frame; Frame].

(** The pointer wandering before it rests at (750, 300), then a frame. *)
Definition wandering : list Event := [Pointer 10 10; Pointer 700 20].



End Episodes.

(** ** The articles of the prompt: [generateDailyDigest] and
    [generateAdditionalSections] of [src/unnamed/part_003] *)

Module Digest.
Import Shuffle.

Section Selection.
Context {Article : Type} (undefined : Article) {M : MathLib}.

(** [articles.sort((a, b) => new Date(b.published).getTime() -
    new Date(a.published).getTime())]: the order that the engine leaves,
    which for dates that do not parse is its own. *)
Variable sort : list Article -> list Article.

(** [a.slice(b, e)] for [0 <= b <= e]. *)
Definition slice (a : list Article) (b e : nat) : list Article :=
  firstn (e - b) (skipn b a).

(** The number of draws of one [shuffleArray(a)]. *)
Definition drawsOf (a : list Article) : nat := length a - 1.


(** [generateAdditionalSections] up to [shuffledArticles]: [None] when it
    returns [[]] at once. *)
Definition additionalInput (h : @Store Article) (articles : Ref) (k : nat)
    : option (@Store Article * Ref * nat) :=
  if (length (read h articles) =? 0)%nat then None
  else
    let k' := (k + drawsOf (read h articles))%nat in
    let (h, shuffled) := shuffleArray undefined h articles k in
    let (h, shuffledArticles) := spread h (slice (read h shuffled) 0 80) in
    Some (h, shuffledArticles, k').

End Selection.

(** A store with one array of 130 articles, named by their rank, the
    newest first, and one of 3 articles. *)
Definition newsroom : @Store (option nat) :=
  [map Some (seq 1 130); [Some 7; Some 8; Some 9]]%nat.


End Digest.

(** ** Strings *)

Module Text.

(** A string is its sequence of UTF-16 code units. *)
Definition Str : Type := list N.

Fixpoint eqb (a b : Str) : bool :=
  match a, b with
  | [], [] => true
  | c :: a', d :: b' => N.eqb c d && eqb a' b'
  | _, _ => false
  end.

(** White space and line terminators: what [trim] strips and [\s]
    matches. *)
Definition isWhiteSpace (c : N) : bool :=
  existsb (N.eqb c)
    [9; 10; 11; 12; 13; 32; 160; 5760; 8232; 8233; 8239; 8287; 12288;
     65279]%N
  || ((8192 <=? c)%N && (c <=? 8202)%N).

Fixpoint trimStart (s : Str) : Str :=
  match s with
  | [] => []
  | c :: rest => if isWhiteSpace c then trimStart rest else s
  end.

Definition trimEnd (s : Str) : Str := rev (trimStart (rev s)).

Definition trim (s : Str) : Str := trimEnd (trimStart s).

(** [s.includes(c)] for a string [c] of one code unit. *)
Definition includes (c : N) (s : Str) : bool := existsb (N.eqb c) s.

(** [s.charAt(0)], [s.slice(1)] and [s.substring(0, n)]. *)
Definition charAt0 (s : Str) : Str := firstn 1 s.
Definition slice1 (s : Str) : Str := skipn 1 s.
Definition substring0 (n : nat) (s : Str) : Str := firstn n s.

(** [s.replace(/\s+/g, '')]. *)
Definition stripWhiteSpace (s : Str) : Str :=
  filter (fun c => negb (isWhiteSpace c)) s.

(** [s.split(/\s+/)]: [word] is the word read so far, last unit first;
    [gap] says that the unit before was white space, whose run has
    already closed a word. *)
Fixpoint splitFrom (word : Str) (gap : bool) (s : Str) : list Str :=
  match s with
  | [] => [rev word]
  | c :: rest =>
      if isWhiteSpace c then
        if gap then splitFrom [] true rest
        else rev word :: splitFrom [] true rest
      else splitFrom (c :: word) false rest
  end.

Definition split (s : Str) : list Str := splitFrom [] false s.

(** No code unit of [s] is white space. *)
Definition oneWord (s : Str) : bool :=
  forallb (fun c => negb (isWhiteSpace c)) s.

(** Lower and upper case of letters A to Z, a to z; what [toLowerCase] and
    [toUpperCase] do on strings that hold no other cased letter that they
    would change. *)
Definition asciiLower (s : Str) : Str :=
  map (fun c => if (65 <=? c)%N && (c <=? 90)%N then (c + 32)%N else c) s.

Definition asciiUpper (s : Str) : Str :=
  map (fun c => if (97 <=? c)%N && (c <=? 122)%N then (c - 32)%N else c) s.

End Text.

(** ** [sanitizeTag] of [src/unnamed/part_003] *)

Module Tags.
Import Text.

(** [TAG_MAPPINGS], in the order of the source. *)
Definition TAG_MAPPINGS : list (Str * Str) :=
  [
   (* umela inteligencia: AI *)
   ([117; 109; 101; 108; 225; 32; 105; 110; 116; 101; 108; 105; 103; 101;
     110; 99; 105; 97],
    [65; 73]);
   (* artificial intelligence: AI *)
   ([97; 114; 116; 105; 102; 105; 99; 105; 97; 108; 32; 105; 110; 116; 101;
     108; 108; 105; 103; 101; 110; 99; 101],
    [65; 73]);
   (* zivotne prostredie: Ekologia *)
   ([382; 105; 118; 111; 116; 110; 233; 32; 112; 114; 111; 115; 116; 114;
     101; 100; 105; 101],
    [69; 107; 111; 108; 243; 103; 105; 97]);
   (* socialne siete: Social *)
   ([115; 111; 99; 105; 225; 108; 110; 101; 32; 115; 105; 101; 116; 101],
    [83; 111; 99; 105; 97; 108]);
   (* kyberneticka bezpecnost: Kyber *)
   ([107; 121; 98; 101; 114; 110; 101; 116; 105; 99; 107; 225; 32; 98; 101;
     122; 112; 101; 269; 110; 111; 115; 357],
    [75; 121; 98; 101; 114]);
   (* virtualna realita: VR *)
   ([118; 105; 114; 116; 117; 225; 108; 110; 97; 32; 114; 101; 97; 108; 105;
     116; 97],
    [86; 82]);
   (* rozsirena realita: AR *)
   ([114; 111; 122; 353; 237; 114; 101; 110; 225; 32; 114; 101; 97; 108;
     105; 116; 97],
    [65; 82]);
   (* kvantove pocitanie: Kvantum *)
   ([107; 118; 97; 110; 116; 111; 118; 233; 32; 112; 111; 269; 237; 116; 97;
     110; 105; 101],
    [75; 118; 97; 110; 116; 117; 109]);
   (* pozemny hokej: Hokej *)
   ([112; 111; 122; 101; 109; 110; 253; 32; 104; 111; 107; 101; 106],
    [72; 111; 107; 101; 106]);
   (* sportovy marketing: Marketing *)
   ([353; 112; 111; 114; 116; 111; 118; 253; 32; 109; 97; 114; 107; 101;
     116; 105; 110; 103],
    [77; 97; 114; 107; 101; 116; 105; 110; 103]);
   (* alternativne bielkoviny: Potraviny *)
   ([97; 108; 116; 101; 114; 110; 97; 116; 237; 118; 110; 101; 32; 98; 105;
     101; 108; 107; 111; 118; 105; 110; 121],
    [80; 111; 116; 114; 97; 118; 105; 110; 121]);
   (* dusevne zdravie: Psychologia *)
   ([100; 117; 353; 101; 118; 110; 233; 32; 122; 100; 114; 97; 118; 105; 101],
    [80; 115; 121; 99; 104; 111; 108; 243; 103; 105; 97]);
   (* klimaticke zmeny: Klima *)
   ([107; 108; 105; 109; 97; 116; 105; 99; 107; 233; 32; 122; 109; 101; 110;
     121],
    [75; 108; 237; 109; 97]);
   (* smart home: IoT *)
   ([115; 109; 97; 114; 116; 32; 104; 111; 109; 101],
    [73; 111; 84]);
   (* europska unia: EU *)
   ([101; 117; 114; 243; 112; 115; 107; 97; 32; 250; 110; 105; 97],
    [69; 218]);
   (* ludske zdroje: HR *)
   ([318; 117; 100; 115; 107; 233; 32; 122; 100; 114; 111; 106; 101],
    [72; 82]);
   (* fuzie a akvizicie: Dealy *)
   ([102; 250; 122; 105; 101; 32; 97; 32; 97; 107; 118; 105; 122; 237; 99;
     105; 101],
    [68; 101; 97; 108; 121]);
   (* spotrebna elektronika: Gadgets *)
   ([115; 112; 111; 116; 114; 101; 98; 110; 225; 32; 101; 108; 101; 107;
     116; 114; 111; 110; 105; 107; 97],
    [71; 97; 100; 103; 101; 116; 115]);
   (* obnovitelne zdroje: Energia *)
   ([111; 98; 110; 111; 118; 105; 116; 101; 318; 110; 233; 32; 122; 100;
     114; 111; 106; 101],
    [69; 110; 101; 114; 103; 105; 97]);
   (* vesmirny vyskum: Vesmir *)
   ([118; 101; 115; 109; 237; 114; 110; 121; 32; 118; 253; 115; 107; 117;
     109],
    [86; 101; 115; 109; 237; 114]);
   (* globalna politika: Politika *)
   ([103; 108; 111; 98; 225; 108; 110; 97; 32; 112; 111; 108; 105; 116; 105;
     107; 97],
    [80; 111; 108; 105; 116; 105; 107; 97]);
   (* stredny vychod: Konflikt *)
   ([115; 116; 114; 101; 100; 110; 253; 32; 118; 253; 99; 104; 111; 100],
    [75; 111; 110; 102; 108; 105; 107; 116]);
   (* cestovny ruch: Travel *)
   ([99; 101; 115; 116; 111; 118; 110; 253; 32; 114; 117; 99; 104],
    [84; 114; 97; 118; 101; 108]);
   (* hry a e-sport: Gaming *)
   ([104; 114; 121; 32; 97; 32; 101; 45; 353; 112; 111; 114; 116],
    [71; 97; 109; 105; 110; 103]);
   (* ui/ux dizajn: Dizajn *)
   ([117; 105; 47; 117; 120; 32; 100; 105; 122; 97; 106; 110],
    [68; 105; 122; 97; 106; 110]);
   (* ux dizajn: UX *)
   ([117; 120; 32; 100; 105; 122; 97; 106; 110],
    [85; 88])
  ]%N.

(** The names that an object literal inherits from [Object.prototype]. *)
Definition objectPrototype : list Str :=
  [
   (* constructor *)
   [99; 111; 110; 115; 116; 114; 117; 99; 116; 111; 114];
   (* __defineGetter__ *)
   [95; 95; 100; 101; 102; 105; 110; 101; 71; 101; 116; 116; 101; 114; 95;
    95];
   (* __defineSetter__ *)
   [95; 95; 100; 101; 102; 105; 110; 101; 83; 101; 116; 116; 101; 114; 95;
    95];
   (* hasOwnProperty *)
   [104; 97; 115; 79; 119; 110; 80; 114; 111; 112; 101; 114; 116; 121];
   (* __lookupGetter__ *)
   [95; 95; 108; 111; 111; 107; 117; 112; 71; 101; 116; 116; 101; 114; 95;
    95];
   (* __lookupSetter__ *)
   [95; 95; 108; 111; 111; 107; 117; 112; 83; 101; 116; 116; 101; 114; 95;
    95];
   (* isPrototypeOf *)
   [105; 115; 80; 114; 111; 116; 111; 116; 121; 112; 101; 79; 102];
   (* propertyIsEnumerable *)
   [112; 114; 111; 112; 101; 114; 116; 121; 73; 115; 69; 110; 117; 109; 101;
    114; 97; 98; 108; 101];
   (* toString *)
   [116; 111; 83; 116; 114; 105; 110; 103];
   (* valueOf *)
   [118; 97; 108; 117; 101; 79; 102];
   (* __proto__ *)
   [95; 95; 112; 114; 111; 116; 111; 95; 95];
   (* toLocaleString *)
   [116; 111; 76; 111; 99; 97; 108; 101; 83; 116; 114; 105; 110; 103]
  ]%N.

(** What a property read of [TAG_MAPPINGS] gives, and what [sanitizeTag]
    returns: a string, or the member of [Object.prototype] of that name,
    which is no string. *)
Inductive Value : Type :=
| Text (s : Str)
| Member (name : Str)
| Undefined.

(** [TAG_MAPPINGS[key]] *)
Definition lookup (key : Str) : Value :=
  match find (fun kv => eqb (fst kv) key) TAG_MAPPINGS with
  | Some kv => Text (snd kv)
  | None => if existsb (eqb key) objectPrototype then Member key else Undefined
  end.

Definition truthy (v : Value) : bool :=
  match v with
  | Text [] => false
  | Text _ => true
  | Member _ => true
  | Undefined => false
  end.

(** [(a, b) => a.length >= b.length ? a : b] *)
Definition longer (a b : Str) : Str :=
  if (length b <=? length a)%nat then a else b.

Section Case.
(** [toLowerCase] and [toUpperCase] are Unicode's. *)
Variables toLowerCase toUpperCase : Str -> Str.

Definition capitalize (s : Str) : Str :=
  toUpperCase (charAt0 s) ++ slice1 s.

Definition sanitizeTag (tag : Str) : Value :=
  let lower := trim (toLowerCase tag) in
  (* 1. the direct mapping *)
  if truthy (lookup lower) then lookup lower
  (* 2. a single word *)
  else if negb (includes 32 lower) then Text (capitalize tag)
  (* 3. the longest word *)
  else
    let words := split lower in
    let longestWord := fold_left longer words [] in
    Text (capitalize longestWord).

(** [s.tags.map(sanitizeTag)] *)
Definition sanitizeTags (tags : list Str) : list Value :=
  map sanitizeTag tags.

End Case.

(** "Nova technologia" with the accents of the source language, " ai"
    and "constructor". *)
Definition novaTechnologia : Str :=
  [78; 111; 118; 225; 32; 116; 101; 99; 104; 110; 111; 108; 243; 103; 105;
   97]%N.
Definition paddedAi : Str := [32; 97; 105]%N.
Definition constructor : Str :=
  [99; 111; 110; 115; 116; 114; 117; 99; 116; 111; 114]%N.

End Tags.

(** ** The storage service: [src/unnamed/part_001]

    [localStorage] holds, under each key of the service, the JSON text of
    a value; the model keeps the value, which is what [JSON.parse] gives
    back for the data that the service writes (strings, integers, arrays
    and objects of these; a property that is [undefined] is left out of
    the text and is absent afterwards).  The profile as stored may come
    from an earlier version of the service: the properties that
    [getUserProfile] fills in may be absent, those that were introduced
    together being absent together.  [Date.now()] is read from the
    arguments, one argument for each reading.

    The enums of [../types], which is not among the sources, are taken
    with the members that the sources name and one more member standing
    for any other; whether a member is truthy is left open
    ([truthyStatus], [truthyFrequency]). *)

Module Storage.
Import Text.

Inductive Theme : Type := light | dark.

Inductive NotificationFrequency : Type :=
| OFF | DAILY | THREE_TIMES_DAY | EVERY_OTHER | WEEKLY | otherFrequency.

Inductive SubscriptionStatus : Type :=
| TRIAL | ACTIVE | EXPIRED | LIFETIME | otherStatus.

Inductive SubscriptionPlan : Type := NONE | YEARLY | otherPlan.

Definition isTRIAL (s : SubscriptionStatus) : bool :=
  match s with TRIAL => true | _ => false end.
Definition isACTIVE (s : SubscriptionStatus) : bool :=
  match s with ACTIVE => true | _ => false end.
Definition isLIFETIME (s : SubscriptionStatus) : bool :=
  match s with LIFETIME => true | _ => false end.
Definition isYEARLY (p : SubscriptionPlan) : bool :=
  match p with YEARLY => true | _ => false end.

(** The properties of the profile that concern the subscription. *)
Record Subscription : Type := mkSubscription {
  subscriptionStatus : SubscriptionStatus;
  subscriptionPlan : SubscriptionPlan;
  trialStartDate : Z;
  subscriptionExpiryDate : option Z
}.

Section Service.
Context {PersonaType DailyDigest DigestSection : Type}.
Variable DEFAULT : PersonaType.
Variable digestId : DailyDigest -> Str.
Variable title : DigestSection -> Str.
Variables truthyStatus : SubscriptionStatus -> bool.
Variable truthyFrequency : NotificationFrequency -> bool.
Variable toLowerCase : Str -> Str.

(** The profile as [JSON.parse] gives it. *)
Record StoredProfile : Type := mkStored {
  stored_streak : nat;
  stored_longestStreak : option nat;
  stored_activityHistory : option (list Str);
  stored_lastVisit : Str;
  stored_totalDigests : nat;
  stored_selectedPersona : PersonaType;
  stored_city : Str;
  (* [None]: absent, or neither ['light'] nor ['dark'] *)
  stored_theme : option Theme;
  stored_notificationFrequency : option NotificationFrequency;
  stored_lastNotification : option Z;
  stored_subscription : option Subscription;
  stored_completedLearningTopics : option (list Str)
}.

(** The profile as [getUserProfile] returns it. *)
Record UserProfile : Type := mkProfile {
  streak : nat;
  longestStreak : option nat;
  activityHistory : list Str;
  lastVisit : Str;
  totalDigests : nat;
  selectedPersona : PersonaType;
  city : Str;
  theme : Theme;
  notificationFrequency : NotificationFrequency;
  lastNotification : option Z;
  subscription : Subscription;
  completedLearningTopics : list Str
}.

Record SavedInsight : Type := mkInsight {
  insight_id : Str;
  insight_section : DigestSection;
  savedAt : Z;
  sourceDigestId : Str;
  sourceDigestDate : Str
}.

(** [localStorage]: the value under each key, [None] for no item. *)
Record LocalStorage : Type := mkStorage {
  DIGESTS_KEY : option (list DailyDigest);
  PROFILE_KEY : option StoredProfile;
  COLLECTION_KEY : option (list SavedInsight)
}.

Definition empty : LocalStorage := mkStorage None None None.

Definition setDigests (l : list DailyDigest) (st : LocalStorage)
    : LocalStorage :=
  mkStorage (Some l) (PROFILE_KEY st) (COLLECTION_KEY st).

Definition setCollection (l : list SavedInsight) (st : LocalStorage)
    : LocalStorage :=
  mkStorage (DIGESTS_KEY st) (PROFILE_KEY st) (Some l).

(** [SECRET_CODE = 'AK2026'] *)
Definition SECRET_CODE : Str := [65; 75; 50; 48; 50; 54]%N.

(** *** The profile *)

Definition getUserProfile (now : Z) (st : LocalStorage) : UserProfile :=
  match PROFILE_KEY st with
  | Some parsed =>
      let subscription :=
        match stored_subscription parsed with
        | Some sub =>
            if truthyStatus (subscriptionStatus sub) then sub
            else mkSubscription TRIAL NONE now (subscriptionExpiryDate sub)
        | None => mkSubscription TRIAL NONE now None
        end in
      mkProfile
        (stored_streak parsed)
        (match stored_activityHistory parsed with
         | Some _ => stored_longestStreak parsed
         | None => Some (stored_streak parsed)
         end)
        (match stored_activityHistory parsed with
         | Some l => l
         | None => []
         end)
        (stored_lastVisit parsed)
        (stored_totalDigests parsed)
        (stored_selectedPersona parsed)
        (stored_city parsed)
        (match stored_theme parsed with Some t => t | None => light end)
        (match stored_notificationFrequency parsed with
         | Some f => if truthyFrequency f then f else DAILY
         | None => DAILY
         end)
        (stored_lastNotification parsed)
        subscription
        (match stored_completedLearningTopics parsed with
         | Some l => l
         | None => []
         end)
  | None =>
      mkProfile 0 (Some 0%nat) [] [] 0 DEFAULT
        (* 'Bratislava' *)
        [66; 114; 97; 116; 105; 115; 108; 97; 118; 97]%N
        light DAILY (Some 0%Z)
        (mkSubscription TRIAL NONE now None) []
  end.

Definition saveUserProfile (p : UserProfile) (st : LocalStorage)
    : LocalStorage :=
  mkStorage (DIGESTS_KEY st)
    (Some (mkStored (streak p) (longestStreak p) (Some (activityHistory p))
             (lastVisit p) (totalDigests p) (selectedPersona p) (city p)
             (Some (theme p)) (Some (notificationFrequency p))
             (lastNotification p) (Some (subscription p))
             (Some (completedLearningTopics p))))
    (COLLECTION_KEY st).

(** [{ ...profile, subscriptionStatus: ..., ... }] and the like. *)
Definition withSubscription (sub : Subscription) (p : UserProfile)
    : UserProfile :=
  mkProfile (streak p) (longestStreak p) (activityHistory p) (lastVisit p)
    (totalDigests p) (selectedPersona p) (city p) (theme p)
    (notificationFrequency p) (lastNotification p) sub
    (completedLearningTopics p).

Definition withStatus (s : SubscriptionStatus) (sub : Subscription)
    : Subscription :=
  mkSubscription s (subscriptionPlan sub) (trialStartDate sub)
    (subscriptionExpiryDate sub).

Definition markLearningTopicComplete (now : Z) (topic : Str)
    (st : LocalStorage) : LocalStorage :=
  let profile := getUserProfile now st in
  if negb (existsb (fun t => eqb (toLowerCase t) (toLowerCase topic))
             (completedLearningTopics profile))
  then
    saveUserProfile
      (mkProfile (streak profile) (longestStreak profile)
         (activityHistory profile) (lastVisit profile)
         (totalDigests profile) (selectedPersona profile) (city profile)
         (theme profile) (notificationFrequency profile)
         (lastNotification profile) (subscription profile)
         (completedLearningTopics profile ++ [topic])) st
  else st.

(** *** The subscription *)

(** [7 * 24 * 60 * 60 * 1000] and [24 * 60 * 60 * 1000] *)
Definition trialLength : Z := 7 * 24 * 60 * 60 * 1000.
Definition dayLength : Z := 24 * 60 * 60 * 1000.

(** [read] is the time at which [getUserProfile] reads the clock, [now]
    the time of the reading that follows. *)
Definition getTrialDaysLeft (read now : Z) (st : LocalStorage) : Z :=
  let profile := getUserProfile read st in
  if negb (isTRIAL (subscriptionStatus (subscription profile))) then 0%Z
  else
    let diff := (now - trialStartDate (subscription profile))%Z in
    Z.max 0 (Qceiling (inject_Z (trialLength - diff) / inject_Z dayLength)).

Definition checkSubscriptionAccess (read now : Z) (st : LocalStorage)
    : LocalStorage * bool :=
  let profile := getUserProfile read st in
  let status := subscriptionStatus (subscription profile) in
  if isLIFETIME status then (st, true)
  else if isACTIVE status then (st, true)
  else if isTRIAL status then
    let diff := (now - trialStartDate (subscription profile))%Z in
    if (trialLength <? diff)%Z then
      let updated :=
        withSubscription (withStatus EXPIRED (subscription profile)) profile in
      (saveUserProfile updated st, false)
    else (st, true)
  else (st, false).

Definition activateSubscription (read now : Z) (plan : SubscriptionPlan)
    (st : LocalStorage) : LocalStorage :=
  let profile := getUserProfile read st in
  saveUserProfile
    (withSubscription
       (mkSubscription ACTIVE plan (trialStartDate (subscription profile))
          (Some (now + (if isYEARLY plan then 31536000000 else 2592000000))%Z))
       profile) st.

Definition redeemSecretCode (read : Z) (code : Str) (st : LocalStorage)
    : LocalStorage * bool :=
  if eqb (trim code) SECRET_CODE then
    let profile := getUserProfile read st in
    (saveUserProfile
       (withSubscription
          (mkSubscription LIFETIME NONE
             (trialStartDate (subscription profile))
             (subscriptionExpiryDate (subscription profile)))
          profile) st,
     true)
  else (st, false).

Definition simulateTrialExpiry (read now : Z) (st : LocalStorage)
    : LocalStorage :=
  let profile := getUserProfile read st in
  let pastDate := (now - 8 * 24 * 60 * 60 * 1000)%Z in
  saveUserProfile
    (withSubscription
       (mkSubscription TRIAL (subscriptionPlan (subscription profile))
          pastDate (subscriptionExpiryDate (subscription profile)))
       profile) st.

(** *** The streak *)

(** [today] is [new Date().toISOString().split('T')[0]], [yesterdayStr]
    the same of the date that [setDate(getDate() - 1)] leaves. *)
Definition updateStreak (read : Z) (today yesterdayStr : Str)
    (st : LocalStorage) : LocalStorage :=
  let profile := getUserProfile read st in
  if eqb (lastVisit profile) today then st
  else
    let newStreak :=
      if eqb (lastVisit profile) yesterdayStr then (streak profile + 1)%nat
      else 1%nat in
    let newLongest :=
      Nat.max (match longestStreak profile with
               | Some n => n   (* [n || 0] is [n] *)
               | None => 0
               end) newStreak in
    let newHistory :=
      if negb (existsb (eqb today) (activityHistory profile))
      then activityHistory profile ++ [today]
      else activityHistory profile in
    saveUserProfile
      (mkProfile newStreak (Some newLongest) newHistory today
         (totalDigests profile + 1) (selectedPersona profile) (city profile)
         (theme profile) (notificationFrequency profile)
         (lastNotification profile) (subscription profile)
         (completedLearningTopics profile)) st.

Definition setPersona (read : Z) (persona : PersonaType) (st : LocalStorage)
    : LocalStorage :=
  let profile := getUserProfile read st in
  saveUserProfile
    (mkProfile (streak profile) (longestStreak profile)
       (activityHistory profile) (lastVisit profile) (totalDigests profile)
       persona (city profile) (theme profile)
       (notificationFrequency profile) (lastNotification profile)
       (subscription profile) (completedLearningTopics profile)) st.

Definition toggleTheme (read : Z) (st : LocalStorage)
    : LocalStorage * Theme :=
  let profile := getUserProfile read st in
  let newTheme := match theme profile with dark => light | light => dark end in
  (saveUserProfile
     (mkProfile (streak profile) (longestStreak profile)
        (activityHistory profile) (lastVisit profile) (totalDigests profile)
        (selectedPersona profile) (city profile) newTheme
        (notificationFrequency profile) (lastNotification profile)
        (subscription profile) (completedLearningTopics profile)) st,
   newTheme).

Definition updateLastNotification (read now : Z) (st : LocalStorage)
    : LocalStorage :=
  let profile := getUserProfile read st in
  saveUserProfile
    (mkProfile (streak profile) (longestStreak profile)
       (activityHistory profile) (lastVisit profile) (totalDigests profile)
       (selectedPersona profile) (city profile) (theme profile)
       (notificationFrequency profile) (Some now)
       (subscription profile) (completedLearningTopics profile)) st.

(** *** The digests *)

Definition getDigests (st : LocalStorage) : list DailyDigest :=
  match DIGESTS_KEY st with Some l => l | None => [] end.

(** [current.findIndex(d => d.id === id)], [None] for [-1]. *)
Fixpoint findIndex (id : Str) (l : list DailyDigest) : option nat :=
  match l with
  | [] => None
  | d :: rest =>
      if eqb (digestId d) id then Some 0%nat
      else match findIndex id rest with
           | Some i => Some (S i)
           | None => None
           end
  end.

(** [current[i] = digest] for an index of the array. *)
Fixpoint setIndex (i : nat) (digest : DailyDigest) (l : list DailyDigest)
    : list DailyDigest :=
  match l, i with
  | [], _ => []
  | _ :: rest, O => digest :: rest
  | d :: rest, S i' => d :: setIndex i' digest rest
  end.

Definition saveDigest (read : Z) (today yesterdayStr : Str)
    (digest : DailyDigest) (st : LocalStorage) : LocalStorage :=
  let current := getDigests st in
  match findIndex (digestId digest) current with
  | Some existsIndex => setDigests (setIndex existsIndex digest current) st
  | None =>
      let st := updateStreak read today yesterdayStr st in
      setDigests (digest :: current) st
  end.

Definition deleteDigest (id : Str) (st : LocalStorage) : LocalStorage :=
  setDigests (filter (fun d => negb (eqb (digestId d) id)) (getDigests st)) st.

Definition getDigestById (id : Str) (st : LocalStorage)
    : option DailyDigest :=
  find (fun d => eqb (digestId d) id) (getDigests st).

(** *** The saved insights *)

Definition getSavedInsights (st : LocalStorage) : list SavedInsight :=
  match COLLECTION_KEY st with Some l => l | None => [] end.

(** [`${sourceDigestId}-${title.substring(0, 10).replace(/\s+/g, '')}`] *)
Definition insightIdOf (sourceDigestId sectionTitle : Str) : Str :=
  sourceDigestId ++ [45%N] ++ stripWhiteSpace (substring0 10 sectionTitle).

Definition saveInsight (now : Z) (section : DigestSection)
    (sourceDigestId sourceDigestDate : Str) (st : LocalStorage)
    : LocalStorage :=
  let current := getSavedInsights st in
  let id := insightIdOf sourceDigestId (title section) in
  if existsb (fun i => eqb (insight_id i) id) current then st
  else
    let newInsight :=
      mkInsight id section now sourceDigestId sourceDigestDate in
    setCollection (newInsight :: current) st.

Definition removeInsight (id : Str) (st : LocalStorage) : LocalStorage :=
  setCollection
    (filter (fun i => negb (eqb (insight_id i) id)) (getSavedInsights st)) st.

Definition isInsightSaved (sectionTitle sourceDigestId : Str)
    (st : LocalStorage) : bool :=
  let current := getSavedInsights st in
  let id := insightIdOf sourceDigestId sectionTitle in
  existsb (fun i => eqb (insight_id i) id) current.

(** *** Vocabulary of the statements *)

(** The calls of the service that write to [localStorage]. *)
Inductive Call : Type :=
| CheckSubscriptionAccess (read now : Z)
| ActivateSubscription (read now : Z) (plan : SubscriptionPlan)
| RedeemSecretCode (read : Z) (code : Str)
| SimulateTrialExpiry (read now : Z)
| UpdateStreak (read : Z) (today yesterdayStr : Str)
| SetPersona (read : Z) (persona : PersonaType)
| ToggleTheme (read : Z)
| UpdateLastNotification (read now : Z)
| MarkLearningTopicComplete (read : Z) (topic : Str)
| SaveDigest (read : Z) (today yesterdayStr : Str) (digest : DailyDigest)
| DeleteDigest (id : Str)
| SaveInsight (now : Z) (section : DigestSection)
    (sourceDigestId sourceDigestDate : Str)
| RemoveInsight (id : Str).

Definition call (st : LocalStorage) (c : Call) : LocalStorage :=
  match c with
  | CheckSubscriptionAccess read now =>
      fst (checkSubscriptionAccess read now st)
  | ActivateSubscription read now plan =>
      activateSubscription read now plan st
  | RedeemSecretCode read code => fst (redeemSecretCode read code st)
  | SimulateTrialExpiry read now => simulateTrialExpiry read now st
  | UpdateStreak read today yesterdayStr =>
      updateStreak read today yesterdayStr st
  | SetPersona read persona => setPersona read persona st
  | ToggleTheme read => fst (toggleTheme read st)
  | UpdateLastNotification read now => updateLastNotification read now st
  | MarkLearningTopicComplete read topic =>
      markLearningTopicComplete read topic st
  | SaveDigest read today yesterdayStr digest =>
      saveDigest read today yesterdayStr digest st
  | DeleteDigest id => deleteDigest id st
  | SaveInsight now section sourceDigestId sourceDigestDate =>
      saveInsight now section sourceDigestId sourceDigestDate st
  | RemoveInsight id => removeInsight id st
  end.

Definition calls (st : LocalStorage) (cs : list Call) : LocalStorage :=
  fold_left call cs st.


(** The time at which a call that rewrites the profile as it read it,
    but for a property of its own, reads it. *)
Definition readsAt (c : Call) : option Z :=
  match c with
  | SetPersona read _ => Some read
  | ToggleTheme read => Some read
  | UpdateLastNotification read _ => Some read
  | _ => None
  end.






End Service.

(** The enums as string enums: every member is truthy. *)
Definition allTruthy {A : Type} (_ : A) : bool := true.

(** Digests and sections named by numbers: the identifier, or the title,
    is the code unit of that number. *)
Definition numbered (n : nat) : Str := [N.of_nat n].

(** A storage whose profile was first written at 1 000 000 ms, by
    [setPersona], with personas, digests and sections named by
    numbers. *)
Definition installed : @LocalStorage nat nat nat :=
  setPersona 0%nat allTruthy allTruthy 1000000 1%nat empty.


(** Visits on the days '20' and '21', and on the day '25'. *)
Definition day20 : Str := [50; 48]%N.
Definition day21 : Str := [50; 49]%N.



End Storage.

(** ** The notification scheduler: [src/unnamed/part_002] *)

Module Notifier.
Import Text Storage.

(** [Notification.permission] *)
Inductive Permission : Type := granted | denied | default.

Definition isGranted (p : Permission) : bool :=
  match p with granted => true | _ => false end.

(** The titles and bodies of the source, by the line that writes them. *)
Inductive Title : Type :=
| dailyOverview      (* line 52 *)
| morningDigest      (* line 60 *)
| morningUpdate      (* line 71 *)
| afternoonBriefing  (* line 74 *)
| eveningSummary     (* line 77 *)
| freshNews          (* line 86 *)
| weeklySpecial.     (* line 95 *)

Inductive Body : Type :=
| newsReady          (* line 53 *)
| startTheDay        (* line 61 *)
| thisWeek.          (* line 96 *)

Section Scheduler.
Context {PersonaType : Type}.
Variable DEFAULT : PersonaType.
Variable truthyStatus : SubscriptionStatus -> bool.
Variable truthyFrequency : NotificationFrequency -> bool.

(** What the browser is asked to do, in order. *)
Inductive Effect : Type :=
| vibrate
| notify (title : Title) (body : Body).

(** [sendNotification]; [canVibrate] is [navigator.vibrate] being there,
    [read] and [sent] the readings of the clock by
    [updateLastNotification]. *)
Definition sendNotification {DailyDigest DigestSection : Type}
    (permission : Permission) (canVibrate : bool) (read sent : Z)
    (title : Title) (body : Body)
    (st : @LocalStorage PersonaType DailyDigest DigestSection)
    : @LocalStorage PersonaType DailyDigest DigestSection * list Effect :=
  if isGranted permission then
    (updateLastNotification DEFAULT truthyStatus truthyFrequency read sent st,
     (if canVibrate then [vibrate] else []) ++ [notify title body])
  else (st, []).

(** [profile.lastNotification || 0], the profile being read at
    [read0]. *)
Definition lastOf {DailyDigest DigestSection : Type} (read0 : Z)
    (st : @LocalStorage PersonaType DailyDigest DigestSection) : Z :=
  match lastNotification
          (getUserProfile DEFAULT truthyStatus truthyFrequency read0 st) with
  | Some n => n
  | None => 0%Z
  end.

(** [hoursSinceLast > n] *)
Definition hoursSince (now last : Z) : Q :=
  inject_Z (now - last) / inject_Z (1000 * 60 * 60).

(** [checkAndTriggerNotification]: [read0] and [now] are the readings of
    the clock by [getUserProfile] and by the scheduler, [currentHour] is
    [new Date().getHours()] and [day] is [new Date().getDay()]. *)
Definition checkAndTriggerNotification {DailyDigest DigestSection : Type}
    (permission : Permission) (canVibrate : bool)
    (read0 now : Z) (currentHour day : Z) (read sent : Z)
    (st : @LocalStorage PersonaType DailyDigest DigestSection)
    : @LocalStorage PersonaType DailyDigest DigestSection * list Effect :=
  let profile := getUserProfile DEFAULT truthyStatus truthyFrequency read0 st in
  let freq := notificationFrequency profile in
  match freq with
  | OFF => (st, [])
  | _ =>
      if negb (isGranted permission) then (st, [])
      else
        let last := lastOf read0 st in
        let hoursSinceLast := hoursSince now last in
        let decision : option (Title * Body) :=
          match freq with
          | DAILY =>
              if (9 <=? currentHour)%Z && Qltb 20 hoursSinceLast
              then Some (morningDigest, startTheDay) else None
          | THREE_TIMES_DAY =>
              if Qltb 3 hoursSinceLast then
                if (9 <=? currentHour)%Z && (currentHour <? 13)%Z
                then Some (morningUpdate, newsReady)
                else if (13 <=? currentHour)%Z && (currentHour <? 18)%Z
                then Some (afternoonBriefing, newsReady)
                else if (18 <=? currentHour)%Z
                then Some (eveningSummary, newsReady)
                else None
              else None
          | EVERY_OTHER =>
              if (9 <=? currentHour)%Z && Qltb 46 hoursSinceLast
              then Some (freshNews, newsReady) else None
          | WEEKLY =>
              if (day =? 1)%Z && (9 <=? currentHour)%Z
                 && Qltb 150 hoursSinceLast
              then Some (weeklySpecial, thisWeek) else None
          | _ => None
          end in
        match decision with
        | Some (title, body) =>
            sendNotification permission canVibrate read sent title body st
        | None => (st, [])
        end
  end.

End Scheduler.

(** The profile of [Storage.installed] with the frequency it has by
    default, [DAILY], and a first check on a morning at 10, ten days
    after the epoch. *)
Definition morning : @LocalStorage nat nat nat * list Effect :=
  checkAndTriggerNotification 0%nat allTruthy allTruthy granted true
    864000000 864000000 10 3 864000001 864000002 installed.

End Notifier.

(** * Proofs *)

(** ** Numbers *)

Module JSFacts.

Lemma Qltb_lt (a b : Q) : Qltb a b = true <-> a < b.
Proof.
  unfold Qltb. rewrite negb_true_iff. split.
  - intros H. apply Qnot_le_lt. intros L.
    apply Qle_bool_iff in L. congruence.
  - intros H. destruct (Qle_bool b a) eqn:E; [|reflexivity].
    apply Qle_bool_iff in E. exfalso. apply (Qlt_not_le _ _ H E).
Qed.

Lemma Qltb_ge (a b : Q) : Qltb a b = false <-> b <= a.
Proof.
  unfold Qltb. rewrite negb_false_iff. apply Qle_bool_iff.
Qed.

Lemma Qle_bool_gt (a b : Q) : Qle_bool a b = false <-> b < a.
Proof.
  rewrite <- Qltb_lt. unfold Qltb. rewrite negb_true_iff. reflexivity.
Qed.

Lemma ofNat_S (n : nat) : ofNat (S n) == ofNat n + 1.
Proof.
  unfold ofNat. rewrite Nat2Z.inj_succ, <- Z.add_1_r, inject_Z_plus.
  reflexivity.
Qed.

Lemma ofNat_nonneg (n : nat) : 0 <= ofNat n.
Proof.
  unfold ofNat. change 0 with (inject_Z 0). rewrite <- Zle_Qle. lia.
Qed.

Lemma Math_PI_pos : 0 < Math_PI.
Proof. reflexivity. Qed.

(** A number is at most the count of its ceiling. *)
Lemma le_ofNat_ceiling (q : Q) : q <= ofNat (Z.to_nat (Qceiling q)).
Proof.
  apply Qle_trans with (inject_Z (Qceiling q)); [apply Qle_ceiling|].
  unfold ofNat. rewrite <- Zle_Qle. lia.
Qed.

End JSFacts.
Import JSFacts.

(** Case analysis on the boolean comparisons of the source. *)
Ltac cmp_cases :=
  repeat match goal with
  | H : Qltb _ _ = true |- _ => apply Qltb_lt in H
  | H : Qltb _ _ = false |- _ => apply Qltb_ge in H
  | H : Qle_bool _ _ = true |- _ => apply Qle_bool_iff in H
  | H : Qle_bool _ _ = false |- _ => apply Qle_bool_gt in H
  end.

(** ** The heading update *)

Module HeadingFacts.
Import Heading.

(** The first loop, given fuel for all its iterations: it ends above
    [-pi], having added whole turns; from at most [-pi] it ends at most at
    [pi], and above [-pi] it does nothing. *)
Lemma while_le_spec (fuel : nat) : forall diff,
  - Math_PI < diff + Math_PI * 2 * ofNat fuel ->
  - Math_PI < while_le fuel diff /\
  (exists k : nat, while_le fuel diff == diff + Math_PI * 2 * ofNat k) /\
  (diff <= - Math_PI -> while_le fuel diff <= Math_PI) /\
  (- Math_PI < diff -> while_le fuel diff = diff).
Proof.
  pose proof Math_PI_pos as P.
  induction fuel as [|fuel IH]; intros diff H; simpl.
  - change (ofNat 0) with 0 in H.
    repeat split; try lra. exists O. change (ofNat 0) with 0. lra.
  - destruct (Qle_bool diff (- Math_PI)) eqn:E; cmp_cases.
    + pose proof (ofNat_S fuel) as HS.
      assert (H' : - Math_PI < diff + Math_PI * 2 + Math_PI * 2 * ofNat fuel).
      { rewrite HS in H. lra. }
      destruct (IH _ H') as (A & (k & B) & C & D).
      repeat split.
      * exact A.
      * exists (S k). rewrite B, (ofNat_S k). lra.
      * intros _. destruct (Qlt_le_dec (- Math_PI) (diff + Math_PI * 2)) as [G|G].
        -- rewrite (D G). lra.
        -- exact (C G).
      * intros G. lra.
    + repeat split; try lra. exists O. change (ofNat 0) with 0. lra.
Qed.

(** The second loop, symmetrically. *)
Lemma while_gt_spec (fuel : nat) : forall diff,
  diff - Math_PI * 2 * ofNat fuel <= Math_PI ->
  while_gt fuel diff <= Math_PI /\
  (exists k : nat, while_gt fuel diff == diff - Math_PI * 2 * ofNat k) /\
  (Math_PI < diff -> - Math_PI < while_gt fuel diff) /\
  (diff <= Math_PI -> while_gt fuel diff = diff).
Proof.
  pose proof Math_PI_pos as P.
  induction fuel as [|fuel IH]; intros diff H; simpl.
  - change (ofNat 0) with 0 in H.
    repeat split; try lra. exists O. change (ofNat 0) with 0. lra.
  - destruct (Qltb Math_PI diff) eqn:E; cmp_cases.
    + pose proof (ofNat_S fuel) as HS.
      assert (H' : diff - Math_PI * 2 - Math_PI * 2 * ofNat fuel <= Math_PI).
      { rewrite HS in H. lra. }
      destruct (IH _ H') as (A & (k & B) & C & D).
      repeat split.
      * exact A.
      * exists (S k). rewrite B, (ofNat_S k). lra.
      * intros _. destruct (Qlt_le_dec Math_PI (diff - Math_PI * 2)) as [G|G].
        -- exact (C G).
        -- rewrite (D G). lra.
      * intros G. lra.
    + repeat split; try lra. exists O. change (ofNat 0) with 0. lra.
Qed.

(** [turns diff] whole turns cover [diff]. *)
Lemma turns_cover (diff : Q) : Qabs diff + Math_PI * 2 <= Math_PI * 2 * ofNat (turns diff).
Proof.
  pose proof Math_PI_pos as P.
  unfold turns. rewrite ofNat_S.
  pose proof (le_ofNat_ceiling (Qabs diff / (Math_PI * 2))) as L.
  set (n := ofNat _) in *.
  assert (E : Qabs diff == Qabs diff / (Math_PI * 2) * (Math_PI * 2)).
  { field. lra. }
  rewrite E at 1.
  set (q := Qabs diff / (Math_PI * 2)) in *.
  assert (q * (Math_PI * 2) <= n * (Math_PI * 2)).
  { apply Qmult_le_compat_r; lra. }
  lra.
Qed.

Lemma abs_bounds (d : Q) : - Qabs d <= d /\ d <= Qabs d.
Proof.
  split.
  - pose proof (Qle_Qabs (- d)) as H. rewrite Qabs_opp in H. lra.
  - apply Qle_Qabs.
Qed.


(** An input in [(-pi, pi]] is its own normal form. *)
Lemma normalize_id (diff : Q) :
  - Math_PI < diff -> diff <= Math_PI -> normalize diff = diff.
Proof.
  intros A B. unfold normalize.
  destruct (while_le_spec (turns diff) diff) as (_ & _ & _ & D).
  { pose proof (turns_cover diff). pose proof (abs_bounds diff).
    pose proof Math_PI_pos. lra. }
  rewrite (D A).
  destruct (while_gt_spec (turns diff) diff) as (_ & _ & _ & D').
  { pose proof (turns_cover diff). pose proof (abs_bounds diff).
    pose proof Math_PI_pos. lra. }
  exact (D' B).
Qed.

End HeadingFacts.

(** ** The shared steps *)

Module StepperFacts.
Import Stepper.

#[local] Arguments currentLength : simpl never.
#[local] Arguments initialTail : simpl never.
#[local] Arguments Nat.ltb : simpl never.
#[local] Arguments Nat.mul : simpl never.

Section Generic.
Context {M : MathLib}.

Lemma currentLength_eq (s : State) :
  currentLength s = (80 + 40 * score s)%nat.
Proof.
  unfold currentLength, TAIL_LENGTH, GROWTH_PER_FOOD, SEGMENT_SPACING. lia.
Qed.

(** Steps 1 to 3 leave tail and score alone; step 4 is one unshift and at
    most one pop. *)
Lemma stepped_history (s : State) :
  history (stepped s) =
    if (currentLength s <? S (length (history s)))%nat
    then removelast (pos (wraparound (moveHead (updateDirection s))) :: history s)
    else pos (wraparound (moveHead (updateDirection s))) :: history s.
Proof.
  unfold stepped, updateTail. cbn.
  change (currentLength (set_history _ _)) with (currentLength s).
  destruct (currentLength s <? S (length (history s)))%nat; reflexivity.
Qed.

Lemma stepped_frame (s : State) :
  score (stepped s) = score s /\ food (stepped s) = food s /\
  width (stepped s) = width s /\ height (stepped s) = height s /\
  isPlayingRef (stepped s) = isPlayingRef s /\
  isPlaying (stepped s) = isPlaying s /\
  randomCalls (stepped s) = randomCalls s /\
  frameRequested (stepped s) = frameRequested s /\
  targetAngle (stepped s) = targetAngle s /\
  angle (stepped s) = Qred (ease (angle s) (targetAngle s)) /\
  pos (stepped s) = pos (wraparound (moveHead (updateDirection s))).
Proof.
  unfold stepped, updateTail.
  match goal with |- context [if ?c then _ else _] => destruct c end;
    repeat split; reflexivity.
Qed.

Lemma removelast_length {A} (l : list A) :
  length (removelast l) = pred (length l).
Proof.
  induction l as [|a [|b l] IH]; try reflexivity.
  change (length (removelast (a :: b :: l))) with (S (length (removelast (b :: l)))).
  rewrite IH. reflexivity.
Qed.

(** The length of the tail after step 4. *)
Lemma stepped_length (s : State) :
  length (history (stepped s)) =
    if (currentLength s <? S (length (history s)))%nat
    then length (history s) else S (length (history s)).
Proof.
  rewrite stepped_history.
  destruct (currentLength s <? S (length (history s)))%nat.
  - rewrite removelast_length. reflexivity.
  - reflexivity.
Qed.

Lemma stepped_capped (s : State) : capped s -> capped (stepped s).
Proof.
  unfold capped. intros H.
  assert (E : currentLength (stepped s) = currentLength s).
  { rewrite !currentLength_eq. destruct (stepped_frame s) as (-> & _). reflexivity. }
  rewrite E, stepped_length.
  destruct (Nat.ltb_spec (currentLength s) (S (length (history s)))); lia.
Qed.

Variable spawnFood : State -> State.
Hypothesis spawn_frame : writesFood spawnFood.

Lemma advance_cases (s : State) :
  (eats (stepped s) = true /\
   advance spawnFood s = spawnFood (set_score (score s + 1) (stepped s))) \/
  (eats (stepped s) = false /\ advance spawnFood s = stepped s).
Proof.
  unfold advance, foodCollision.
  destruct (stepped_frame s) as (-> & _).
  destruct (eats (stepped s)); [left | right]; split; reflexivity.
Qed.

Lemma advance_frame (s : State) :
  history (advance spawnFood s) = history (stepped s) /\
  pos (advance spawnFood s) = pos (stepped s) /\
  angle (advance spawnFood s) = angle (stepped s) /\
  targetAngle (advance spawnFood s) = targetAngle s /\
  width (advance spawnFood s) = width s /\
  height (advance spawnFood s) = height s /\
  isPlayingRef (advance spawnFood s) = isPlayingRef s /\
  isPlaying (advance spawnFood s) = isPlaying s /\
  frameRequested (advance spawnFood s) = frameRequested s /\
  (score s <= score (advance spawnFood s))%nat.
Proof.
  destruct (stepped_frame s) as (Hs & _ & Hw & Hh & Hp & Hp' & _ & Hf & Ht & _).
  destruct (advance_cases s) as [[_ ->] | [_ ->]].
  - destruct (spawn_frame (set_score (score s + 1) (stepped s))) as (p & n & ->).
    cbn. repeat split; auto. lia.
  - repeat split; auto. lia.
Qed.

Lemma advance_capped (s : State) : capped s -> capped (advance spawnFood s).
Proof.
  intros H. apply stepped_capped in H. unfold capped in *.
  destruct (stepped_frame s) as (Hs & _).
  destruct (advance_cases s) as [[_ ->] | [_ ->]]; [|exact H].
  destruct (spawn_frame (set_score (score s + 1) (stepped s))) as (p & n & ->).
  rewrite currentLength_eq in *. cbn. rewrite Hs in H. lia.
Qed.

(** [initGame] resets to the start corner; the spawner then moves the food. *)
Lemma initGame_isReset (fullReset : bool) (s : State) :
  let s' := initGame spawnFood fullReset s in
  pos s' = point (startX s) (startY s) /\ angle s' = Math_PI /\
  targetAngle s' = Math_PI /\
  history s' = initialTail (point (startX s) (startY s)) /\
  score s' = 0%nat /\ width s' = width s /\ height s' = height s /\
  frameRequested s' = frameRequested s /\
  (fullReset = true -> isPlaying s' = false /\ isPlayingRef s' = false) /\
  (fullReset = false ->
   isPlaying s' = isPlaying s /\ isPlayingRef s' = isPlayingRef s).
Proof.
  unfold initGame.
  match goal with |- context [spawnFood ?t] =>
    destruct (spawn_frame t) as (p & n & ->) end.
  destruct fullReset; cbn; repeat split; try reflexivity; try discriminate.
Qed.

Lemma initialTail_length (p : Point) :
  length (initialTail p) = (TAIL_LENGTH * SEGMENT_SPACING)%nat.
Proof. unfold initialTail. rewrite length_map, length_seq. reflexivity. Qed.

Lemma initGame_capped (fullReset : bool) (s : State) :
  capped (initGame spawnFood fullReset s).
Proof.
  destruct (initGame_isReset fullReset s) as (_ & _ & _ & Hh & Hs & _).
  unfold capped. rewrite currentLength_eq, Hh, Hs, initialTail_length.
  reflexivity.
Qed.

End Generic.

(** The events other than a frame leave tail and score alone. *)
Lemma startGame_capped (s : State) : capped s -> capped (startGame s).
Proof. exact (fun H => H). Qed.

Lemma handleResize_capped (w h : Q) (s : State) :
  capped s -> capped (handleResize w h s).
Proof. exact (fun H => H). Qed.

Lemma handleInteraction_capped {M : MathLib} (cx cy : Q) (s : State) :
  capped s -> capped (handleInteraction cx cy s).
Proof.
  unfold handleInteraction. destruct (negb (isPlayingRef s)); exact (fun H => H).
Qed.

Lemma bubble_capped (s : State) : capped s -> capped (bubble s).
Proof. unfold bubble. destruct (negb (isPlayingRef s)); exact (fun H => H). Qed.

(** The index of the sample after next. *)
Lemma next_sample (i k : nat) :
  (i + SEGMENT_SPACING + k * SEGMENT_SPACING = i + S k * SEGMENT_SPACING)%nat.
Proof. unfold SEGMENT_SPACING. lia. Qed.

Lemma first_sample (i : nat) : (i + 0 * SEGMENT_SPACING = i)%nat.
Proof. unfold SEGMENT_SPACING. lia. Qed.

(** Step 3 on one coordinate. *)
Lemma wrap_below (bound v : Q) : v < 0 -> wrap bound v = bound.
Proof.
  intros H. unfold wrap. apply Qltb_lt in H. rewrite H.
  assert (E : Qltb bound bound = false) by (apply Qltb_ge; apply Qle_refl).
  rewrite E. reflexivity.
Qed.

Lemma wrap_above (bound v : Q) : 0 <= v -> bound < v -> wrap bound v = 0.
Proof.
  intros H0 H. unfold wrap. apply Qltb_ge in H0. rewrite H0.
  apply Qltb_lt in H. rewrite H. reflexivity.
Qed.

Lemma wrap_inside (bound v : Q) : 0 <= v -> v <= bound -> wrap bound v = v.
Proof.
  intros H0 H. unfold wrap. apply Qltb_ge in H0. rewrite H0.
  apply Qltb_ge in H. rewrite H. reflexivity.
Qed.

End StepperFacts.

(** ** [src/components/SnakeGame.tsx]: the frame callback *)

Module SrcComponentsFacts.
Import Stepper StepperFacts SrcComponents.

#[local] Arguments Stepper.initGame : simpl never.
#[local] Arguments SrcComponents.initGame : simpl never.
#[local] Arguments crashAt : simpl never.
#[local] Arguments advance : simpl never.
#[local] Arguments Nat.ltb : simpl never.

Section Facts.
Context {M : MathLib}.

Lemma src_spawnFood_writesFood : writesFood spawnFood.
Proof. intros s. unfold spawnFood. eexists _, _. reflexivity. Qed.

(** The collision loop either finds no crash or returns the reset state. *)
Lemma src_selfCollision_cases (fuel : nat) (s : State) : forall i,
  selfCollision fuel i s = None \/
  selfCollision fuel i s = Some (initGame true s).
Proof.
  induction fuel as [|fuel IH]; intros i; simpl; [left; reflexivity|].
  destruct (i <? length (history s))%nat; [|left; reflexivity].
  destruct (crashAt s i); [right; reflexivity | apply IH].
Qed.

(** Without a crash at any sampled index the loop finds none. *)
Lemma src_selfCollision_none (fuel : nat) (s : State) : forall i,
  (forall k, (i + k * SEGMENT_SPACING < length (history s))%nat ->
             crashAt s (i + k * SEGMENT_SPACING) = false) ->
  selfCollision fuel i s = None.
Proof.
  induction fuel as [|fuel IH]; intros i H; simpl; [reflexivity|].
  destruct (Nat.ltb_spec i (length (history s))) as [L|L]; [|reflexivity].
  pose proof (H O) as H0. rewrite first_sample in H0.
  rewrite (H0 L). apply IH. intros k Hk.
  rewrite next_sample in *. apply H. exact Hk.
Qed.

(** A crash at a sampled index within the fuel is found. *)
Lemma src_selfCollision_some (fuel : nat) (s : State) : forall i k,
  (k < fuel)%nat ->
  (i + k * SEGMENT_SPACING < length (history s))%nat ->
  crashAt s (i + k * SEGMENT_SPACING) = true ->
  selfCollision fuel i s = Some (initGame true s).
Proof.
  induction fuel as [|fuel IH]; intros i k Hk L C; [lia|]. simpl.
  destruct (Nat.ltb_spec i (length (history s))) as [L'|L']; [|lia].
  destruct (crashAt s i) eqn:E; [reflexivity|].
  destruct k as [|k]; [rewrite first_sample in C; congruence|].
  apply (IH _ k); [lia | |]; rewrite next_sample; assumption.
Qed.

(** The fuel of [loop] is enough: more fuel changes nothing. *)
Lemma src_selfCollision_fuel (fuel : nat) (s : State) : forall i more,
  (length (history s) <= i + fuel * SEGMENT_SPACING)%nat ->
  selfCollision (fuel + more) i s = selfCollision fuel i s.
Proof.
  induction fuel as [|fuel IH]; intros i more H.
  - rewrite Nat.add_0_l. destruct more as [|more]; [reflexivity|]. simpl.
    destruct (Nat.ltb_spec i (length (history s))) as [L|L]; [lia|reflexivity].
  - simpl. destruct (i <? length (history s))%nat; [|reflexivity].
    destruct (crashAt s i); [reflexivity|].
    apply IH. unfold SEGMENT_SPACING in *. lia.
Qed.

(** A frame that starts and ends playing has run steps 1 to 5 and taken
    no reset. *)
Lemma src_loop_playing (s : State) :
  isPlayingRef s = true -> isPlayingRef (loop s) = true ->
  loop s = requestAnimationFrame (advance spawnFood s).
Proof.
  intros P Q. unfold loop in *. rewrite P in *.
  pose proof (advance_frame spawnFood src_spawnFood_writesFood s)
    as (_ & _ & _ & _ & _ & _ & R & _).
  rewrite P in R.
  destruct (src_selfCollision_cases
              (length (history (advance spawnFood s))) (advance spawnFood s) 15)
    as [E | E]; rewrite E in *.
  - unfold bubble. rewrite R. reflexivity.
  - destruct (initGame_isReset spawnFood src_spawnFood_writesFood true
                (advance spawnFood s)) as (_ & _ & _ & _ & _ & _ & _ & _ & I & _).
    destruct (I eq_refl) as [_ I2]. unfold initGame in Q. congruence.
Qed.

(** With no frame pending, the start button and the browser's frames
    leave the state as the button alone does, and no frame pending. *)
Lemma src_stopped (s : State) :
  frameRequested s = false ->
  forall n, run s (Start :: repeat Frame n) = startGame s /\
            frameRequested (run s (Start :: repeat Frame n)) = false.
Proof.
  intros F n. change (run s (Start :: repeat Frame n))
    with (run (startGame s) (repeat Frame n)).
  assert (F' : frameRequested (startGame s) = false) by exact F.
  revert F'. generalize (startGame s). clear F.
  induction n as [|n IH]; intros r F; [split; [reflexivity | exact F]|].
  change (run r (repeat Frame (S n))) with (run (frame r) (repeat Frame n)).
  unfold frame. rewrite F. apply IH. exact F.
Qed.

(** A frame adds at most one point to the trail, or leaves the 80 points
    of a reset. *)
Lemma src_loop_length (s : State) :
  (length (history (loop s)) <= S (length (history s)))%nat \/
  length (history (loop s)) = 80%nat.
Proof.
  unfold loop. destruct (isPlayingRef s).
  - destruct (src_selfCollision_cases
                (length (history (advance spawnFood s))) (advance spawnFood s) 15)
      as [-> | ->].
    + left. unfold bubble.
      destruct (advance_frame _ src_spawnFood_writesFood s) as (E & _).
      destruct (negb _); cbn; rewrite E, stepped_length;
        destruct (_ <? _)%nat; lia.
    + right.
      destruct (initGame_isReset spawnFood src_spawnFood_writesFood true
                  (advance spawnFood s)) as (_ & _ & _ & E & _).
      unfold initGame. rewrite E. apply initialTail_length.
  - left. unfold bubble. destruct (negb _); cbn; lia.
Qed.

Lemma src_run_length (es : list Event) : forall s n,
  (length (history s) <= 80 + n)%nat ->
  (length (history (run s es)) <= 80 + (n + framesOf es))%nat.
Proof.
  induction es as [|e es IH]; intros s n H; [cbn; lia|].
  change (run s (e :: es)) with (run (step s e) es).
  destruct e as [| |cx cy|w h].
  - change (framesOf (Frame :: es)) with (S (framesOf es)).
    replace (n + S (framesOf es))%nat with (S n + framesOf es)%nat by lia.
    apply IH. simpl step. unfold frame.
    destruct (frameRequested s); [|lia].
    destruct (src_loop_length (set_frameRequested false s)) as [L | L];
      change (history (set_frameRequested false s)) with (history s) in L;
      lia.
  - apply IH. exact H.
  - apply IH. simpl step. unfold handleInteraction.
    destruct (negb (isPlayingRef s)); exact H.
  - apply IH. exact H.
Qed.

(** An idle frame leaves the trail alone. *)
Lemma src_loop_idle (s : State) :
  isPlayingRef s = false -> history (loop s) = history s.
Proof.
  intros H. unfold loop. rewrite H. unfold bubble. rewrite H. reflexivity.
Qed.

Lemma src_mount_length (iw ih w h : Q) :
  length (history (mount iw ih w h)) = 80%nat.
Proof.
  unfold mount.
  destruct (initGame_isReset spawnFood src_spawnFood_writesFood false
              (handleResize w h (initialRefs iw ih)))
    as (_ & _ & _ & R & _ & _ & _ & _ & _ & I).
  destruct (I eq_refl) as [_ I2]. fold initGame in R, I2.
  rewrite src_loop_idle; [|exact I2].
  rewrite R. apply initialTail_length.
Qed.

Lemma src_loop_capped (s : State) : capped s -> capped (loop s).
Proof.
  intros H. unfold loop. destruct (isPlayingRef s).
  - destruct (src_selfCollision_cases
                (length (history (advance spawnFood s))) (advance spawnFood s) 15)
      as [-> | ->].
    + apply bubble_capped. apply advance_capped;
        [exact src_spawnFood_writesFood | exact H].
    + apply initGame_capped. exact src_spawnFood_writesFood.
  - apply bubble_capped. exact H.
Qed.

Lemma src_step_capped (s : State) (e : Event) : capped s -> capped (step s e).
Proof.
  intros H. destruct e; simpl.
  - unfold frame. destruct (frameRequested s); [|exact H].
    apply src_loop_capped. exact H.
  - exact H.
  - apply handleInteraction_capped. exact H.
  - exact H.
Qed.

Lemma src_run_capped (es : list Event) : forall s, capped s -> capped (run s es).
Proof.
  induction es as [|e es IH]; intros s H; simpl; [exact H|].
  apply IH. apply src_step_capped. exact H.
Qed.

Lemma src_mount_capped (iw ih w h : Q) : capped (mount iw ih w h).
Proof.
  unfold mount. apply src_loop_capped. apply initGame_capped.
  exact src_spawnFood_writesFood.
Qed.

End Facts.
End SrcComponentsFacts.

(** ** [src/unnamed/part_000]: the frame callback *)

Module Part000Facts.
Import Stepper StepperFacts Part000.

#[local] Arguments Stepper.initGame : simpl never.
#[local] Arguments Part000.initGame : simpl never.
#[local] Arguments crashAt : simpl never.
#[local] Arguments advance : simpl never.
#[local] Arguments Nat.ltb : simpl never.

Section Facts.
Context {M : MathLib}.

Lemma p0_spawnFood_writesFood : writesFood spawnFood.
Proof.
  intros s. unfold spawnFood.
  destruct (spawnWhile s 100 0 0 0) as [[[valid newX] newY] attempts].
  eexists _, _. reflexivity.
Qed.

(** The sampling loop: it stops at the first draw outside the forbidden
    zone, or after [left] draws inside it. *)
Lemma p0_spawnWhile_spec (s : State) (left : nat) : forall attempts nx ny,
  match spawnWhile s left attempts nx ny with
  | (valid, newX, newY, after) =>
      (forall j, (attempts <= j)%nat -> (S j < after)%nat ->
                 rejected s j = true) /\
      (valid = true ->
       exists j, after = S j /\ (attempts <= j < attempts + left)%nat /\
                 newX = drawX s j /\ newY = drawY s j /\
                 rejected s j = false) /\
      (valid = false ->
       after = (attempts + left)%nat /\
       forall j, (attempts <= j < attempts + left)%nat -> rejected s j = true)
  end.
Proof.
  induction left as [|left IH]; intros attempts nx ny; simpl.
  - repeat split; try discriminate; try lia; intros; lia.
  - destruct (negb (inBoxX s (drawX s attempts))
              || negb (inBoxY s (drawY s attempts))) eqn:E.
    + repeat split; try discriminate; [intros; lia|].
      intros _. exists attempts. repeat split; try lia.
      unfold rejected. rewrite <- negb_andb in E.
      apply negb_true_iff in E. exact E.
    + assert (R : rejected s attempts = true).
      { unfold rejected. rewrite <- negb_andb in E.
        apply negb_false_iff in E. exact E. }
      specialize (IH (S attempts) (drawX s attempts) (drawY s attempts)).
      destruct (spawnWhile s left (S attempts) (drawX s attempts)
                  (drawY s attempts)) as [[[valid newX] newY] after].
      destruct IH as (A & B & C). repeat split.
      * intros j L1 L2. destruct (Nat.eq_dec j attempts) as [-> | N];
          [exact R | apply A; lia].
      * intros V. destruct (B V) as (j & E1 & E2 & E3).
        exists j. repeat split; try apply E3; try lia; assumption.
      * apply C in H. lia.
      * intros j L. apply C in H. destruct H as [_ H].
        destruct (Nat.eq_dec j attempts) as [-> | N];
          [exact R | apply H; lia].
Qed.


Lemma p0_selfCollision_capped (fuel : nat) : forall i s,
  capped s -> capped (selfCollision fuel i s).
Proof.
  induction fuel as [|fuel IH]; intros i s H; simpl; [exact H|].
  destruct (i <? length (history s))%nat; [|exact H].
  apply IH. destruct (crashAt s i); [|exact H].
  apply initGame_capped. exact p0_spawnFood_writesFood.
Qed.

(** Once the play flag is down the loop cannot raise it. *)
Lemma p0_selfCollision_stopped (fuel : nat) : forall i s,
  isPlayingRef s = false -> isPlayingRef (selfCollision fuel i s) = false.
Proof.
  induction fuel as [|fuel IH]; intros i s H; simpl; [exact H|].
  destruct (i <? length (history s))%nat; [|exact H].
  apply IH. destruct (crashAt s i); [|exact H].
  apply (initGame_isReset spawnFood p0_spawnFood_writesFood true s).
  reflexivity.
Qed.

(** A frame that ends playing has taken no reset. *)
Lemma p0_selfCollision_playing (fuel : nat) : forall i s,
  isPlayingRef (selfCollision fuel i s) = true -> selfCollision fuel i s = s.
Proof.
  induction fuel as [|fuel IH]; intros i s H; simpl in *; [reflexivity|].
  destruct (i <? length (history s))%nat; [|reflexivity].
  destruct (crashAt s i).
  - rewrite p0_selfCollision_stopped in H; [discriminate|].
    apply (initGame_isReset spawnFood p0_spawnFood_writesFood true s).
    reflexivity.
  - apply IH. exact H.
Qed.

(** Without a crash at any sampled index the loop changes nothing. *)
Lemma p0_selfCollision_none (fuel : nat) (s : State) : forall i,
  (forall k, (i + k * SEGMENT_SPACING < length (history s))%nat ->
             crashAt s (i + k * SEGMENT_SPACING) = false) ->
  selfCollision fuel i s = s.
Proof.
  induction fuel as [|fuel IH]; intros i H; simpl; [reflexivity|].
  destruct (Nat.ltb_spec i (length (history s))) as [L|L]; [|reflexivity].
  pose proof (H O) as H0. rewrite first_sample in H0.
  rewrite (H0 L). apply IH. intros k Hk.
  rewrite next_sample in *. apply H. exact Hk.
Qed.

(** The loop keeps a reset state reset, whatever it does to the food. *)
Lemma p0_initGame_resetOf (s : State) : resetOf s (initGame true s).
Proof.
  destruct (initGame_isReset spawnFood p0_spawnFood_writesFood true s)
    as (A & B & C & D & E & F & G & H & I & _).
  destruct (I eq_refl) as [I1 I2].
  unfold resetOf, isReset. repeat split; assumption.
Qed.

Lemma p0_resetOf_again (s r : State) : resetOf s r -> resetOf s (initGame true r).
Proof.
  intros (_ & W & H & F).
  pose proof (p0_initGame_resetOf r) as (R & W' & H' & F').
  unfold resetOf. unfold startX, startY in *. rewrite W, H in R.
  repeat split; try apply R; congruence.
Qed.

Lemma p0_selfCollision_resetOf (fuel : nat) (s : State) : forall i r,
  resetOf s r -> resetOf s (selfCollision fuel i r).
Proof.
  induction fuel as [|fuel IH]; intros i r H; simpl; [exact H|].
  destruct (i <? length (history r))%nat; [|exact H].
  apply IH. destruct (crashAt r i); [|exact H].
  apply p0_resetOf_again. exact H.
Qed.

(** A crash at a sampled index within the fuel leaves a reset state. *)
Lemma p0_selfCollision_crash (fuel : nat) (s : State) : forall i k,
  (k < fuel)%nat ->
  (i + k * SEGMENT_SPACING < length (history s))%nat ->
  crashAt s (i + k * SEGMENT_SPACING) = true ->
  resetOf s (selfCollision fuel i s).
Proof.
  induction fuel as [|fuel IH]; intros i k Hk L C; [lia|]. simpl.
  destruct (Nat.ltb_spec i (length (history s))) as [L'|L']; [|lia].
  destruct (crashAt s i) eqn:E.
  - apply p0_selfCollision_resetOf. apply p0_initGame_resetOf.
  - destruct k as [|k]; [rewrite first_sample in C; congruence|].
    apply (IH _ k); [lia | |]; rewrite next_sample; assumption.
Qed.

(** The fuel of [loop] is enough: more fuel changes nothing. *)
Lemma p0_selfCollision_fuel (fuel : nat) : forall i s more,
  (Nat.max (length (history s)) (TAIL_LENGTH * SEGMENT_SPACING)
     <= i + fuel * SEGMENT_SPACING)%nat ->
  selfCollision (fuel + more) i s = selfCollision fuel i s.
Proof.
  induction fuel as [|fuel IH]; intros i s more H.
  - rewrite Nat.add_0_l. destruct more as [|more]; [reflexivity|]. simpl.
    destruct (Nat.ltb_spec i (length (history s))) as [L|L]; [lia|reflexivity].
  - simpl. destruct (i <? length (history s))%nat; [|reflexivity].
    apply IH. destruct (crashAt s i).
    + pose proof (initGame_isReset spawnFood p0_spawnFood_writesFood true s)
        as (_ & _ & _ & E & _).
      unfold initGame. rewrite E, initialTail_length.
      unfold SEGMENT_SPACING in *. lia.
    + unfold SEGMENT_SPACING in *. lia.
Qed.

(** A frame that starts and ends playing has run steps 1 to 5 and taken
    no reset. *)
Lemma p0_loop_playing (s : State) :
  isPlayingRef s = true -> isPlayingRef (loop s) = true ->
  loop s = requestAnimationFrame (advance spawnFood s).
Proof.
  intros P Q. unfold loop in *. rewrite P in *.
  set (t := selfCollision _ _ _) in *.
  assert (R : isPlayingRef t = true).
  { destruct (isPlayingRef t) eqn:R; [reflexivity|].
    unfold bubble in Q. rewrite R in Q. simpl in Q. congruence. }
  unfold bubble. rewrite R. simpl negb. cbv iota.
  unfold t in *. rewrite (p0_selfCollision_playing _ _ _ R). reflexivity.
Qed.

(** The collision loop leaves the trail as long as it was, or the 80
    points of a reset. *)
Lemma p0_selfCollision_length (fuel : nat) : forall i s,
  length (history (selfCollision fuel i s)) = length (history s) \/
  length (history (selfCollision fuel i s)) = 80%nat.
Proof.
  induction fuel as [|fuel IH]; intros i s; simpl; [left; reflexivity|].
  destruct (i <? length (history s))%nat; [|left; reflexivity].
  destruct (crashAt s i); [|apply IH].
  destruct (IH (i + SEGMENT_SPACING)%nat (initGame true s)) as [E | E];
    [|right; exact E].
  right. rewrite E.
  destruct (initGame_isReset spawnFood p0_spawnFood_writesFood true s)
    as (_ & _ & _ & R & _).
  unfold initGame. rewrite R. apply initialTail_length.
Qed.

Lemma p0_loop_length (s : State) :
  (length (history (loop s)) <= S (length (history s)))%nat \/
  length (history (loop s)) = 80%nat.
Proof.
  unfold loop.
  assert (B : forall r, history (requestAnimationFrame (bubble r)) = history r).
  { intros r. unfold bubble. destruct (negb _); reflexivity. }
  rewrite B. destruct (isPlayingRef s); [|left; lia].
  destruct (p0_selfCollision_length
              (collisionFuel (advance spawnFood s)) 15 (advance spawnFood s))
    as [E | E]; [left | right; exact E].
  rewrite E.
  destruct (advance_frame _ p0_spawnFood_writesFood s) as (-> & _).
  rewrite stepped_length. destruct (_ <? _)%nat; lia.
Qed.

Lemma p0_run_length (es : list Event) : forall s n,
  (length (history s) <= 80 + n)%nat ->
  (length (history (run s es)) <= 80 + (n + framesOf es))%nat.
Proof.
  induction es as [|e es IH]; intros s n H; [cbn; lia|].
  change (run s (e :: es)) with (run (step s e) es).
  destruct e as [| |cx cy|w h].
  - change (framesOf (Frame :: es)) with (S (framesOf es)).
    replace (n + S (framesOf es))%nat with (S n + framesOf es)%nat by lia.
    apply IH. simpl step. unfold frame.
    destruct (frameRequested s); [|lia].
    destruct (p0_loop_length (set_frameRequested false s)) as [L | L];
      change (history (set_frameRequested false s)) with (history s) in L;
      lia.
  - apply IH. exact H.
  - apply IH. simpl step. unfold handleInteraction.
    destruct (negb (isPlayingRef s)); exact H.
  - apply IH. exact H.
Qed.

(** An idle frame leaves the trail alone. *)
Lemma p0_loop_idle (s : State) :
  isPlayingRef s = false -> history (loop s) = history s.
Proof.
  intros H. unfold loop. rewrite H. unfold bubble. rewrite H. reflexivity.
Qed.

Lemma p0_mount_length (iw ih w h : Q) :
  length (history (mount iw ih w h)) = 80%nat.
Proof.
  unfold mount.
  destruct (initGame_isReset spawnFood p0_spawnFood_writesFood false
              (handleResize w h (initialRefs iw ih)))
    as (_ & _ & _ & R & _ & _ & _ & _ & _ & I).
  destruct (I eq_refl) as [_ I2]. fold initGame in R, I2.
  rewrite p0_loop_idle; [|exact I2].
  rewrite R. apply initialTail_length.
Qed.

Lemma p0_loop_capped (s : State) : capped s -> capped (loop s).
Proof.
  intros H. unfold loop. apply bubble_capped.
  destruct (isPlayingRef s); [|exact H].
  apply p0_selfCollision_capped. apply advance_capped;
    [exact p0_spawnFood_writesFood | exact H].
Qed.

Lemma p0_step_capped (s : State) (e : Event) : capped s -> capped (step s e).
Proof.
  intros H. destruct e; simpl.
  - unfold frame. destruct (frameRequested s); [|exact H].
    apply p0_loop_capped. exact H.
  - exact H.
  - apply handleInteraction_capped. exact H.
  - exact H.
Qed.

Lemma p0_run_capped (es : list Event) : forall s, capped s -> capped (run s es).
Proof.
  induction es as [|e es IH]; intros s H; simpl; [exact H|].
  apply IH. apply p0_step_capped. exact H.
Qed.

Lemma p0_mount_capped (iw ih w h : Q) : capped (mount iw ih w h).
Proof.
  unfold mount. apply p0_loop_capped. apply initGame_capped.
  exact p0_spawnFood_writesFood.
Qed.

End Facts.
End Part000Facts.

(** ** The computable [Math] *)

Module ReferenceFacts.
Import Reference.

(** Listed draws within [[0, 1)] make a [Math.random()] within [[0, 1)]. *)
Lemma refMath_in_range (l : list Q) :
  forallb inUnit l = true -> random_in_range (refMath l).
Proof.
  intros F k. unfold refMath, Math_random, draws.
  rewrite forallb_forall in F.
  destruct (nth_in_or_default k l (1 # 2)) as [I | ->].
  - apply F in I. unfold inUnit in I.
    apply andb_prop in I. destruct I as [I1 I2].
    apply Qle_bool_iff in I1. apply Qltb_lt in I2. split; assumption.
  - split; [discriminate | reflexivity].
Qed.

End ReferenceFacts.

(** * The claims *)

Import Stepper StepperFacts HeadingFacts.
Import SrcComponentsFacts Part000Facts Examples.

(** Closed facts about concrete runs are settled by evaluation. *)
Ltac by_evaluation :=
  repeat match goal with |- _ /\ _ => split end;
  first [ let H := fresh in intros H; vm_compute in H; discriminate H
        | vm_compute; first [reflexivity | lia] ].




(** C2.  In every state that either copy of the component reaches after
    its mount, whatever the window, the random draws and the events, the
    trail has at most [(TAIL_LENGTH + score * GROWTH_PER_FOOD) *
    SEGMENT_SPACING] = (20 + score * 10) * 4 points.  Step 4 of a frame
    unshifts the head and, when that takes the trail above the cap, drops
    the last, oldest point; otherwise it drops nothing. *)
Theorem trail_within_cap {M : MathLib} (iw ih w h : Q) (es : list Event) :
  let atMost (s : State) :=
    (length (history s) <= (20 + score s * 10) * 4)%nat in
  atMost (SrcComponents.run (SrcComponents.mount iw ih w h) es) /\
  atMost (Part000.run (Part000.mount iw ih w h) es) /\
  forall s : State,
    ((currentLength s < length (pos s :: history s))%nat ->
     history (updateTail s) = removelast (pos s :: history s)) /\
    ((length (pos s :: history s) <= currentLength s)%nat ->
     history (updateTail s) = pos s :: history s).
Proof.
  intros atMost. repeat split.
  - apply (src_run_capped es). apply src_mount_capped.
  - apply (p0_run_capped es). apply p0_mount_capped.
  - intros L. unfold updateTail.
    change (currentLength (set_history _ _)) with (currentLength s).
    change (history (set_history (pos s :: history s) s))
      with (pos s :: history s).
    apply Nat.ltb_lt in L. rewrite L. reflexivity.
  - intros L. unfold updateTail.
    change (currentLength (set_history _ _)) with (currentLength s).
    change (history (set_history (pos s :: history s) s))
      with (pos s :: history s).
    apply Nat.ltb_ge in L. rewrite L. reflexivity.
Qed.

(** C2 on a run: ten frames with a pickup in each leave 89 points under a
    cap of 480, in either copy. *)
Lemma trail_within_cap_witness :
  (length (history tenPickupsSrc) <= (20 + score tenPickupsSrc * 10) * 4)%nat /\
  (length (history tenPickups000) <= (20 + score tenPickups000 * 10) * 4)%nat.
Proof.
  pose proof (@trail_within_cap onTheWay 1024 768 800 600
                (Start :: repeat Frame 10)) as (A & B & _).
  split; [exact A | exact B].
Defined.



(** C7.  In a playing frame of either copy the head, once moved, is
    wrapped: a coordinate below 0 becomes the bound ([width] for [x],
    [height] for [y]), one above the bound becomes 0, and one within
    [[0, bound]] stays.  So a head driven to [width + eps] has [x] equal to
    0 after steps 1 to 5, and in the next state when the frame takes no
    reset. *)
Theorem head_wraps_around {M : MathLib} (s : State) :
  let moved := pos (moveHead (updateDirection s)) in
  let wrapped :=
    point (wrap (width s) (x moved)) (wrap (height s) (y moved)) in
  (pos (stepped s) = wrapped /\
   pos (advance SrcComponents.spawnFood s) = wrapped /\
   pos (advance Part000.spawnFood s) = wrapped) /\
  (isPlayingRef s = true ->
   (isPlayingRef (SrcComponents.loop s) = true ->
    pos (SrcComponents.loop s) = wrapped) /\
   (isPlayingRef (Part000.loop s) = true ->
    pos (Part000.loop s) = wrapped)) /\
  (forall bound v : Q,
     (v < 0 -> wrap bound v = bound) /\
     (0 <= bound -> bound < v -> wrap bound v = 0) /\
     (0 <= v -> v <= bound -> wrap bound v = v) /\
     (forall eps, 0 <= bound -> 0 < eps -> wrap bound (bound + eps) = 0)) /\
  (x moved < 0 -> x wrapped == width s) /\
  (0 <= width s -> width s < x moved -> x wrapped = 0) /\
  (y moved < 0 -> y wrapped == height s) /\
  (0 <= height s -> height s < y moved -> y wrapped = 0).
Proof.
  intros moved wrapped.
  assert (S4 : pos (stepped s) = wrapped) by apply (stepped_frame s).
  assert (Fsrc : pos (advance SrcComponents.spawnFood s) = wrapped).
  { destruct (advance_frame _ src_spawnFood_writesFood s) as (_ & -> & _).
    exact S4. }
  assert (F000 : pos (advance Part000.spawnFood s) = wrapped).
  { destruct (advance_frame _ p0_spawnFood_writesFood s) as (_ & -> & _).
    exact S4. }
  assert (Above : forall bound v, 0 <= bound -> bound < v -> wrap bound v = 0).
  { intros bound v B L. apply wrap_above; lra. }
  repeat split; try assumption.
  - intros Q. rewrite (src_loop_playing s H Q). exact Fsrc.
  - intros Q. rewrite (p0_loop_playing s H Q). exact F000.
  - apply wrap_below.
  - apply Above.
  - apply wrap_inside.
  - intros eps B E. apply Above; lra.
  - intros L. unfold wrapped, point. cbn [x]. rewrite Qred_correct.
    rewrite (wrap_below _ _ L). reflexivity.
  - intros B L. unfold wrapped, point. cbn [x].
    rewrite (Above _ _ B L). reflexivity.
  - intros L. unfold wrapped, point. cbn [y]. rewrite Qred_correct.
    rewrite (wrap_below _ _ L). reflexivity.
  - intros B L. unfold wrapped, point. cbn [y].
    rewrite (Above _ _ B L). reflexivity.
Qed.

(** C7 on two heads: the one at (1, 570) heading left moves to [x = -1.5]
    and is at [x = 800] in the next state; the one at (799, 570) heading
    right moves to [x = 801.5 = width + 1.5] and is at [x = 0]. *)
Lemma head_wraps_around_witness :
  (x (pos (@moveHead halves (updateDirection leavingLeft))) < 0 /\
   x (pos (@Part000.loop halves leavingLeft)) == width leavingLeft) /\
  (width leavingRight < x (pos (@moveHead halves (updateDirection leavingRight))) /\
   x (pos (@SrcComponents.loop halves leavingRight)) = 0).
Proof.
  pose proof (@head_wraps_around halves leavingLeft)
    as (_ & L & _ & Below & _).
  pose proof (@head_wraps_around halves leavingRight)
    as (_ & R & _ & _ & Above & _).
  assert (PL : isPlayingRef leavingLeft = true) by reflexivity.
  assert (PR : isPlayingRef leavingRight = true) by reflexivity.
  assert (QL : isPlayingRef (@Part000.loop halves leavingLeft) = true)
    by (vm_compute; reflexivity).
  assert (QR : isPlayingRef (@SrcComponents.loop halves leavingRight) = true)
    by (vm_compute; reflexivity).
  assert (BL : x (pos (@moveHead halves (updateDirection leavingLeft))) < 0)
    by (vm_compute; reflexivity).
  assert (BR : width leavingRight
               < x (pos (@moveHead halves (updateDirection leavingRight))))
    by (vm_compute; reflexivity).
  assert (W : 0 <= width leavingRight) by (vm_compute; discriminate).
  split; split.
  - exact BL.
  - rewrite (proj2 (L PL) QL). apply (Below BL).
  - exact BR.
  - rewrite (proj1 (R PR) QR). apply (Above W BR).
Defined.

(** A genuine collision makes the test of its sample succeed. *)
Lemma genuineCollision_crashAt {M : MathLib} (t : State) :
  genuineCollision t ->
  exists k, (15 + k * SEGMENT_SPACING < length (history t))%nat /\
            crashAt t (15 + k * SEGMENT_SPACING) = true.
Proof.
  intros (i & ((k & ->) & L) & D & J). exists k. split; [exact L|].
  unfold crashAt. apply andb_true_intro. split; apply Qltb_lt; assumption.
Qed.

Lemma startX_advance {M : MathLib} (spawnFood : State -> State) (s : State) :
  writesFood spawnFood ->
  startX (advance spawnFood s) = startX s /\
  startY (advance spawnFood s) = startY s.
Proof.
  intros W.
  destruct (advance_frame spawnFood W s) as (_ & _ & _ & _ & Hw & Hh & _).
  unfold startX, startY. rewrite Hw, Hh. split; reflexivity.
Qed.

(** In [src/components/SnakeGame.tsx] a playing frame that detects a
    genuine self-collision returns the reset state as [initGame(true)]
    leaves it, a pending frame no more requested than before. *)
Lemma crash_returns_early_src {M : MathLib} (s : State) :
  isPlayingRef s = true ->
  genuineCollision (advance SrcComponents.spawnFood s) ->
  SrcComponents.loop s
    = SrcComponents.initGame true (advance SrcComponents.spawnFood s) /\
  frameRequested (SrcComponents.loop s) = frameRequested s.
Proof.
  intros P G. apply genuineCollision_crashAt in G. destruct G as (k & L & C).
  unfold SrcComponents.loop. rewrite P.
  rewrite (src_selfCollision_some _ _ 15 k); try assumption;
    [|unfold SEGMENT_SPACING in L; lia].
  split; [reflexivity|].
  pose proof (initGame_isReset _ src_spawnFood_writesFood true
                (advance SrcComponents.spawnFood s))
    as (_ & _ & _ & _ & _ & _ & _ & E & _).
  unfold SrcComponents.initGame. rewrite E.
  apply (advance_frame _ src_spawnFood_writesFood s).
Qed.

(** C4, as amended.  When a playing frame of either copy detects a genuine
    self-collision (a sampled trail point within 5 of the head whose
    distance to its predecessor is below 50), the next state is reset: the
    head at the start corner, angle and target angle [Math.PI], the trail
    the initial straight segment from that corner, score 0, play flag
    false.  The start corner is (width - 50, height - 30) when width and
    height are positive; a width that is not positive gives x = 300, a
    height that is not positive gives y = 500. *)
Theorem crash_resets_game {M : MathLib} (s : State) :
  isPlayingRef s = true ->
  let corner := point (startX s) (startY s) in
  (genuineCollision (advance SrcComponents.spawnFood s) ->
   isReset corner (SrcComponents.loop s)) /\
  (genuineCollision (advance Part000.spawnFood s) ->
   isReset corner (Part000.loop s)) /\
  (0 < width s -> x corner == width s - 50) /\
  (width s <= 0 -> x corner = 300) /\
  (0 < height s -> y corner == height s - 30) /\
  (height s <= 0 -> y corner = 500).
Proof.
  intros P corner. split; [|split; [|split; [|split; [|split]]]].
  - intros G. apply genuineCollision_crashAt in G. destruct G as (k & L & C).
    unfold SrcComponents.loop. rewrite P.
    rewrite (src_selfCollision_some _ _ 15 k); try assumption;
      [|unfold SEGMENT_SPACING in L; lia].
    pose proof (initGame_isReset _ src_spawnFood_writesFood true
                  (advance SrcComponents.spawnFood s)) as R.
    destruct (startX_advance _ s src_spawnFood_writesFood) as [EX EY].
    rewrite EX, EY in R. fold corner in R.
    destruct R as (A & B & C' & D & E & _ & _ & _ & I & _).
    destruct (I eq_refl). unfold isReset. repeat split; assumption.
  - intros G. apply genuineCollision_crashAt in G. destruct G as (k & L & C).
    unfold Part000.loop. rewrite P.
    pose proof (p0_selfCollision_crash
                  (Part000.collisionFuel (advance Part000.spawnFood s))
                  (advance Part000.spawnFood s) 15 k) as R.
    destruct (startX_advance _ s p0_spawnFood_writesFood) as [EX EY].
    unfold resetOf in R. rewrite EX, EY in R. fold corner in R.
    destruct R as [(A & B & C' & D & E & F & G) _]; try assumption.
    { unfold Part000.collisionFuel, SEGMENT_SPACING in *. lia. }
    unfold bubble. rewrite G. unfold isReset. cbn.
    repeat split; assumption.
  - intros L. unfold corner, point, startX. cbn [x].
    rewrite (proj2 (Qltb_lt _ _) L). apply Qred_correct.
  - intros L. unfold corner, point, startX. cbn [x].
    rewrite (proj2 (Qltb_ge _ _) L). reflexivity.
  - intros L. unfold corner, point, startY. cbn [y].
    rewrite (proj2 (Qltb_lt _ _) L). apply Qred_correct.
  - intros L. unfold corner, point, startY. cbn [y].
    rewrite (proj2 (Qltb_ge _ _) L). reflexivity.
Qed.

(** Sample 39 of the narrow window is a genuine collision. *)
Lemma narrow_collision :
  @genuineCollision halves (@advance halves (@SrcComponents.spawnFood halves) narrowSrc) /\
  @genuineCollision halves (@advance halves (@Part000.spawnFood halves) narrow000).
Proof.
  split; exists 39%nat; (split; [split; [exists 6%nat; reflexivity|]|]);
    by_evaluation.
Qed.

(** The amended C4 in a 95 x 600 container: frame 19 wraps the head onto
    the initial tail, and either copy is back at the corner (45, 570) with
    the play flag down. *)
Lemma crash_resets_game_witness :
  (pos (@SrcComponents.loop halves narrowSrc) = mkPoint 45 570 /\
   isPlayingRef (@SrcComponents.loop halves narrowSrc) = false /\
   score (@SrcComponents.loop halves narrowSrc) = 0%nat) /\
  (pos (@Part000.loop halves narrow000) = mkPoint 45 570 /\
   isPlayingRef (@Part000.loop halves narrow000) = false /\
   score (@Part000.loop halves narrow000) = 0%nat).
Proof.
  assert (PS : isPlayingRef narrowSrc = true) by (vm_compute; reflexivity).
  assert (P0 : isPlayingRef narrow000 = true) by (vm_compute; reflexivity).
  destruct narrow_collision as [GS G0].
  pose proof (@crash_resets_game halves narrowSrc PS) as (RS & _).
  pose proof (@crash_resets_game halves narrow000 P0) as (_ & R0 & _).
  destruct (RS GS) as (A & _ & _ & _ & B & _ & C).
  destruct (R0 G0) as (A' & _ & _ & _ & B' & _ & C').
  split; (split; [|split]).
  - rewrite A. vm_compute. reflexivity.
  - exact C.
  - exact B.
  - rewrite A'. vm_compute. reflexivity.
  - exact C'.
  - exact B'.
Defined.

(** C4 as stated fails in an empty (0 x 0) container: frame 16 finds the
    head on the point sampled at index 15 and resets, and the head is put
    at (300, 500), which is not (width - 50, height - 30) = (-50, -30). *)
Lemma crash_in_empty_window_resets_elsewhere :
  (isPlayingRef emptySrc = true /\
   @genuineCollision halves (@advance halves (@SrcComponents.spawnFood halves) emptySrc) /\
   pos (@SrcComponents.loop halves emptySrc) = mkPoint 300 500 /\
   ~ x (pos (@SrcComponents.loop halves emptySrc)) == width emptySrc - 50 /\
   ~ y (pos (@SrcComponents.loop halves emptySrc)) == height emptySrc - 30) /\
  (isPlayingRef empty000 = true /\
   @genuineCollision halves (@advance halves (@Part000.spawnFood halves) empty000) /\
   pos (@Part000.loop halves empty000) = mkPoint 300 500 /\
   ~ x (pos (@Part000.loop halves empty000)) == width empty000 - 50 /\
   ~ y (pos (@Part000.loop halves empty000)) == height empty000 - 30).
Proof.
  split; (split; [by_evaluation|]);
    (split; [exists 15%nat; (split; [split; [exists 0%nat; reflexivity|]|]);
             by_evaluation|]);
    by_evaluation.
Qed.

(** C5.  The test of a sampled point whose distance to its predecessor
    exceeds the jump threshold of 50 fails, however near the head the
    point is; and a playing frame of either copy in which every sampled
    point within 5 of the head is such a wrap discontinuity takes no reset:
    it ends after steps 1 to 5 with the next frame requested. *)
Theorem wrap_jump_never_crashes {M : MathLib} (s : State) :
  (forall (t : State) (i : nat), 50 < segJump t i -> crashAt t i = false) /\
  (isPlayingRef s = true ->
   (let t := advance SrcComponents.spawnFood s in
    (forall i, sampled t i -> distHead t i < 5 -> 50 < segJump t i) ->
    SrcComponents.loop s = requestAnimationFrame t) /\
   (let t := advance Part000.spawnFood s in
    (forall i, sampled t i -> distHead t i < 5 -> 50 < segJump t i) ->
    Part000.loop s = requestAnimationFrame t)).
Proof.
  assert (J : forall (t : State) (i : nat), 50 < segJump t i -> crashAt t i = false).
  { intros t i L. unfold crashAt. apply andb_false_intro2.
    apply Qltb_ge. apply Qlt_le_weak. exact L. }
  assert (N : forall t : State,
    (forall i, sampled t i -> distHead t i < 5 -> 50 < segJump t i) ->
    forall k, (15 + k * SEGMENT_SPACING < length (history t))%nat ->
              crashAt t (15 + k * SEGMENT_SPACING) = false).
  { intros t H k L.
    destruct (Qltb (distHead t (15 + k * SEGMENT_SPACING)) 5) eqn:D.
    - apply Qltb_lt in D. apply (J t). apply H; [|exact D].
      split; [exists k; reflexivity | exact L].
    - unfold crashAt. rewrite D. reflexivity. }
  split; [exact J|]. intros P. split; intros t H.
  - unfold SrcComponents.loop. rewrite P. fold t.
    rewrite (src_selfCollision_none _ t 15 (N t H)).
    unfold bubble, t.
    destruct (advance_frame _ src_spawnFood_writesFood s)
      as (_ & _ & _ & _ & _ & _ & -> & _).
    rewrite P. reflexivity.
  - unfold Part000.loop. rewrite P. fold t.
    rewrite (p0_selfCollision_none _ t 15 (N t H)).
    unfold bubble, t.
    destruct (advance_frame _ p0_spawnFood_writesFood s)
      as (_ & _ & _ & _ & _ & _ & -> & _).
    rewrite P. reflexivity.
Qed.

(** C5 on a head that steps onto the point sampled at index 15 while the
    point at index 14 is across the wrap, 95 away: the frame takes no
    reset. *)
Lemma wrap_jump_never_crashes_witness :
  let t := @advance halves (@Part000.spawnFood halves) acrossTheWrap in
  @distHead halves t 15 < 5 /\ 50 < @segJump halves t 15 /\
  @crashAt halves t 15 = false /\
  @Part000.loop halves acrossTheWrap = requestAnimationFrame t /\
  isPlayingRef (@Part000.loop halves acrossTheWrap) = true.
Proof.
  intros t.
  pose proof (@wrap_jump_never_crashes halves acrossTheWrap) as (J & L).
  assert (D : @distHead halves t 15 < 5) by (vm_compute; reflexivity).
  assert (G : 50 < @segJump halves t 15) by (vm_compute; reflexivity).
  assert (E : @Part000.loop halves acrossTheWrap = requestAnimationFrame t).
  { apply (L eq_refl). intros i ((k & ->) & B) _.
    assert (Len : length (history t) = 16%nat) by (vm_compute; reflexivity).
    fold t in B. rewrite Len in B.
    assert (k = 0%nat) as -> by (unfold SEGMENT_SPACING in B; lia).
    exact G. }
  split; [exact D | split; [exact G | split; [exact (J t 15%nat G) | split]]].
  - exact E.
  - vm_compute. reflexivity.
Defined.

(** The theorem of C8.  In [src/components/SnakeGame.tsx] the frame that
    detects the collision of the narrow window was requested and returns
    without requesting the next one; from then on the browser has no frame
    to run, and after the start button the state stays as the button left
    it: the loop has stopped. *)
Theorem crash_stops_the_loop_src :
  isPlayingRef narrowSrc = true /\
  frameRequested narrowSrc = true /\
  @genuineCollision halves
    (@advance halves (@SrcComponents.spawnFood halves) narrowSrc) /\
  frameRequested crashedSrc = false /\
  forall n : nat,
    @SrcComponents.run halves crashedSrc (Start :: repeat Frame n)
      = startGame crashedSrc /\
    frameRequested
      (@SrcComponents.run halves crashedSrc (Start :: repeat Frame n)) = false.
Proof.
  assert (F : frameRequested crashedSrc = false) by (vm_compute; reflexivity).
  split; [vm_compute; reflexivity|].
  split; [vm_compute; reflexivity|].
  split; [exact (proj1 narrow_collision)|].
  split; [exact F|].
  exact (@src_stopped halves crashedSrc F).
Qed.



(** The trail after a frame that starts and ends playing. *)
Lemma playing_frame_length {M : MathLib} (spawnFood : State -> State)
    (s : State) :
  writesFood spawnFood -> capped s ->
  length (history (requestAnimationFrame (advance spawnFood s)))
    = Nat.min (S (length (history s))) (currentLength s).
Proof.
  intros W C. unfold capped in C.
  change (history (requestAnimationFrame (advance spawnFood s)))
    with (history (advance spawnFood s)).
  destruct (advance_frame spawnFood W s) as (-> & _).
  rewrite stepped_length.
  destruct (Nat.ltb_spec (currentLength s) (S (length (history s)))); lia.
Qed.

(** C9, as amended.  A playing frame of either copy that takes no reset
    never shortens the trail: from a trail within its cap it leaves
    [min (length + 1) cap] points, the cap being the one of the score before
    the frame's food check.  So a pickup raises the cap by 40 and the trail
    then grows by one point per frame towards it.  With score 10 the cap is
    (20 + 10 * 10) * 4 = 480, and after its mount a component whose events
    include [n] frames has a trail of at most [80 + n] points, so that the
    trail has 480 points only after 400 frames or more. *)
Theorem trail_grows_one_point_per_frame {M : MathLib} (s : State)
    (iw ih w h : Q) (es : list Event) :
  (isPlayingRef s = true -> capped s ->
   (isPlayingRef (SrcComponents.loop s) = true ->
    length (history (SrcComponents.loop s))
      = Nat.min (S (length (history s))) (currentLength s)) /\
   (isPlayingRef (Part000.loop s) = true ->
    length (history (Part000.loop s))
      = Nat.min (S (length (history s))) (currentLength s))) /\
  (score s = 10%nat -> currentLength s = 480%nat) /\
  (length (history (SrcComponents.run (SrcComponents.mount iw ih w h) es))
     <= 80 + framesOf es)%nat /\
  (length (history (Part000.run (Part000.mount iw ih w h) es))
     <= 80 + framesOf es)%nat.
Proof.
  split; [|split; [|split]].
  - intros P C. split; intros Q.
    + rewrite (src_loop_playing s P Q).
      apply playing_frame_length; [exact src_spawnFood_writesFood | exact C].
    + rewrite (p0_loop_playing s P Q).
      apply playing_frame_length; [exact p0_spawnFood_writesFood | exact C].
  - intros E. rewrite currentLength_eq, E. reflexivity.
  - apply (src_run_length es _ 0%nat). rewrite src_mount_length. lia.
  - apply (p0_run_length es _ 0%nat). rewrite p0_mount_length. lia.
Qed.

(** The amended C9 on the start state with the food on the way: the first
    frame picks the food up and leaves min (81, 80) = 80 points under a cap
    that is now 120; after ten such frames there are at most 90 points. *)
Lemma trail_grows_one_point_per_frame_witness :
  length (history (@SrcComponents.loop onTheWay startedOnTheWay)) = 80%nat /\
  length (history (@Part000.loop onTheWay startedOnTheWay)) = 80%nat /\
  currentLength (@Part000.loop onTheWay startedOnTheWay) = 120%nat /\
  (length (history tenPickups000) <= 90)%nat.
Proof.
  pose proof (@trail_grows_one_point_per_frame onTheWay startedOnTheWay
                1024 768 800 600 (Start :: repeat Frame 10))
    as (F & _ & _ & R).
  assert (P : isPlayingRef startedOnTheWay = true) by (vm_compute; reflexivity).
  assert (C : capped startedOnTheWay).
  { unfold capped.
    assert (E : (length (history startedOnTheWay)
                 <=? currentLength startedOnTheWay)%nat = true)
      by (vm_compute; reflexivity).
    apply Nat.leb_le. exact E. }
  destruct (F P C) as [FS F0].
  assert (QS : isPlayingRef (@SrcComponents.loop onTheWay startedOnTheWay) = true)
    by (vm_compute; reflexivity).
  assert (Q0 : isPlayingRef (@Part000.loop onTheWay startedOnTheWay) = true)
    by (vm_compute; reflexivity).
  split; [|split; [|split]].
  - rewrite (FS QS). vm_compute. reflexivity.
  - rewrite (F0 Q0). vm_compute. reflexivity.
  - vm_compute. reflexivity.
  - exact R.
Defined.

(** C9 as stated fails on the run of ten frames with a pickup in each, from
    the start state (score 0, 80 points), with no reset on the way: after
    the ten pickups the score is 10 and the cap 480, and the trail has 89
    points, not 480; it is below the cap and not after a reset. *)
Lemma ten_pickups_leave_89_points :
  (length (history startedOnTheWay) = 80%nat /\ score startedOnTheWay = 0%nat) /\
  (tenPickupsSrc
     = @SrcComponents.run onTheWay startedOnTheWay (repeat Frame 10) /\
   forallb (fun n => isPlayingRef
              (@SrcComponents.run onTheWay startedOnTheWay (repeat Frame n)))
           (seq 0 11) = true /\
   score tenPickupsSrc = 10%nat /\
   currentLength tenPickupsSrc = 480%nat /\
   length (history tenPickupsSrc) = 89%nat /\
   length (history tenPickupsSrc) <> 480%nat /\
   (length (history tenPickupsSrc) < currentLength tenPickupsSrc)%nat) /\
  (tenPickups000
     = @Part000.run onTheWay startedOnTheWay (repeat Frame 10) /\
   forallb (fun n => isPlayingRef
              (@Part000.run onTheWay startedOnTheWay (repeat Frame n)))
           (seq 0 11) = true /\
   score tenPickups000 = 10%nat /\
   currentLength tenPickups000 = 480%nat /\
   length (history tenPickups000) = 89%nat /\
   length (history tenPickups000) <> 480%nat /\
   (length (history tenPickups000) < currentLength tenPickups000)%nat).
Proof.
  assert (LS : length (history tenPickupsSrc) = 89%nat) by (vm_compute; reflexivity).
  assert (L0 : length (history tenPickups000) = 89%nat) by (vm_compute; reflexivity).
  assert (CS : currentLength tenPickupsSrc = 480%nat) by (vm_compute; reflexivity).
  assert (C0 : currentLength tenPickups000 = 480%nat) by (vm_compute; reflexivity).
  split; [split; vm_compute; reflexivity|].
  split; (split; [vm_compute; reflexivity|]);
    (split; [vm_compute; reflexivity|]);
    (split; [vm_compute; reflexivity|]);
    (split; [assumption|]); (split; [assumption|]).
  - rewrite LS, CS. split; [discriminate | lia].
  - rewrite L0, C0. split; [discriminate | lia].
Qed.

(** ** The spawners *)

Module SpawnerFacts.
Import Part000.

(** The tests of the forbidden zone do not see how a number is written. *)
Lemma inBoxX_Qred (s : State) (v : Q) : inBoxX s (Qred v) = inBoxX s v.
Proof.
  unfold inBoxX, Qltb.
  rewrite !(Qleb_comp _ _ (Qred_correct v) _ _ (Qeq_refl _)).
  rewrite !(Qleb_comp _ _ (Qeq_refl _) _ _ (Qred_correct v)).
  reflexivity.
Qed.

Lemma inBoxY_Qred (s : State) (v : Q) : inBoxY s (Qred v) = inBoxY s v.
Proof.
  unfold inBoxY, Qltb.
  rewrite !(Qleb_comp _ _ (Qred_correct v) _ _ (Qeq_refl _)).
  rewrite !(Qleb_comp _ _ (Qeq_refl _) _ _ (Qred_correct v)).
  reflexivity.
Qed.

(** A draw scaled into a side of at least two margins stays inside the
    margins. *)
Lemma draw_in_margins (r side : Q) :
  0 <= r -> r < 1 -> 2 * margin <= side ->
  margin <= margin + r * (side - 2 * margin) /\
  margin + r * (side - 2 * margin) <= side - margin.
Proof.
  intros R0 R1 S. unfold margin in *.
  assert (A : 0 <= r * (side - 2 * 20)).
  { apply Qmult_le_0_compat; lra. }
  assert (B : r * (side - 2 * 20) <= 1 * (side - 2 * 20)).
  { apply Qmult_le_compat_r; lra. }
  lra.
Qed.

End SpawnerFacts.
Import SpawnerFacts.

(** X1.  The spawner of [src/unnamed/part_000] does what C6 says, in a
    container of at least two margins (40) a side and with draws of
    [Math.random()] in [[0, 1)]: the food lies in the play area
    [[margin, dimension - margin]] on both axes; and either it is the first
    of at most 100 draws that falls outside the forbidden zone, and lies
    outside the zone, or all 100 draws fell inside the zone and it is the
    corner (margin, margin). *)
Theorem spawnFood_avoids_forbidden_zone_000 {M : MathLib} (s : State) :
  random_in_range M ->
  2 * Part000.margin <= width s -> 2 * Part000.margin <= height s ->
  let f := food (Part000.spawnFood s) in
  Part000.inPlayArea s f /\
  ((exists j, (j < 100)%nat /\
      f = point (Part000.drawX s j) (Part000.drawY s j) /\
      (forall j', (j' < j)%nat -> Part000.rejected s j' = true) /\
      Part000.inForbiddenZone s f = false) \/
   (f = point Part000.margin Part000.margin /\
    forall j, (j < 100)%nat -> Part000.rejected s j = true)).
Proof.
  intros R W H f. unfold f, Part000.spawnFood.
  pose proof (p0_spawnWhile_spec s 100 0 0 0) as S.
  destruct (Part000.spawnWhile s 100 0 0 0) as [[[valid newX] newY] after].
  destruct S as (A & B & C). cbn [food set_food].
  destruct valid.
  - destruct (B eq_refl) as (j & -> & L & -> & -> & N). split.
    + unfold Part000.inPlayArea, point. cbn [x y]. rewrite !Qred_correct.
      unfold Part000.drawX, Part000.drawY.
      destruct (R (randomCalls s + 2 * j)%nat) as [R0 R1].
      destruct (R (randomCalls s + 2 * j + 1)%nat) as [R0' R1'].
      destruct (draw_in_margins _ _ R0 R1 W).
      destruct (draw_in_margins _ _ R0' R1' H).
      repeat split; assumption.
    + left. exists j. repeat split; try lia.
      * intros j' L'. apply A; lia.
      * unfold Part000.inForbiddenZone, point. cbn [x y].
        rewrite inBoxX_Qred, inBoxY_Qred. exact N.
  - destruct (C eq_refl) as (_ & C'). split.
    + unfold Part000.inPlayArea, point. cbn [x y]. rewrite !Qred_correct.
      unfold Part000.margin in *. repeat split; lra.
    + right. split; [reflexivity|]. intros j L. apply C'. lia.
Qed.

(** X1 on the spawner of [src/unnamed/part_000] in the 800 x 600
    container with the food on the way: the first draw, (737, 570), is outside the zone. *)
Lemma spawnFood_avoids_forbidden_zone_000_witness :
  let s := initialRefs 800 600 in
  food (@Part000.spawnFood onTheWay s) = mkPoint 737 570 /\
  @Part000.inPlayArea s (food (@Part000.spawnFood onTheWay s)).
Proof.
  intros s.
  assert (R : random_in_range onTheWay).
  { apply ReferenceFacts.refMath_in_range. vm_compute. reflexivity. }
  assert (W : 2 * Part000.margin <= width s) by (vm_compute; discriminate).
  assert (H : 2 * Part000.margin <= height s) by (vm_compute; discriminate).
  pose proof (@spawnFood_avoids_forbidden_zone_000 onTheWay s R W H) as (A & _).
  split; [vm_compute; reflexivity | exact A].
Defined.

(** The theorem of C6.  The spawner of [src/components/SnakeGame.tsx]
    draws once and tests nothing: mounted in a 800 x 600 container with
    both draws one half, it puts the food at (400, 300), the centre of the
    forbidden zone 230 < x < 570, 175 < y < 425. *)
Theorem spawner_src_ignores_forbidden_zone :
  food mountedSrc = mkPoint 400 300 /\
  randomCalls mountedSrc = 2%nat /\
  @Part000.inForbiddenZone mountedSrc (food mountedSrc) = true /\
  230 < x (food mountedSrc) /\ x (food mountedSrc) < 570 /\
  175 < y (food mountedSrc) /\ y (food mountedSrc) < 425.
Proof.
  repeat match goal with |- _ /\ _ => split end; vm_compute; reflexivity.
Qed.

(** ** The shuffle *)

Module ShuffleFacts.
Import Shuffle.

Section Arrays.
Context {T : Type} (undefined : T) {M : MathLib}.

#[local] Abbreviation getAt := (Shuffle.getAt undefined).
#[local] Abbreviation setAt := (Shuffle.setAt undefined).

Lemma setAt_length (a : list T) : forall n v,
  (n < length a)%nat -> length (setAt a n v) = length a.
Proof.
  induction a as [|b a IH]; intros n v L; [simpl in L; lia|].
  destruct n as [|n]; simpl; [reflexivity|].
  rewrite IH; [reflexivity | simpl in L; lia].
Qed.

Lemma getAt_setAt_other (a : list T) : forall n m v,
  (n < length a)%nat -> n <> m -> getAt (setAt a n v) m = getAt a m.
Proof.
  induction a as [|b a IH]; intros n m v L N; [simpl in L; lia|].
  destruct n as [|n], m as [|m]; simpl; try reflexivity; try congruence.
  apply IH; [simpl in L; lia | congruence].
Qed.

(** Writing [v] at [n] trades it for the element that was there. *)
Lemma setAt_perm (a : list T) : forall n v,
  (n < length a)%nat -> Permutation (v :: a) (getAt a n :: setAt a n v).
Proof.
  induction a as [|b a IH]; intros n v L; [simpl in L; lia|].
  destruct n as [|n]; simpl.
  - apply perm_swap.
  - apply perm_trans with (b :: v :: a); [apply perm_swap|].
    apply perm_trans with (b :: getAt a n :: setAt a n v);
      [|apply perm_swap].
    apply perm_skip. apply IH. simpl in L. lia.
Qed.

(** The swap of two elements of the array permutes it. *)
Lemma swapAt_perm (a : list T) : forall i j,
  (i < length a)%nat -> (j < length a)%nat ->
  Permutation a (setAt (setAt a i (getAt a j)) j (getAt a i)).
Proof.
  induction a as [|b a IH]; intros i j Li Lj; [simpl in Li; lia|].
  destruct i as [|i], j as [|j]; simpl in *.
  - apply Permutation_refl.
  - apply (setAt_perm a j b). lia.
  - apply (setAt_perm a i b). lia.
  - apply perm_skip. apply IH; lia.
Qed.

(** With draws in [[0, 1)] the index picked for [i] is one of [0 .. i]. *)
Lemma pick_range (k i : nat) :
  random_in_range M -> (0 <= pick k i <= Z.of_nat i)%Z.
Proof.
  intros R. destruct (R k) as [R0 R1]. unfold pick.
  pose proof (ofNat_nonneg i) as N.
  assert (A : 0 <= Math_random k * (ofNat i + 1)).
  { apply Qmult_le_0_compat; lra. }
  assert (B : Math_random k * (ofNat i + 1) < ofNat i + 1).
  { rewrite <- (Qmult_1_l (ofNat i + 1)) at 2.
    apply Qmult_lt_compat_r; lra. }
  split.
  - change 0%Z with (Qfloor 0). apply Qfloor_resp_le. exact A.
  - assert (C : (Qfloor (Math_random k * (ofNat i + 1)) < Z.of_nat i + 1)%Z).
    { rewrite Zlt_Qlt. eapply Qle_lt_trans; [apply Qfloor_le|].
      rewrite inject_Z_plus. exact B. }
    lia.
Qed.

Lemma swap_perm (a : list T) (i : nat) (j : Z) :
  (i < length a)%nat -> (0 <= j <= Z.of_nat i)%Z ->
  Permutation a (swap undefined a (Z.of_nat i) j) /\
  length (swap undefined a (Z.of_nat i) j) = length a.
Proof.
  intros L J. unfold swap, get, set.
  destruct (Z.ltb_spec (Z.of_nat i) 0); [lia|].
  destruct (Z.ltb_spec j 0); [lia|].
  rewrite Nat2Z.id.
  assert (Lj : (Z.to_nat j < length a)%nat) by lia.
  split.
  - apply swapAt_perm; assumption.
  - rewrite !setAt_length; try reflexivity; try assumption.
    rewrite setAt_length; assumption.
Qed.

Lemma write_length (h : list (list T)) : forall r a,
  length (write h r a) = length h.
Proof.
  induction h as [|b h IH]; intros r a; [reflexivity|].
  destruct r; simpl; [reflexivity | rewrite IH; reflexivity].
Qed.

Lemma read_write_same (h : list (list T)) : forall r a,
  (r < length h)%nat -> read (write h r a) r = a.
Proof.
  induction h as [|b h IH]; intros r a L; [simpl in L; lia|].
  destruct r; simpl; [reflexivity|]. apply IH. simpl in L. lia.
Qed.

Lemma read_write_other (h : list (list T)) : forall r r' a,
  r <> r' -> read (write h r a) r' = read h r'.
Proof.
  induction h as [|b h IH]; intros r r' a N; [reflexivity|].
  destruct r, r'; simpl; try reflexivity; try congruence.
  apply IH. congruence.
Qed.

(** The loop permutes the new array and touches no other. *)
Lemma shuffleFor_spec (R : random_in_range M) (r : nat) :
  forall i k (h : list (list T)),
  (r < length h)%nat -> (i < length (read h r) \/ i = 0)%nat ->
  length (shuffleFor undefined i k h r) = length h /\
  Permutation (read h r) (read (shuffleFor undefined i k h r) r) /\
  forall r', r' <> r -> read (shuffleFor undefined i k h r) r' = read h r'.
Proof.
  induction i as [|i IH]; intros k h L B.
  - simpl. repeat split. apply Permutation_refl.
  - destruct B as [B | B]; [|discriminate].
    change (shuffleFor undefined (S i) k h r)
      with (shuffleFor undefined i (S k)
              (write h r (swap undefined (read h r) (Z.of_nat (S i))
                            (pick k (S i)))) r).
    destruct (swap_perm (read h r) (S i) (pick k (S i)) B (pick_range k (S i) R))
      as [P E].
    set (a := swap undefined (read h r) (Z.of_nat (S i)) (pick k (S i))) in *.
    destruct (IH (S k) (write h r a)) as (A1 & A2 & A3).
    + rewrite write_length. exact L.
    + left. rewrite read_write_same; [|exact L]. lia.
    + rewrite write_length in A1. rewrite read_write_same in A2; [|exact L].
      repeat split.
      * exact A1.
      * apply perm_trans with a; assumption.
      * intros r' N. rewrite (A3 r' N).
        apply read_write_other. congruence.
Qed.

Lemma read_spread_old (h : list (list T)) (a : list T) (r : nat) :
  (r < length h)%nat -> read (h ++ [a]) r = read h r.
Proof. intros L. unfold read. apply app_nth1. exact L. Qed.

Lemma read_spread_new (h : list (list T)) (a : list T) :
  read (h ++ [a]) (length h) = a.
Proof.
  unfold read. rewrite app_nth2, Nat.sub_diag; [reflexivity | lia].
Qed.

End Arrays.
End ShuffleFacts.
Import ShuffleFacts.

(** C10.  With draws of [Math.random()] in [[0, 1)], [shuffleArray] called
    on an array of the store returns a new array that is a permutation of
    the input, so of the same length and with the same elements as many
    times, and leaves the input array, as every array that was in the
    store, as it was. *)
Theorem shuffleArray_permutes {T : Type} (undefined : T) {M : MathLib}
    (h : @Shuffle.Store T) (array : Shuffle.Ref) (k : nat) :
  random_in_range M -> (array < length h)%nat ->
  let h' := fst (Shuffle.shuffleArray undefined h array k) in
  let result := snd (Shuffle.shuffleArray undefined h array k) in
  Permutation (Shuffle.read h array) (Shuffle.read h' result) /\
  length (Shuffle.read h' result) = length (Shuffle.read h array) /\
  Shuffle.read h' array = Shuffle.read h array /\
  result = length h /\ result <> array /\
  forall r, (r < length h)%nat -> Shuffle.read h' r = Shuffle.read h r.
Proof.
  intros R L h' result. subst h' result.
  unfold Shuffle.shuffleArray, Shuffle.spread. cbn [fst snd].
  set (a := Shuffle.read h array).
  rewrite read_spread_new.
  destruct (shuffleFor_spec undefined R (length h) (length a - 1) k (h ++ [a]))
    as (A1 & A2 & A3).
  { rewrite length_app. simpl. lia. }
  { rewrite read_spread_new. destruct a; simpl; lia. }
  rewrite read_spread_new in A2.
  set (h' := Shuffle.shuffleFor undefined (length a - 1) k (h ++ [a]) (length h))
    in *.
  assert (Old : forall r, (r < length h)%nat ->
                          Shuffle.read h' r = Shuffle.read h r).
  { intros r Lr. rewrite A3; [|lia]. apply read_spread_old. exact Lr. }
  split; [exact A2|].
  split; [symmetry; apply Permutation_length; exact A2|].
  split; [apply Old; exact L|].
  split; [reflexivity|].
  split; [lia | exact Old].
Qed.

(** C10 on a store of two arrays: the shuffle of [1; 2; 3; 4; 5] with the
    draws 0.9, 0.1, 0.5, 0.3 returns the new array [3; 4; 2; 1; 5], a
    permutation of the input, and both arrays of the store are as they
    were. *)
Lemma shuffleArray_permutes_witness :
  let out := @Shuffle.shuffleArray (option nat) None fourDraws shelf 1%nat 0%nat in
  Shuffle.read (fst out) (snd out)
    = [Some 3; Some 4; Some 2; Some 1; Some 5]%nat /\
  Permutation (Shuffle.read shelf 1%nat) (Shuffle.read (fst out) (snd out)) /\
  Shuffle.read (fst out) 1%nat = Shuffle.read shelf 1%nat /\
  Shuffle.read (fst out) 0%nat = Shuffle.read shelf 0%nat.
Proof.
  intros out.
  assert (R : random_in_range fourDraws).
  { apply ReferenceFacts.refMath_in_range. vm_compute. reflexivity. }
  assert (L : (1 < length shelf)%nat) by (vm_compute; lia).
  pose proof (@shuffleArray_permutes (option nat) None fourDraws shelf 1%nat 0%nat R L)
    as (P & _ & I & _ & _ & O).
  split; [vm_compute; reflexivity|].
  split; [exact P|].
  split; [exact I|].
  apply O. vm_compute. lia.
Defined.

(** * Further properties of the component *)

Module SceneFacts.
Import Scene.

Section Facts.
Context {M : MathLib}.

(** An idle frame writes the bubble and the request, nothing else. *)
Lemma src_idle_loop (s : State) :
  isPlayingRef s = false ->
  SrcComponents.loop s = requestAnimationFrame (setHeadPos s).
Proof.
  intros H. unfold SrcComponents.loop, bubble. rewrite H. reflexivity.
Qed.

Lemma p0_idle_loop (s : State) :
  isPlayingRef s = false ->
  Part000.loop s = requestAnimationFrame (setHeadPos s).
Proof.
  intros H. unfold Part000.loop. rewrite H. unfold bubble. rewrite H.
  reflexivity.
Qed.

(** The state after the mount: the start corner of the container, the
    initial tail, score 0, the play flag down. *)
Lemma mount_state (spawnFood : State -> State) (r0 : State) :
  writesFood spawnFood -> isPlayingRef r0 = false ->
  let m := requestAnimationFrame (setHeadPos (initGame spawnFood false r0)) in
  pos m = point (startX r0) (startY r0) /\
  history m = initialTail (point (startX r0) (startY r0)) /\
  score m = 0%nat /\ width m = width r0 /\ height m = height r0 /\
  isPlayingRef m = false.
Proof.
  intros W P m.
  pose proof (initGame_isReset _ W false r0)
    as (A & _ & _ & B & C & Ew & Eh & _ & _ & I).
  destruct (I eq_refl) as [_ I2]. rewrite P in I2.
  subst m. unfold requestAnimationFrame, set_frameRequested, setHeadPos.
  cbn [pos history score width height isPlayingRef].
  repeat split; assumption.
Qed.

Lemma src_mount_state (iw ih w h : Q) :
  let r0 := handleResize w h (initialRefs iw ih) in
  let m := SrcComponents.mount iw ih w h in
  pos m = point (startX r0) (startY r0) /\
  history m = initialTail (point (startX r0) (startY r0)) /\
  score m = 0%nat /\ width m = Qred w /\ height m = Qred h /\
  isPlayingRef m = false.
Proof.
  intros r0 m.
  assert (P : isPlayingRef r0 = false) by reflexivity.
  pose proof (initGame_isReset _ src_spawnFood_writesFood false r0)
    as (_ & _ & _ & _ & _ & _ & _ & _ & _ & I).
  destruct (I eq_refl) as [_ I2]. rewrite P in I2.
  assert (E : m = requestAnimationFrame
                    (setHeadPos (initGame SrcComponents.spawnFood false r0))).
  { subst m. unfold SrcComponents.mount. fold r0.
    apply (src_idle_loop _ I2). }
  rewrite E.
  apply (mount_state _ r0 src_spawnFood_writesFood P).
Qed.

Lemma p0_mount_state (iw ih w h : Q) :
  let r0 := handleResize w h (initialRefs iw ih) in
  let m := Part000.mount iw ih w h in
  pos m = point (startX r0) (startY r0) /\
  history m = initialTail (point (startX r0) (startY r0)) /\
  score m = 0%nat /\ width m = Qred w /\ height m = Qred h /\
  isPlayingRef m = false.
Proof.
  intros r0 m.
  assert (P : isPlayingRef r0 = false) by reflexivity.
  pose proof (initGame_isReset _ p0_spawnFood_writesFood false r0)
    as (_ & _ & _ & _ & _ & _ & _ & _ & _ & I).
  destruct (I eq_refl) as [_ I2]. rewrite P in I2.
  assert (E : m = requestAnimationFrame
                    (setHeadPos (initGame Part000.spawnFood false r0))).
  { subst m. unfold Part000.mount. fold r0.
    apply (p0_idle_loop _ I2). }
  rewrite E.
  apply (mount_state _ r0 p0_spawnFood_writesFood P).
Qed.

Lemma src_idle_step (s : State) (e : Event) :
  isPlayingRef s = false -> isStart e = false ->
  simulation (SrcComponents.step s e) = simulation s /\
  isPlayingRef (SrcComponents.step s e) = false.
Proof.
  intros H N. destruct e as [| |cx cy|w h]; try discriminate; simpl.
  - unfold SrcComponents.frame. destruct (frameRequested s); [|split; auto].
    rewrite src_idle_loop by exact H. split; [reflexivity | exact H].
  - unfold handleInteraction. rewrite H. split; [reflexivity | exact H].
  - split; [reflexivity | exact H].
Qed.

Lemma p0_idle_step (s : State) (e : Event) :
  isPlayingRef s = false -> isStart e = false ->
  simulation (Part000.step s e) = simulation s /\
  isPlayingRef (Part000.step s e) = false.
Proof.
  intros H N. destruct e as [| |cx cy|w h]; try discriminate; simpl.
  - unfold Part000.frame. destruct (frameRequested s); [|split; auto].
    rewrite p0_idle_loop by exact H. split; [reflexivity | exact H].
  - unfold handleInteraction. rewrite H. split; [reflexivity | exact H].
  - split; [reflexivity | exact H].
Qed.

(** Step 3 leaves a coordinate within its bound. *)
Lemma wrap_range (bound v : Q) :
  0 <= bound -> 0 <= wrap bound v /\ wrap bound v <= bound.
Proof.
  intros B. destruct (Qlt_le_dec v 0) as [L | L].
  - rewrite (wrap_below _ _ L). split; [exact B | apply Qle_refl].
  - destruct (Qlt_le_dec bound v) as [G | G].
    + rewrite (wrap_above _ _ L G). split; [apply Qle_refl | exact B].
    + rewrite (wrap_inside _ _ L G). split; assumption.
Qed.

(** The head after steps 1 to 4 is inside a window of sides not negative. *)
Lemma stepped_inside (s : State) :
  0 <= width s -> 0 <= height s ->
  0 <= x (pos (stepped s)) /\ x (pos (stepped s)) <= width s /\
  0 <= y (pos (stepped s)) /\ y (pos (stepped s)) <= height s.
Proof.
  intros W H.
  destruct (stepped_frame s) as (_ & _ & _ & _ & _ & _ & _ & _ & _ & _ & ->).
  unfold wraparound, point. cbn [pos set_pos x y].
  rewrite !Qred_correct.
  change (width (moveHead (updateDirection s))) with (width s).
  change (height (moveHead (updateDirection s))) with (height s).
  destruct (wrap_range (width s) (x (pos (moveHead (updateDirection s)))) W).
  destruct (wrap_range (height s) (y (pos (moveHead (updateDirection s)))) H).
  repeat split; assumption.
Qed.

(** The start corner is inside a window large enough for it. *)
Lemma corner_inside (s : State) :
  roomy s ->
  0 <= x (point (startX s) (startY s)) /\
  x (point (startX s) (startY s)) <= width s /\
  0 <= y (point (startX s) (startY s)) /\
  y (point (startX s) (startY s)) <= height s.
Proof.
  intros [W H]. unfold point, startX, startY. cbn [x y].
  rewrite !Qred_correct.
  assert (PW : Qltb 0 (width s) = true) by (apply Qltb_lt; lra).
  assert (PH : Qltb 0 (height s) = true) by (apply Qltb_lt; lra).
  rewrite PW, PH. repeat split; lra.
Qed.

(** What a playing frame leaves: the state after steps 1 to 5 with the
    next frame requested, or a reset state in the same window. *)
Lemma src_frame_outcome (s : State) :
  isPlayingRef s = true ->
  SrcComponents.loop s
    = requestAnimationFrame (advance SrcComponents.spawnFood s) \/
  (isReset (point (startX s) (startY s)) (SrcComponents.loop s) /\
   width (SrcComponents.loop s) = width s /\
   height (SrcComponents.loop s) = height s).
Proof.
  intros P. unfold SrcComponents.loop. rewrite P.
  pose proof (advance_frame _ src_spawnFood_writesFood s)
    as (_ & _ & _ & _ & W & H & R & _).
  destruct (src_selfCollision_cases
              (length (history (advance SrcComponents.spawnFood s)))
              (advance SrcComponents.spawnFood s) 15) as [-> | ->].
  - left. unfold bubble. rewrite R, P. reflexivity.
  - right.
    pose proof (initGame_isReset _ src_spawnFood_writesFood true
                  (advance SrcComponents.spawnFood s))
      as (A & B & C & D & E & W' & H' & _ & I & _).
    destruct (I eq_refl) as [I1 I2].
    unfold startX, startY in *. rewrite W, H in *.
    unfold SrcComponents.initGame, isReset.
    repeat split; try assumption; congruence.
Qed.

Lemma p0_selfCollision_cases (fuel : nat) (s : State) : forall i,
  Part000.selfCollision fuel i s = s \/
  resetOf s (Part000.selfCollision fuel i s).
Proof.
  induction fuel as [|fuel IH]; intros i; simpl; [left; reflexivity|].
  destruct (i <? length (history s))%nat; [|left; reflexivity].
  destruct (crashAt s i); [|apply IH].
  right. apply p0_selfCollision_resetOf. apply p0_initGame_resetOf.
Qed.

Lemma p0_frame_outcome (s : State) :
  isPlayingRef s = true ->
  Part000.loop s
    = requestAnimationFrame (advance Part000.spawnFood s) \/
  (isReset (point (startX s) (startY s)) (Part000.loop s) /\
   width (Part000.loop s) = width s /\
   height (Part000.loop s) = height s).
Proof.
  intros P. unfold Part000.loop. rewrite P.
  pose proof (advance_frame _ p0_spawnFood_writesFood s)
    as (_ & _ & _ & _ & W & H & R & _).
  destruct (p0_selfCollision_cases
              (Part000.collisionFuel (advance Part000.spawnFood s))
              (advance Part000.spawnFood s) 15) as [-> | X].
  - left. unfold bubble. rewrite R, P. reflexivity.
  - right. destruct X as ((A & B & C & D & E & F & G) & W' & H' & _).
    unfold startX, startY in *. rewrite W, H in *.
    unfold bubble. rewrite G. cbn [negb].
    unfold isReset. cbn. repeat split; try assumption; congruence.
Qed.

End Facts.
End SceneFacts.
Import Scene SceneFacts Episodes.

(** X3.  An idle game is frozen: while the play flag is down (before the
    start button is pressed, and again after a crash), no frame, pointer
    event or resize changes the head, the heading, the target heading, the
    trail, the food or the score, in either copy; only the start button
    raises the flag. *)
Theorem idle_game_is_frozen {M : MathLib} (s : State) (es : list Event) :
  isPlayingRef s = false ->
  forallb (fun e => negb (isStart e)) es = true ->
  (simulation (SrcComponents.run s es) = simulation s /\
   isPlayingRef (SrcComponents.run s es) = false) /\
  (simulation (Part000.run s es) = simulation s /\
   isPlayingRef (Part000.run s es) = false).
Proof.
  revert s. induction es as [|e es IH]; intros s P N.
  - repeat split; assumption.
  - simpl in N. apply andb_prop in N. destruct N as [Ne N].
    apply negb_true_iff in Ne.
    destruct (src_idle_step s e P Ne) as [S1 P1].
    destruct (p0_idle_step s e P Ne) as [S2 P2].
    destruct (IH _ P1 N) as [[A1 A2] _].
    destruct (IH _ P2 N) as [_ [B1 B2]].
    change (SrcComponents.run s (e :: es))
      with (SrcComponents.run (SrcComponents.step s e) es).
    change (Part000.run s (e :: es))
      with (Part000.run (Part000.step s e) es).
    repeat split; try assumption; congruence.
Qed.

(** X3 on the game of [src/components/SnakeGame.tsx] just mounted, not yet
    started: two frames, a touch, a resize and another frame leave the
    simulation of either copy as it was. *)
Lemma idle_game_is_frozen_witness :
  isPlayingRef mountedSrc = false /\
  simulation (@SrcComponents.run halves mountedSrc whileIdle)
    = simulation mountedSrc /\
  simulation (@Part000.run halves mountedSrc whileIdle)
    = simulation mountedSrc.
Proof.
  assert (P : isPlayingRef mountedSrc = false) by (vm_compute; reflexivity).
  assert (N : forallb (fun e => negb (isStart e)) whileIdle = true)
    by (vm_compute; reflexivity).
  pose proof (@idle_game_is_frozen halves mountedSrc whileIdle P N)
    as [[A _] [B _]].
  split; [exact P | split; [exact A | exact B]].
Defined.

(** A playing frame leaves the head inside a window with room for the
    start corner. *)
Lemma frame_inside {M : MathLib} (s : State) :
  isPlayingRef s = true -> roomy s ->
  inside (SrcComponents.loop s) /\ inside (Part000.loop s).
Proof.
  intros P R.
  assert (W : 0 <= width s) by (destruct R; lra).
  assert (H : 0 <= height s) by (destruct R; lra).
  pose proof (stepped_inside s W H) as I.
  pose proof (corner_inside s R) as C.
  split.
  - unfold inside.
    destruct (src_frame_outcome s P) as [-> | ((-> & _) & -> & ->)];
      [|exact C].
    destruct (advance_frame _ src_spawnFood_writesFood s)
      as (_ & E & _ & _ & Ew & Eh & _).
    cbn [pos width height requestAnimationFrame set_frameRequested].
    rewrite E, Ew, Eh. exact I.
  - unfold inside.
    destruct (p0_frame_outcome s P) as [-> | ((-> & _) & -> & ->)];
      [|exact C].
    destruct (advance_frame _ p0_spawnFood_writesFood s)
      as (_ & E & _ & _ & Ew & Eh & _).
    cbn [pos width height requestAnimationFrame set_frameRequested].
    rewrite E, Ew, Eh. exact I.
Qed.

(** X4.  The head never leaves the window.  A playing frame of either
    copy that takes no reset leaves the head within [[0, width]] by
    [[0, height]] whenever these sides are not negative, wherever the head
    was before (so also after a resize); and in a container of at least
    50 by 30, which has room for the start corner, every state reached
    after the mount by frames, start and pointer events has the head
    inside the window. *)
Theorem head_never_leaves_window {M : MathLib} (s : State)
    (iw ih w h : Q) (es : list Event) :
  (isPlayingRef s = true -> 0 <= width s -> 0 <= height s ->
   (isPlayingRef (SrcComponents.loop s) = true ->
    inside (SrcComponents.loop s)) /\
   (isPlayingRef (Part000.loop s) = true ->
    inside (Part000.loop s))) /\
  (50 <= w -> 30 <= h ->
   forallb (fun e => negb (isResize e)) es = true ->
   inside (SrcComponents.run (SrcComponents.mount iw ih w h) es) /\
   inside (Part000.run (Part000.mount iw ih w h) es)).
Proof.
  split.
  - intros P W H.
    pose proof (stepped_inside s W H) as I. split; intros Q.
    + rewrite (src_loop_playing s P Q). unfold inside.
      destruct (advance_frame _ src_spawnFood_writesFood s)
        as (_ & E & _ & _ & Ew & Eh & _).
      cbn [pos width height requestAnimationFrame set_frameRequested].
      rewrite E, Ew, Eh. exact I.
    + rewrite (p0_loop_playing s P Q). unfold inside.
      destruct (advance_frame _ p0_spawnFood_writesFood s)
        as (_ & E & _ & _ & Ew & Eh & _).
      cbn [pos width height requestAnimationFrame set_frameRequested].
      rewrite E, Ew, Eh. exact I.
  - intros W H N.
    (* the invariant: inside a roomy window *)
    assert (StepS : forall s e, isResize e = false ->
              inside s /\ roomy s ->
              inside (SrcComponents.step s e) /\ roomy (SrcComponents.step s e)).
    { intros r e Ne [I R]. destruct e as [| |cx cy|w' h']; try discriminate.
      - simpl. unfold SrcComponents.frame.
        destruct (frameRequested r); [|split; assumption].
        assert (Wd : width (SrcComponents.loop (set_frameRequested false r))
                     = width r /\
                     height (SrcComponents.loop (set_frameRequested false r))
                     = height r).
        { destruct (isPlayingRef r) eqn:P.
          - destruct (src_frame_outcome (set_frameRequested false r) P)
              as [-> | (_ & -> & ->)]; [|split; reflexivity].
            destruct (advance_frame _ src_spawnFood_writesFood
                        (set_frameRequested false r))
              as (_ & _ & _ & _ & Ew & Eh & _).
            split; [exact Ew | exact Eh].
          - rewrite src_idle_loop by exact P. split; reflexivity. }
        split.
        + destruct (isPlayingRef r) eqn:P.
          * apply (frame_inside (set_frameRequested false r) P R).
          * rewrite src_idle_loop by exact P. exact I.
        + unfold roomy. destruct Wd as [-> ->]. exact R.
      - split; assumption.
      - simpl. unfold handleInteraction.
        destruct (negb (isPlayingRef r)); split; assumption. }
    assert (Step0 : forall s e, isResize e = false ->
              inside s /\ roomy s ->
              inside (Part000.step s e) /\ roomy (Part000.step s e)).
    { intros r e Ne [I R]. destruct e as [| |cx cy|w' h']; try discriminate.
      - simpl. unfold Part000.frame.
        destruct (frameRequested r); [|split; assumption].
        assert (Wd : width (Part000.loop (set_frameRequested false r))
                     = width r /\
                     height (Part000.loop (set_frameRequested false r))
                     = height r).
        { destruct (isPlayingRef r) eqn:P.
          - destruct (p0_frame_outcome (set_frameRequested false r) P)
              as [-> | (_ & -> & ->)]; [|split; reflexivity].
            destruct (advance_frame _ p0_spawnFood_writesFood
                        (set_frameRequested false r))
              as (_ & _ & _ & _ & Ew & Eh & _).
            split; [exact Ew | exact Eh].
          - rewrite p0_idle_loop by exact P. split; reflexivity. }
        split.
        + destruct (isPlayingRef r) eqn:P.
          * apply (frame_inside (set_frameRequested false r) P R).
          * rewrite p0_idle_loop by exact P. exact I.
        + unfold roomy. destruct Wd as [-> ->]. exact R.
      - split; assumption.
      - simpl. unfold handleInteraction.
        destruct (negb (isPlayingRef r)); split; assumption. }
    assert (RunS : forall es s,
              forallb (fun e => negb (isResize e)) es = true ->
              inside s /\ roomy s -> inside (SrcComponents.run s es)).
    { induction es0 as [|e es0 IH]; intros r N0 IR; [apply IR|].
      simpl in N0. apply andb_prop in N0. destruct N0 as [Ne N0].
      apply negb_true_iff in Ne.
      apply (IH (SrcComponents.step r e) N0). apply StepS; assumption. }
    assert (Run0 : forall es s,
              forallb (fun e => negb (isResize e)) es = true ->
              inside s /\ roomy s -> inside (Part000.run s es)).
    { induction es0 as [|e es0 IH]; intros r N0 IR; [apply IR|].
      simpl in N0. apply andb_prop in N0. destruct N0 as [Ne N0].
      apply negb_true_iff in Ne.
      apply (IH (Part000.step r e) N0). apply Step0; assumption. }
    (* the mounted state *)
    set (r0 := handleResize w h (initialRefs iw ih)).
    assert (R0 : roomy r0).
    { unfold roomy, r0, handleResize, set_size. cbn [width height].
      rewrite !Qred_correct. split; assumption. }
    pose proof (corner_inside r0 R0) as C0.
    split.
    + apply RunS; [exact N|].
      destruct (src_mount_state iw ih w h) as (A & _ & _ & Ew & Eh & _).
      unfold inside, roomy. rewrite A, Ew, Eh. split; [exact C0 | exact R0].
    + apply Run0; [exact N|].
      destruct (p0_mount_state iw ih w h) as (A & _ & _ & Ew & Eh & _).
      unfold inside, roomy. rewrite A, Ew, Eh. split; [exact C0 | exact R0].
Qed.

(** X4 on a head about to leave a 800 x 600 window on the left, and on
    the ten frames with a pickup each of either copy. *)
Lemma head_never_leaves_window_witness :
  inside (@Part000.loop halves leavingLeft) /\
  inside tenPickupsSrc /\ inside tenPickups000.
Proof.
  pose proof (@head_never_leaves_window halves leavingLeft 0 0 0 0 [])
    as [A _].
  pose proof (@head_never_leaves_window onTheWay leavingLeft 1024 768 800 600
                (Start :: repeat Frame 10)) as [_ B].
  assert (P : isPlayingRef leavingLeft = true) by reflexivity.
  assert (W : 0 <= width leavingLeft) by (vm_compute; discriminate).
  assert (H : 0 <= height leavingLeft) by (vm_compute; discriminate).
  assert (Q : isPlayingRef (@Part000.loop halves leavingLeft) = true)
    by (vm_compute; reflexivity).
  assert (W8 : 50 <= 800) by (vm_compute; discriminate).
  assert (H6 : 30 <= 600) by (vm_compute; discriminate).
  assert (N : forallb (fun e => negb (isResize e)) (Start :: repeat Frame 10)
              = true) by (vm_compute; reflexivity).
  destruct (A P W H) as [_ A0]. destruct (B W8 H6 N) as [B1 B2].
  split; [exact (A0 Q) | split; [exact B1 | exact B2]].
Defined.






(** The score after steps 1 to 5. *)
Lemma advance_score {M : MathLib} (spawnFood : State -> State) (s : State) :
  writesFood spawnFood ->
  score (advance spawnFood s) = (score s + pickup s)%nat.
Proof.
  intros W. unfold pickup.
  destruct (advance_cases spawnFood s) as [[-> ->] | [-> ->]].
  - destruct (W (set_score (score s + 1) (stepped s))) as (p & n & ->).
    reflexivity.
  - destruct (stepped_frame s) as (-> & _). lia.
Qed.

Lemma src_frame_score {M : MathLib} (s : State) :
  isPlayingRef s = true ->
  (isPlayingRef (SrcComponents.loop s) = true /\
   score (SrcComponents.loop s) = (score s + pickup s)%nat) \/
  (isPlayingRef (SrcComponents.loop s) = false /\
   score (SrcComponents.loop s) = 0%nat).
Proof.
  intros P. destruct (src_frame_outcome s P) as [E | [R _]].
  - left. rewrite E.
    destruct (advance_frame _ src_spawnFood_writesFood s)
      as (_ & _ & _ & _ & _ & _ & R & _).
    cbn [isPlayingRef score requestAnimationFrame set_frameRequested].
    rewrite R, (advance_score _ s src_spawnFood_writesFood).
    split; [exact P | reflexivity].
  - right. destruct R as (_ & _ & _ & _ & Sc & _ & F). split; assumption.
Qed.

Lemma p0_frame_score {M : MathLib} (s : State) :
  isPlayingRef s = true ->
  (isPlayingRef (Part000.loop s) = true /\
   score (Part000.loop s) = (score s + pickup s)%nat) \/
  (isPlayingRef (Part000.loop s) = false /\
   score (Part000.loop s) = 0%nat).
Proof.
  intros P. destruct (p0_frame_outcome s P) as [E | [R _]].
  - left. rewrite E.
    destruct (advance_frame _ p0_spawnFood_writesFood s)
      as (_ & _ & _ & _ & _ & _ & R & _).
    cbn [isPlayingRef score requestAnimationFrame set_frameRequested].
    rewrite R, (advance_score _ s p0_spawnFood_writesFood).
    split; [exact P | reflexivity].
  - right. destruct R as (_ & _ & _ & _ & Sc & _ & F). split; assumption.
Qed.

Lemma pickup_le_1 {M : MathLib} (s : State) : (pickup s <= 1)%nat.
Proof. unfold pickup. destruct (eats (stepped s)); lia. Qed.

Lemma src_step_score {M : MathLib} (s : State) (e : Event) :
  (score (SrcComponents.step s e) <= score s + framesOf [e])%nat.
Proof.
  destruct e as [| |cx cy|w h]; unfold framesOf; simpl.
  - unfold SrcComponents.frame. destruct (frameRequested s); [|lia].
    change (score s) with (score (set_frameRequested false s)).
    generalize (set_frameRequested false s). intros r.
    destruct (isPlayingRef r) eqn:P.
    + pose proof (pickup_le_1 r).
      destruct (src_frame_score r P) as [[_ ->] | [_ ->]]; lia.
    + rewrite src_idle_loop by exact P. simpl. lia.
  - lia.
  - unfold handleInteraction. destruct (negb (isPlayingRef s)); simpl; lia.
  - lia.
Qed.

Lemma p0_step_score {M : MathLib} (s : State) (e : Event) :
  (score (Part000.step s e) <= score s + framesOf [e])%nat.
Proof.
  destruct e as [| |cx cy|w h]; unfold framesOf; simpl.
  - unfold Part000.frame. destruct (frameRequested s); [|lia].
    change (score s) with (score (set_frameRequested false s)).
    generalize (set_frameRequested false s). intros r.
    destruct (isPlayingRef r) eqn:P.
    + pose proof (pickup_le_1 r).
      destruct (p0_frame_score r P) as [[_ ->] | [_ ->]]; lia.
    + rewrite p0_idle_loop by exact P. simpl. lia.
  - lia.
  - unfold handleInteraction. destruct (negb (isPlayingRef s)); simpl; lia.
  - lia.
Qed.

Lemma framesOf_cons (e : Event) (es : list Event) :
  framesOf (e :: es) = (framesOf [e] + framesOf es)%nat.
Proof. unfold framesOf. simpl. destruct e; reflexivity. Qed.

(** X6.  The score counts pickups.  A playing frame of either copy adds
    one to the score exactly when the head, after the move, is less than
    15 from the food, leaves the score otherwise, or, when it ends in a
    reset, puts the score to 0 with the play flag down; so after any
    events the score has grown by no more than the number of frames run,
    and the score of a mounted game never exceeds the number of frame
    events. *)
Theorem score_counts_pickups {M : MathLib} (s : State)
    (iw ih w h : Q) (es : list Event) :
  (isPlayingRef s = true ->
   ((isPlayingRef (SrcComponents.loop s) = true /\
     score (SrcComponents.loop s) = (score s + pickup s)%nat) \/
    (isPlayingRef (SrcComponents.loop s) = false /\
     score (SrcComponents.loop s) = 0%nat)) /\
   ((isPlayingRef (Part000.loop s) = true /\
     score (Part000.loop s) = (score s + pickup s)%nat) \/
    (isPlayingRef (Part000.loop s) = false /\
     score (Part000.loop s) = 0%nat))) /\
  ((score (SrcComponents.run s es) <= score s + framesOf es)%nat /\
   (score (Part000.run s es) <= score s + framesOf es)%nat) /\
  ((score (SrcComponents.run (SrcComponents.mount iw ih w h) es)
    <= framesOf es)%nat /\
   (score (Part000.run (Part000.mount iw ih w h) es) <= framesOf es)%nat).
Proof.
  assert (RunS : forall es r,
            (score (SrcComponents.run r es) <= score r + framesOf es)%nat).
  { induction es0 as [|e es0 IH]; intros r; [simpl; lia|].
    change (SrcComponents.run r (e :: es0))
      with (SrcComponents.run (SrcComponents.step r e) es0).
    rewrite framesOf_cons.
    pose proof (IH (SrcComponents.step r e)).
    pose proof (src_step_score r e). lia. }
  assert (Run0 : forall es r,
            (score (Part000.run r es) <= score r + framesOf es)%nat).
  { induction es0 as [|e es0 IH]; intros r; [simpl; lia|].
    change (Part000.run r (e :: es0))
      with (Part000.run (Part000.step r e) es0).
    rewrite framesOf_cons.
    pose proof (IH (Part000.step r e)).
    pose proof (p0_step_score r e). lia. }
  split; [intros P; split; [apply src_frame_score | apply p0_frame_score];
          exact P|].
  split; [split; [apply RunS | apply Run0]|].
  split.
  - destruct (src_mount_state iw ih w h) as (_ & _ & Z0 & _).
    pose proof (RunS es (SrcComponents.mount iw ih w h)). lia.
  - destruct (p0_mount_state iw ih w h) as (_ & _ & Z0 & _).
    pose proof (Run0 es (Part000.mount iw ih w h)). lia.
Qed.

(** X6 on the start state with the food on the way of the head: the first
    frame picks it up and the score is 1; ten such frames of
    [src/components/SnakeGame.tsx] leave a score of at most 10. *)
Lemma score_counts_pickups_witness :
  score (@Part000.loop onTheWay startedOnTheWay) = 1%nat /\
  (score tenPickupsSrc <= 10)%nat.
Proof.
  pose proof (@score_counts_pickups onTheWay startedOnTheWay 1024 768 800 600
                (Start :: repeat Frame 10)) as (A & _ & B & _).
  assert (P : isPlayingRef startedOnTheWay = true)
    by (vm_compute; reflexivity).
  assert (Q : isPlayingRef (@Part000.loop onTheWay startedOnTheWay) = true)
    by (vm_compute; reflexivity).
  assert (S0 : score startedOnTheWay = 0%nat) by (vm_compute; reflexivity).
  assert (U : @pickup onTheWay startedOnTheWay = 1%nat)
    by (vm_compute; reflexivity).
  assert (F : framesOf (Start :: repeat Frame 10) = 10%nat)
    by (vm_compute; reflexivity).
  split.
  - destruct (proj2 (A P)) as [[_ E] | [N _]].
    + rewrite E, S0, U. reflexivity.
    + rewrite Q in N. discriminate N.
  - rewrite <- F. exact B.
Defined.

(** A later pointer event overwrites an earlier one. *)
Lemma pointer_overwrites {M : MathLib} (a b c d : Q) (s : State) :
  handleInteraction c d (handleInteraction a b s) = handleInteraction c d s.
Proof.
  unfold handleInteraction. destruct (isPlayingRef s) eqn:P; cbn [negb].
  - cbn [isPlayingRef set_targetAngle]. rewrite P. reflexivity.
  - rewrite P. reflexivity.
Qed.

(** X7.  Between two frames only the last pointer position counts: a run
    of pointer events followed by one more has the effect of the last
    alone, in either copy, and while the game plays this effect is the
    target heading [atan2 (cy - y) (cx - x)] from the head to the pointer,
    in lowest terms, with nothing else written. *)
Theorem last_pointer_wins {M : MathLib} (s : State) (ps es : list Event)
    (cx cy : Q) :
  forallb isPointer ps = true ->
  (SrcComponents.run s (ps ++ Pointer cx cy :: es)
     = SrcComponents.run s (Pointer cx cy :: es) /\
   Part000.run s (ps ++ Pointer cx cy :: es)
     = Part000.run s (Pointer cx cy :: es)) /\
  (isPlayingRef s = true ->
   SrcComponents.step s (Pointer cx cy)
     = set_targetAngle (Math_atan2 (cy - y (pos s)) (cx - x (pos s))) s /\
   Part000.step s (Pointer cx cy)
     = set_targetAngle (Math_atan2 (cy - y (pos s)) (cx - x (pos s))) s).
Proof.
  intros N. split.
  - revert s N. induction ps as [|p ps IH]; intros s N;
      [split; reflexivity|].
    simpl in N. apply andb_prop in N. destruct N as [Np N].
    destruct p as [| |a b|w' h']; try discriminate.
    destruct (IH (handleInteraction a b s) N) as [E1 E2].
    split.
    + change (SrcComponents.run s ((Pointer a b :: ps) ++ Pointer cx cy :: es))
        with (SrcComponents.run (handleInteraction a b s)
                (ps ++ Pointer cx cy :: es)).
      rewrite E1.
      change (SrcComponents.run (handleInteraction a b s) (Pointer cx cy :: es))
        with (SrcComponents.run
                (handleInteraction cx cy (handleInteraction a b s)) es).
      rewrite pointer_overwrites. reflexivity.
    + change (Part000.run s ((Pointer a b :: ps) ++ Pointer cx cy :: es))
        with (Part000.run (handleInteraction a b s)
                (ps ++ Pointer cx cy :: es)).
      rewrite E2.
      change (Part000.run (handleInteraction a b s) (Pointer cx cy :: es))
        with (Part000.run
                (handleInteraction cx cy (handleInteraction a b s)) es).
      rewrite pointer_overwrites. reflexivity.
  - intros P. simpl. unfold handleInteraction. rewrite P.
    split; reflexivity.
Qed.

(** X7 on the start state: after the pointer has wandered, the frame
    steers toward its last position, (750, 300). *)
Lemma last_pointer_wins_witness :
  @Part000.run halves started (wandering ++ [Pointer 750 300; Frame])
    = @Part000.run halves started [Pointer 750 300; Frame] /\
  targetAngle (@SrcComponents.step halves started (Pointer 750 300))
    = Qred (@Math_atan2 halves (300 - y (pos started)) (750 - x (pos started))).
Proof.
  assert (N : forallb isPointer wandering = true) by (vm_compute; reflexivity).
  assert (P : isPlayingRef started = true) by (vm_compute; reflexivity).
  pose proof (@last_pointer_wins halves started wandering [Frame] 750 300 N)
    as [[_ A] B].
  split; [exact A|]. rewrite (proj1 (B P)). reflexivity.
Defined.

Module CanvasFacts.
Import Canvas.



Section Src.
Context {M : MathLib}.

Lemma followSrc_spec (fuel : nat) : forall pre p1 rest,
  (length rest <= fuel)%nat ->
  visited (followSrc fuel (length pre + SEGMENT_SPACING) (length pre)
             (pre ++ p1 :: rest))
    = strided (SEGMENT_SPACING - 1) rest /\
  lines (Some p1)
    (followSrc fuel (length pre + SEGMENT_SPACING) (length pre)
       (pre ++ p1 :: rest))
    = filter joinedSrc (neighbours (p1 :: strided (SEGMENT_SPACING - 1) rest)).
Proof.
  change SEGMENT_SPACING with 4%nat. change (4 - 1)%nat with 3%nat.
  induction fuel as [|fuel IH]; intros pre p1 rest L.
  - destruct rest; [|simpl in L; lia]. split; reflexivity.
  - cbn [followSrc].
    destruct rest as [|a [|b [|c [|p2 rest]]]];
      try (replace (length pre + 4 <? length (pre ++ _))%nat with false
             by (symmetry; apply Nat.ltb_ge; rewrite length_app; simpl; lia);
           split; reflexivity).
    replace (length pre + 4 <? length (pre ++ p1 :: a :: b :: c :: p2 :: rest))%nat
      with true
      by (symmetry; apply Nat.ltb_lt; rewrite length_app; simpl; lia).
    assert (N1 : nth (length pre) (pre ++ p1 :: a :: b :: c :: p2 :: rest)
                   (mkPoint 0 0) = p1).
    { rewrite app_nth2 by lia. rewrite Nat.sub_diag. reflexivity. }
    assert (N2 : nth (length pre + 4) (pre ++ p1 :: a :: b :: c :: p2 :: rest)
                   (mkPoint 0 0) = p2).
    { rewrite app_nth2 by lia.
      replace (length pre + 4 - length pre)%nat with 4%nat by lia.
      reflexivity. }
    rewrite N1, N2.
    assert (E : pre ++ p1 :: a :: b :: c :: p2 :: rest
                = (pre ++ [p1; a; b; c]) ++ p2 :: rest)
      by (rewrite <- app_assoc; reflexivity).
    assert (EL : (length pre + 4 = length (pre ++ [p1; a; b; c]))%nat)
      by (rewrite length_app; reflexivity).
    change SEGMENT_SPACING with 4%nat. rewrite E, EL.
    destruct (IH (pre ++ [p1; a; b; c]) p2 rest) as [V Ln];
      [simpl in L; lia|].
    change (strided 3 (a :: b :: c :: p2 :: rest))
      with (p2 :: strided 3 rest).
    change (neighbours (p1 :: p2 :: strided 3 rest))
      with ((p1, p2) :: neighbours (p2 :: strided 3 rest)).
    change (filter joinedSrc ((p1, p2) :: neighbours (p2 :: strided 3 rest)))
      with (if negb (Qltb 100 (distance p1 p2))
            then (p1, p2) :: filter joinedSrc (neighbours (p2 :: strided 3 rest))
            else filter joinedSrc (neighbours (p2 :: strided 3 rest))).
    destruct (Qltb 100 (distance p1 p2)); cbn [visited lines negb];
      rewrite V, Ln; split; reflexivity.
Qed.

End Src.
End CanvasFacts.
Import Canvas CanvasFacts.



(** X9.  What [src/components/SnakeGame.tsx] draws of the trail: the path
    visits the trail points of index 0, 4, 8, ... and no other, and its
    straight lines are exactly the pairs of consecutive visited points
    that [Math.sqrt] puts at a distance of at most 100. *)
Theorem canvas_joins_every_fourth_src {M : MathLib} (s : State) :
  visited (trailSrc s) = strided 0 (history s) /\
  lines None (trailSrc s)
    = filter joinedSrc (neighbours (strided 0 (history s))) /\
  (forall p q, In (p, q) (lines None (trailSrc s)) ->
     In (p, q) (neighbours (strided 0 (history s))) /\
     distance p q <= 100).
Proof.
  assert (A : visited (trailSrc s) = strided 0 (history s) /\
              lines None (trailSrc s)
                = filter joinedSrc (neighbours (strided 0 (history s)))).
  { unfold trailSrc. destruct (history s) as [|p0 rest]; [split; reflexivity|].
    destruct (followSrc_spec (length (p0 :: rest)) [] p0 rest) as [V L];
      [simpl; lia|].
    cbn [visited lines strided]. change (length (@nil Point) + SEGMENT_SPACING)%nat
      with SEGMENT_SPACING in *. change (length (@nil Point)) with 0%nat in *.
    change ([] ++ p0 :: rest) with (p0 :: rest) in *.
    rewrite V, L. split; reflexivity. }
  destruct A as [V L]. split; [exact V|split; [exact L|]].
  intros p q I. rewrite L in I. apply filter_In in I.
  destruct I as [I J]. split; [exact I|].
  unfold joinedSrc in J. cbn [fst snd] in J.
  apply negb_true_iff in J. apply Qltb_ge in J. exact J.
Qed.

(** X9 on the initial tail of 80 points: 20 points visited, 19 lines. *)
Lemma canvas_joins_every_fourth_src_witness :
  length (history mountedSrc) = 80%nat /\
  length (visited (@trailSrc halves mountedSrc)) = 20%nat /\
  length (lines None (@trailSrc halves mountedSrc)) = 19%nat.
Proof.
  pose proof (@canvas_joins_every_fourth_src halves mountedSrc) as (V & L & _).
  split; [vm_compute; reflexivity|].
  split; [rewrite V | rewrite L]; vm_compute; reflexivity.
Defined.

(** * The food *)

Module FoodFacts.

Section Facts.
Context {M : MathLib}.
Hypothesis R : random_in_range M.










End Facts.
End FoodFacts.
Import FoodFacts.



(** * The start bubble *)

Module BubbleFacts.

Section Facts.
Context {M : MathLib}.

Lemma initGame_bubble (spawnFood : State -> State) (fullReset : bool)
    (s : State) :
  writesFood spawnFood -> isPlaying s = isPlayingRef s ->
  bubbleAtHead (Stepper.initGame spawnFood fullReset s).
Proof.
  intros W P. unfold Stepper.initGame.
  match goal with |- context [spawnFood ?t] =>
    destruct (W t) as (p & n & ->)
  end.
  destruct fullReset; split; cbn; intros; (reflexivity || assumption).
Qed.

Lemma advance_bubble (spawnFood : State -> State) (s : State) :
  writesFood spawnFood -> isPlayingRef s = true -> bubbleAtHead s ->
  bubbleAtHead (advance spawnFood s).
Proof.
  intros W P [E _].
  destruct (advance_frame spawnFood W s)
    as (_ & _ & _ & _ & _ & _ & R & R' & _).
  split; [congruence|]. intros X. congruence.
Qed.

Lemma shown_bubble (s : State) :
  bubbleAtHead s -> bubbleAtHead (requestAnimationFrame (bubble s)).
Proof.
  intros [E B]. unfold bubble.
  destruct (isPlayingRef s) eqn:P; cbn [negb];
    split; cbn; intros; congruence || auto.
Qed.

Lemma src_loop_bubble (s : State) :
  bubbleAtHead s -> bubbleAtHead (SrcComponents.loop s).
Proof.
  intros B. unfold SrcComponents.loop.
  destruct (isPlayingRef s) eqn:P; [|apply shown_bubble; exact B].
  pose proof (advance_bubble _ s src_spawnFood_writesFood P B) as A.
  destruct (src_selfCollision_cases
              (length (history (advance SrcComponents.spawnFood s)))
              (advance SrcComponents.spawnFood s) 15) as [-> | ->].
  - apply shown_bubble. exact A.
  - apply initGame_bubble; [exact src_spawnFood_writesFood | apply A].
Qed.

Lemma p0_selfCollision_bubble (fuel : nat) : forall i s,
  bubbleAtHead s -> bubbleAtHead (Part000.selfCollision fuel i s).
Proof.
  induction fuel as [|fuel IH]; intros i s B; [exact B|].
  cbn [Part000.selfCollision].
  destruct (i <? length (history s))%nat; [|exact B].
  apply IH. destruct (crashAt s i); [|exact B].
  apply initGame_bubble; [exact p0_spawnFood_writesFood | apply B].
Qed.

Lemma p0_loop_bubble (s : State) :
  bubbleAtHead s -> bubbleAtHead (Part000.loop s).
Proof.
  intros B. unfold Part000.loop. apply shown_bubble.
  destruct (isPlayingRef s) eqn:P; [|exact B].
  apply p0_selfCollision_bubble.
  apply (advance_bubble _ s p0_spawnFood_writesFood P B).
Qed.

Lemma handlers_bubble (s : State) (e : Event) :
  bubbleAtHead s ->
  match e with
  | Frame => True
  | Start => bubbleAtHead (startGame s)
  | Pointer cx cy => bubbleAtHead (handleInteraction cx cy s)
  | Resize w h => bubbleAtHead (handleResize w h s)
  end.
Proof.
  intros [E B]. destruct e as [| |cx cy|w h]; [exact I | | |].
  - split; cbn; [reflexivity | discriminate].
  - unfold handleInteraction. destruct (negb _); split; assumption.
  - split; assumption.
Qed.

End Facts.
End BubbleFacts.
Import BubbleFacts.

(** X22.  The start bubble is at the head.  In every state that either
    copy reaches after its mount, whatever the events, the state
    [isPlaying] that shows the bubble and the ref [isPlayingRef] that the
    loop reads agree, and while the game does not play, before the start
    and after a crash, [headPos], where the bubble is drawn, is the head
    position. *)
Theorem start_bubble_is_at_head {M : MathLib} (iw ih w h : Q)
    (es : list Event) :
  bubbleAtHead (SrcComponents.run (SrcComponents.mount iw ih w h) es) /\
  bubbleAtHead (Part000.run (Part000.mount iw ih w h) es).
Proof.
  set (r0 := handleResize w h (initialRefs iw ih)).
  assert (P0 : isPlaying r0 = isPlayingRef r0) by reflexivity.
  split.
  - assert (I : bubbleAtHead (SrcComponents.mount iw ih w h)).
    { unfold SrcComponents.mount. fold r0. apply src_loop_bubble.
      apply initGame_bubble; [exact src_spawnFood_writesFood | exact P0]. }
    revert I. generalize (SrcComponents.mount iw ih w h).
    induction es as [|e es IH]; intros s B; [exact B|].
    apply (IH (SrcComponents.step s e)).
    pose proof (handlers_bubble s e B) as H.
    destruct e; try exact H. simpl. unfold SrcComponents.frame.
    destruct (frameRequested s); [|exact B].
    apply src_loop_bubble. exact B.
  - assert (I : bubbleAtHead (Part000.mount iw ih w h)).
    { unfold Part000.mount. fold r0. apply p0_loop_bubble.
      apply initGame_bubble; [exact p0_spawnFood_writesFood | exact P0]. }
    revert I. generalize (Part000.mount iw ih w h).
    induction es as [|e es IH]; intros s B; [exact B|].
    apply (IH (Part000.step s e)).
    pose proof (handlers_bubble s e B) as H.
    destruct e; try exact H. simpl. unfold Part000.frame.
    destruct (frameRequested s); [|exact B].
    apply p0_loop_bubble. exact B.
Qed.

(** X22 after the crash in the narrow container: the game does not play,
    and the bubble is at the start corner, where the head is. *)
Lemma start_bubble_is_at_head_witness :
  isPlaying crashedSrc = false /\ headPos crashedSrc = pos crashedSrc.
Proof.
  pose proof (@start_bubble_is_at_head halves 1024 768 95 600
                (Start :: repeat Frame 18 ++ [Frame])) as [[_ B] _].
  assert (E : @SrcComponents.run halves
                (@SrcComponents.mount halves 1024 768 95 600)
                (Start :: repeat Frame 18 ++ [Frame]) = crashedSrc)
    by (vm_compute; reflexivity).
  rewrite E in B.
  assert (P : isPlaying crashedSrc = false) by (vm_compute; reflexivity).
  split; [exact P | exact (B P)].
Defined.

(** * The turn *)

Module TurnFacts.



Section Facts.
Context {M : MathLib}.







End Facts.
End TurnFacts.
Import TurnFacts.



(** * The articles of the prompt *)

Module DigestFacts.
Import Shuffle Digest.

Section Facts.
Context {T : Type} (undefined : T) {M : MathLib}.
Hypothesis R : random_in_range M.

(** [shuffleArray] appends one array to the store, a permutation of its
    input. *)
Lemma shuffleArray_appends (h : list (list T)) (array k : nat) :
  (array < length h)%nat ->
  exists a', Permutation (read h array) a' /\
             shuffleArray undefined h array k = (h ++ [a'], length h).
Proof.
  intros L. unfold shuffleArray, spread.
  set (a := read h array). rewrite read_spread_new.
  destruct (shuffleFor_spec undefined R (length h) (length a - 1) k (h ++ [a]))
    as (A1 & A2 & A3).
  { rewrite length_app. simpl. lia. }
  { rewrite read_spread_new. destruct a; simpl; lia. }
  rewrite read_spread_new in A2.
  set (h' := shuffleFor undefined (length a - 1) k (h ++ [a]) (length h)) in *.
  exists (read h' (length h)). split; [exact A2|]. f_equal.
  apply (nth_ext _ _ [] []).
  - rewrite A1, !length_app. reflexivity.
  - intros n Ln. rewrite A1, length_app in Ln. simpl in Ln.
    destruct (Nat.eq_dec n (length h)) as [-> | N].
    + rewrite app_nth2, Nat.sub_diag by lia. reflexivity.
    + change (read h' n = read (h ++ [read h' (length h)]) n).
      rewrite (A3 n N). rewrite !read_spread_old by lia. reflexivity.
Qed.

Lemma read_write_any (h : list (list T)) (r r' : nat) (a : list T) :
  (r < length h)%nat ->
  read (write h r a) r' = if Nat.eq_dec r' r then a else read h r'.
Proof.
  intros L. destruct (Nat.eq_dec r' r) as [-> | N].
  - apply read_write_same. exact L.
  - apply read_write_other. congruence.
Qed.

Lemma slice_from_0 (a : list T) (n : nat) : slice a 0 n = firstn n a.
Proof. unfold slice. rewrite Nat.sub_0_r. reflexivity. Qed.

Lemma slice_length (a : list T) (b e : nat) :
  length (slice a b e) = Nat.min (e - b) (length a - b).
Proof. unfold slice. rewrite length_firstn, length_skipn. reflexivity. Qed.



End Facts.
End DigestFacts.
Import DigestFacts.



(** X11.  The articles that [generateAdditionalSections] puts in the
    prompt.  With draws of [Math.random()] in [[0, 1)]: on an empty array
    the call returns at once; otherwise the prompt is a new array of
    [min 80 n] articles taken among those of the input, and every array of
    the store, the caller's included, is as it was. *)
Theorem additional_prompt_selection {T : Type} (undefined : T) {M : MathLib}
    (h : list (list T)) (articles : nat) (k : nat) :
  random_in_range M -> (articles < length h)%nat ->
  let a := Shuffle.read h articles in
  let out := Digest.additionalInput undefined h articles k in
  (a = [] <-> out = None) /\
  (a <> [] ->
   exists h' prompt k',
     out = Some (h', prompt, k') /\
     (forall r, (r < length h)%nat -> Shuffle.read h' r = Shuffle.read h r) /\
     (length h <= prompt)%nat /\
     length (Shuffle.read h' prompt) = Nat.min 80 (length a) /\
     exists rest, Permutation a (Shuffle.read h' prompt ++ rest)).
Proof.
  intros R L a out. subst out. unfold Digest.additionalInput. fold a.
  destruct (shuffleArray_appends undefined R h articles k L)
    as (sh & Psh & ->). fold a in Psh.
  unfold Shuffle.spread. rewrite read_spread_new.
  destruct (length a =? 0)%nat eqn:Z.
  - apply Nat.eqb_eq in Z. destruct a; [|discriminate].
    split; [split; reflexivity | congruence].
  - split; [split; [intros E; rewrite E in Z; discriminate | discriminate]|].
    intros _.
    exists ((h ++ [sh]) ++ [Digest.slice sh 0 80]), (length (h ++ [sh])).
    eexists. split; [reflexivity|].
    split; [intros r Lr; rewrite !read_spread_old;
            [reflexivity | | ]; rewrite ?length_app; simpl; lia|].
    split; [rewrite length_app; simpl; lia|].
    rewrite read_spread_new.
    split; [rewrite slice_length, <- (Permutation_length Psh); lia|].
    exists (skipn 80 sh). rewrite slice_from_0, firstn_skipn. exact Psh.
Qed.

(** X11 on the array of 130 articles: 80 are taken, and the array is as
    it was. *)
Lemma additional_prompt_selection_witness :
  exists h' prompt k',
    @Digest.additionalInput (option nat) None halves Digest.newsroom
      0%nat 0%nat = Some (h', prompt, k') /\
    length (Shuffle.read h' prompt) = 80%nat /\
    Shuffle.read h' 0%nat = Shuffle.read Digest.newsroom 0%nat.
Proof.
  assert (R : random_in_range halves)
    by (apply ReferenceFacts.refMath_in_range; reflexivity).
  assert (L : (0 < length Digest.newsroom)%nat) by (vm_compute; lia).
  pose proof (@additional_prompt_selection (option nat) None halves
                Digest.newsroom 0%nat 0%nat R L) as [_ B].
  destruct B as (h' & p & k' & E & O & _ & Ln & _);
    [vm_compute; discriminate|].
  exists h', p, k'. split; [exact E|].
  split; [rewrite Ln; vm_compute; reflexivity|].
  apply O. exact L.
Defined.

(** * Strings and tags *)

Module TextFacts.
Import Text.

Lemma eqb_eq (a : Str) : forall b, eqb a b = true <-> a = b.
Proof.
  induction a as [|c a IH]; intros [|d b]; simpl;
    try (split; [discriminate | discriminate]); [split; reflexivity|].
  rewrite andb_true_iff, N.eqb_eq, IH. split.
  - intros [-> ->]. reflexivity.
  - intros E. injection E as -> ->. split; reflexivity.
Qed.

(** What [trimStart] leaves does not start with white space. *)
Lemma trimStart_head (s : Str) (c : N) (rest : Str) :
  trimStart s = c :: rest -> isWhiteSpace c = false.
Proof.
  induction s as [|d s IH]; simpl; [discriminate|].
  destruct (isWhiteSpace d) eqn:W; [exact IH|].
  intros E. injection E as <- _. exact W.
Qed.

Lemma trimStart_snoc (s : Str) (c : N) :
  isWhiteSpace c = false -> trimStart (s ++ [c]) = trimStart s ++ [c].
Proof.
  intros W. induction s as [|d s IH]; simpl; [rewrite W; reflexivity|].
  destruct (isWhiteSpace d); [exact IH | reflexivity].
Qed.

(** What [trim] leaves does not start with white space. *)
Lemma trim_head (s : Str) (c : N) (rest : Str) :
  trim s = c :: rest -> isWhiteSpace c = false.
Proof.
  unfold trim, trimEnd. destruct (trimStart s) as [|d u] eqn:E.
  - simpl. discriminate.
  - pose proof (trimStart_head s d u E) as W.
    change (rev (d :: u)) with (rev u ++ [d]).
    rewrite (trimStart_snoc _ _ W), rev_app_distr. simpl.
    intros X. injection X as <- _. exact W.
Qed.

(** The words of [split] hold no white space. *)
Lemma splitFrom_oneWord (s : Str) : forall word gap,
  oneWord word = true ->
  forall w, In w (splitFrom word gap s) -> oneWord w = true.
Proof.
  induction s as [|c s IH]; intros word gap O w I.
  - simpl in I. destruct I as [<- | []].
    unfold oneWord in *. rewrite forallb_forall in *.
    intros x Ix. apply O. apply in_rev. exact Ix.
  - simpl in I. destruct (isWhiteSpace c) eqn:W.
    + assert (O' : oneWord (rev word) = true).
      { unfold oneWord in *. rewrite forallb_forall in *.
        intros x Ix. apply O. apply in_rev. exact Ix. }
      destruct gap.
      * apply (IH [] true eq_refl w I).
      * destruct I as [<- | I]; [exact O'|].
        apply (IH [] true eq_refl w I).
    + apply (IH (c :: word) false); [|exact I].
      simpl. rewrite W, O. reflexivity.
Qed.

(** A word that has begun is closed not empty. *)
Lemma splitFrom_first (s : Str) : forall word,
  word <> [] ->
  exists w ws, splitFrom word false s = w :: ws /\ w <> [].
Proof.
  induction s as [|c s IH]; intros word N.
  - exists (rev word), []. split; [reflexivity|].
    intros E. apply N. rewrite <- (rev_involutive word), E. reflexivity.
  - simpl. destruct (isWhiteSpace c).
    + exists (rev word), (splitFrom [] true s). split; [reflexivity|].
      intros E. apply N. rewrite <- (rev_involutive word), E. reflexivity.
    + apply IH. discriminate.
Qed.

End TextFacts.

Module TagsFacts.
Import Text TextFacts Tags.

(** [reduce] with [longer] returns the start value, no word being longer,
    or the first of the longest words. *)
Lemma longest_spec (words : list Str) : forall acc,
  (fold_left longer words acc = acc /\
   forall w, In w words -> (length w <= length acc)%nat) \/
  (exists pre post,
     words = pre ++ fold_left longer words acc :: post /\
     (length acc < length (fold_left longer words acc))%nat /\
     (forall w, In w pre ->
        (length w < length (fold_left longer words acc))%nat) /\
     (forall w, In w post ->
        (length w <= length (fold_left longer words acc))%nat)).
Proof.
  induction words as [|b words IH]; intros acc.
  - left. split; [reflexivity | intros w []].
  - cbn [fold_left]. set (acc' := longer acc b).
    assert (C : (acc' = acc /\ length b <= length acc)%nat \/
                (acc' = b /\ length acc < length b)%nat).
    { unfold acc', longer.
      destruct (Nat.leb_spec (length b) (length acc)); [left | right];
        split; (reflexivity || assumption). }
    clearbody acc'. destruct C as [[-> L] | [-> L]].
    + destruct (IH acc) as [[E A] | (pre & post & E & G & P & Q)].
      * left. split; [exact E|].
        intros w [<- | I]; [exact L | apply A; exact I].
      * right. exists (b :: pre), post.
        split; [simpl; rewrite <- E; reflexivity|].
        split; [exact G|]. split; [|exact Q].
        intros w [<- | I]; [lia | apply P; exact I].
    + right. destruct (IH b) as [[E A] | (pre & post & E & G & P & Q)].
      * exists [], words. rewrite E.
        split; [reflexivity|]. split; [exact L|].
        split; [intros w [] | exact A].
      * exists (b :: pre), post.
        split; [simpl; rewrite <- E; reflexivity|].
        split; [lia|]. split; [|exact Q].
        intros w [<- | I]; [lia | apply P; exact I].
Qed.

(** Every value of [TAG_MAPPINGS] is one word, and not empty. *)
Lemma mapped_values (k v : Str) :
  In (k, v) TAG_MAPPINGS -> oneWord v = true /\ v <> [].
Proof.
  assert (A : forallb (fun kv => oneWord (snd kv) && negb (eqb (snd kv) []))
                TAG_MAPPINGS = true) by (vm_compute; reflexivity).
  rewrite forallb_forall in A. intros I. specialize (A _ I).
  cbn [snd] in A. apply andb_prop in A. destruct A as [O E].
  split; [exact O|]. intros ->. discriminate E.
Qed.

Lemma lookup_Text (key v : Str) :
  lookup key = Text v -> In (key, v) TAG_MAPPINGS.
Proof.
  unfold lookup.
  destruct (find (fun kv => eqb (fst kv) key) TAG_MAPPINGS) as [[k' v']|] eqn:F.
  - intros E. injection E as <-. apply find_some in F.
    destruct F as [I K]. cbn [fst] in K. apply eqb_eq in K. subst k'. exact I.
  - destruct (existsb (eqb key) objectPrototype); discriminate.
Qed.

Lemma lookup_Member (key name : Str) :
  lookup key = Member name -> name = key /\ In key objectPrototype.
Proof.
  unfold lookup.
  destruct (find (fun kv => eqb (fst kv) key) TAG_MAPPINGS) as [[k' v']|];
    [discriminate|].
  destruct (existsb (eqb key) objectPrototype) eqn:X; [|discriminate].
  intros E. injection E as <-. split; [reflexivity|].
  apply existsb_exists in X. destruct X as (n & I & K).
  apply eqb_eq in K. subst n. exact I.
Qed.

End TagsFacts.
Import Text TextFacts Tags TagsFacts.

(** X12.  What [sanitizeTag] returns, [lower] being the tag in lower case
    and trimmed.  A tag with a mapping becomes the mapped word, which is
    one word.  A tag that names a member of [Object.prototype] gives that
    member, which is no string.  Any other tag without a space (U+0020) in
    [lower] is returned as given, neither trimmed nor lowered, with its
    first code unit in upper case.  Any other tag is reduced to one word
    of [lower], the first among its longest words, with its first code
    unit in upper case: what follows that unit holds no white space. *)
Theorem sanitizeTag_picks_first_longest_word
    (toLowerCase toUpperCase : Str -> Str) (tag : Str) :
  let lower := trim (toLowerCase tag) in
  let result := sanitizeTag toLowerCase toUpperCase tag in
  (forall v, lookup lower = Text v ->
     result = Text v /\ oneWord v = true /\ v <> []) /\
  (forall name, lookup lower = Member name ->
     result = Member lower /\ In lower objectPrototype) /\
  (lookup lower = Undefined -> includes 32 lower = false ->
   result = Text (toUpperCase (charAt0 tag) ++ slice1 tag)) /\
  (lookup lower = Undefined -> includes 32 lower = true ->
   exists c rest pre post,
     split lower = pre ++ (c :: rest) :: post /\
     (forall w, In w pre -> (length w < length (c :: rest))%nat) /\
     (forall w, In w post -> (length w <= length (c :: rest))%nat) /\
     oneWord (c :: rest) = true /\
     result = Text (toUpperCase [c] ++ rest)).
Proof.
  intros lower result. subst result. unfold sanitizeTag. fold lower.
  split; [|split; [|split]].
  - intros v E. rewrite E.
    destruct (mapped_values lower v (lookup_Text _ _ E)) as [O N].
    destruct v as [|c v]; [congruence|]. cbn [truthy].
    split; [reflexivity | split; [exact O | exact N]].
  - intros name E. destruct (lookup_Member _ _ E) as [-> I].
    rewrite E. cbn [truthy]. split; [reflexivity | exact I].
  - intros E I. rewrite E, I. reflexivity.
  - intros E I. rewrite E, I. cbn [truthy negb].
    destruct lower as [|c0 r0] eqn:EL; [discriminate I|].
    pose proof (trim_head _ _ _ EL) as W.
    assert (O : forall w, In w (split (c0 :: r0)) -> oneWord w = true)
      by (apply splitFrom_oneWord; reflexivity).
    unfold split in *. cbn [splitFrom] in *. rewrite W in *.
    destruct (splitFrom_first r0 [c0]) as (w & ws & Es & Nw); [discriminate|].
    rewrite Es in *.
    destruct (longest_spec (w :: ws) []) as [[_ A] | (pre & post & D & G & P & Q)].
    + specialize (A w (or_introl eq_refl)). destruct w; [congruence|].
      simpl in A. lia.
    + destruct (fold_left longer (w :: ws) []) as [|c rest] eqn:F;
        [simpl in G; lia|].
      exists c, rest, pre, post.
      split; [exact D|]. split; [exact P|]. split; [exact Q|].
      split; [|reflexivity].
      apply O. rewrite D. apply in_or_app. right. left. reflexivity.
Qed.

(** X12 on "Nova technologia", written with its accents: the second word
    is the longer, and the tag becomes "Technologia"; " ai" is returned
    with its space; "constructor" gives a member of [Object.prototype]. *)
Lemma sanitizeTag_picks_first_longest_word_witness :
  sanitizeTag asciiLower asciiUpper novaTechnologia
    = Text [84; 101; 99; 104; 110; 111; 108; 243; 103; 105; 97]%N /\
  sanitizeTag asciiLower asciiUpper paddedAi = Text paddedAi /\
  sanitizeTag asciiLower asciiUpper constructor = Member constructor.
Proof.
  pose proof (sanitizeTag_picks_first_longest_word asciiLower asciiUpper
                novaTechnologia) as (_ & _ & _ & A).
  pose proof (sanitizeTag_picks_first_longest_word asciiLower asciiUpper
                paddedAi) as (_ & _ & B & _).
  pose proof (sanitizeTag_picks_first_longest_word asciiLower asciiUpper
                constructor) as (_ & C & _).
  split; [|split].
  - destruct A as (c & rest & pre & post & D & P & Q & _ & ->);
      [vm_compute; reflexivity | vm_compute; reflexivity |].
    assert (S : split (trim (asciiLower novaTechnologia))
                = [[110; 111; 118; 225];
                   [116; 101; 99; 104; 110; 111; 108; 243; 103; 105; 97]]%N)
      by (vm_compute; reflexivity).
    rewrite S in D. destruct pre as [|p1 [|p2 pre]].
    + injection D; intros; subst.
      specialize (Q _ (or_introl eq_refl)). simpl in Q. lia.
    + injection D; intros; subst. reflexivity.
    + injection D; intros D' _ _. destruct pre; discriminate D'.
  - rewrite B; vm_compute; reflexivity.
  - destruct (C constructor) as [-> _]; vm_compute; reflexivity.
Defined.

(** * The storage service *)

Module StorageFacts.
Import Storage.

Section Facts.
Context {PersonaType DailyDigest DigestSection : Type}.
Variable DEFAULT : PersonaType.
Variable digestId : DailyDigest -> Str.
Variable title : DigestSection -> Str.
Variables truthyStatus : SubscriptionStatus -> bool.
Variable truthyFrequency : NotificationFrequency -> bool.

#[local] Abbreviation Store := (@LocalStorage PersonaType DailyDigest DigestSection).
#[local] Abbreviation getProfile := (getUserProfile DEFAULT truthyStatus truthyFrequency).

(** The profile read back is the profile saved, when its status and its
    frequency are truthy. *)
Lemma getUserProfile_saved (now : Z) (p : UserProfile) (st : Store) :
  truthyStatus (subscriptionStatus (subscription p)) = true ->
  truthyFrequency (notificationFrequency p) = true ->
  getProfile now (saveUserProfile p st) = p.
Proof.
  intros S F. unfold getUserProfile, saveUserProfile. cbn.
  rewrite S, F. destruct p. reflexivity.
Qed.

(** The status of a profile read: that of the stored profile when it is
    there and truthy, [TRIAL] from the time of the reading otherwise. *)
Lemma getUserProfile_subscription (now : Z) (st : Store) :
  (exists p sub, PROFILE_KEY st = Some p /\ stored_subscription p = Some sub /\
                 truthyStatus (subscriptionStatus sub) = true /\
                 subscription (getProfile now st) = sub) \/
  (subscriptionStatus (subscription (getProfile now st)) = TRIAL /\
   trialStartDate (subscription (getProfile now st)) = now /\
   forall p sub, PROFILE_KEY st = Some p -> stored_subscription p = Some sub ->
                 truthyStatus (subscriptionStatus sub) = false).
Proof.
  unfold getUserProfile. destruct (PROFILE_KEY st) as [p|].
  - destruct (stored_subscription p) as [sub|] eqn:E.
    + destruct (truthyStatus (subscriptionStatus sub)) eqn:T.
      * left. exists p, sub. cbn. repeat split; assumption || reflexivity.
      * right. cbn. repeat split. intros p' sub' X Y.
        injection X as <-. rewrite E in Y. injection Y as <-. exact T.
    + right. cbn. repeat split. intros p' sub' X Y.
      injection X as <-. rewrite E in Y. discriminate Y.
  - right. cbn. repeat split. intros p' sub' X. discriminate X.
Qed.

(** A profile read has a truthy status and a truthy frequency as soon as
    [TRIAL] and [DAILY] are truthy. *)
Lemma getUserProfile_truthy (now : Z) (st : Store) :
  truthyStatus TRIAL = true -> truthyFrequency DAILY = true ->
  truthyStatus (subscriptionStatus (subscription (getProfile now st))) = true /\
  truthyFrequency (notificationFrequency (getProfile now st)) = true.
Proof.
  intros T D. unfold getUserProfile.
  destruct (PROFILE_KEY st) as [p|]; cbn; [|split; assumption].
  split.
  - destruct (stored_subscription p) as [sub|]; [|exact T].
    destruct (truthyStatus (subscriptionStatus sub)) eqn:E; [exact E | exact T].
  - destruct (stored_notificationFrequency p) as [f|]; [|exact D].
    destruct (truthyFrequency f) eqn:E; [exact E | exact D].
Qed.

(** [Math.ceil(a / d)] for integers [a] and [d > 0]. *)
Lemma ceiling_div (a d : Z) :
  (0 < d)%Z ->
  ((Qceiling (inject_Z a / inject_Z d) - 1) * d < a)%Z /\
  (a <= Qceiling (inject_Z a / inject_Z d) * d)%Z.
Proof.
  intros D. set (c := Qceiling (inject_Z a / inject_Z d)).
  assert (Dq : 0 < inject_Z d)
    by (change (inject_Z 0 < inject_Z d); rewrite <- Zlt_Qlt; exact D).
  assert (E : inject_Z a == inject_Z a / inject_Z d * inject_Z d).
  { field. intros Z0. rewrite Z0 in Dq. apply (Qlt_irrefl 0 Dq). }
  split.
  - rewrite Zlt_Qlt, inject_Z_mult, E.
    apply Qmult_lt_compat_r; [exact Dq | apply Qceiling_lt].
  - rewrite Zle_Qle, inject_Z_mult, E.
    apply Qmult_le_compat_r; [apply Qle_ceiling | apply Qlt_le_weak; exact Dq].
Qed.

(** The days left of a trial with [a] milliseconds to go. *)
Lemma daysLeft_spec (a : Z) :
  let r := Z.max 0 (Qceiling (inject_Z a / inject_Z dayLength)) in
  ((0 < r <-> 0 < a) /\
   (0 < a -> (r - 1) * dayLength < a <= r * dayLength))%Z.
Proof.
  intros r. subst r.
  destruct (ceiling_div a dayLength) as [L U]; [reflexivity|].
  set (c := Qceiling (inject_Z a / inject_Z dayLength)) in *.
  unfold dayLength in *.
  split; [split|]; intros H; try split; nia.
Qed.

End Facts.
End StorageFacts.
Import Storage StorageFacts.

(** X13.  The trial.  For a stored profile in [TRIAL] (a truthy member)
    that began at [trialStartDate]: [checkSubscriptionAccess] grants access
    exactly while no more than seven days have passed, and then writes
    nothing; [getTrialDaysLeft] is positive exactly while less than seven
    days have passed, and then counts the days begun that are left; the
    first check after more than seven days stores [EXPIRED], after which
    (this member being truthy) every check refuses and no day is left,
    whatever the clock says. *)
Theorem trial_lasts_seven_days {PersonaType DailyDigest DigestSection : Type}
    (DEFAULT : PersonaType)
    (truthyStatus : SubscriptionStatus -> bool)
    (truthyFrequency : NotificationFrequency -> bool)
    (st : @LocalStorage PersonaType DailyDigest DigestSection)
    (p : StoredProfile) (sub : Subscription) (read now : Z) :
  PROFILE_KEY st = Some p -> stored_subscription p = Some sub ->
  subscriptionStatus sub = TRIAL -> truthyStatus TRIAL = true ->
  let check := checkSubscriptionAccess DEFAULT truthyStatus truthyFrequency in
  let daysLeft := getTrialDaysLeft DEFAULT truthyStatus truthyFrequency in
  let diff := (now - trialStartDate sub)%Z in
  (snd (check read now st) = true <-> (diff <= trialLength)%Z) /\
  ((diff <= trialLength)%Z -> fst (check read now st) = st) /\
  ((0 < daysLeft read now st)%Z <-> (diff < trialLength)%Z) /\
  ((diff < trialLength)%Z ->
   ((daysLeft read now st - 1) * dayLength < trialLength - diff
    <= daysLeft read now st * dayLength)%Z) /\
  ((trialLength < diff)%Z -> truthyStatus EXPIRED = true ->
   forall read' now',
     check read' now' (fst (check read now st))
       = (fst (check read now st), false) /\
     daysLeft read' now' (fst (check read now st)) = 0%Z).
Proof.
  intros P S T Tr check daysLeft diff.
  assert (G : forall t, subscription
                (getUserProfile DEFAULT truthyStatus truthyFrequency t st)
              = sub).
  { intros t. unfold getUserProfile. rewrite P. cbn. rewrite S, T, Tr.
    reflexivity. }
  assert (C : check read now st
              = if (trialLength <? diff)%Z
                then (saveUserProfile
                        (withSubscription (withStatus EXPIRED sub)
                           (getUserProfile DEFAULT truthyStatus
                              truthyFrequency read st)) st, false)
                else (st, true)).
  { unfold check, checkSubscriptionAccess. rewrite G, T. reflexivity. }
  assert (D : daysLeft read now st
              = Z.max 0 (Qceiling (inject_Z (trialLength - diff)
                                   / inject_Z dayLength))).
  { unfold daysLeft, getTrialDaysLeft. rewrite G, T. reflexivity. }
  destruct (daysLeft_spec (trialLength - diff)) as [Dp Db].
  rewrite <- D in Dp, Db.
  split; [|split; [|split; [|split]]].
  - rewrite C. destruct (Z.ltb_spec trialLength diff); cbn [snd];
      split; intros; (lia || congruence).
  - intros L. rewrite C.
    destruct (Z.ltb_spec trialLength diff); [lia | reflexivity].
  - rewrite Dp. lia.
  - intros L. apply Db. lia.
  - intros L Ex read' now'. rewrite C.
    destruct (Z.ltb_spec trialLength diff); [|lia]. cbn [fst].
    set (q := withSubscription (withStatus EXPIRED sub)
                (getUserProfile DEFAULT truthyStatus truthyFrequency read st)).
    assert (G' : subscription
                   (getUserProfile DEFAULT truthyStatus truthyFrequency read'
                      (saveUserProfile q st))
                 = withStatus EXPIRED sub).
    { unfold getUserProfile at 1, saveUserProfile. cbn. rewrite Ex.
      reflexivity. }
    split.
    + unfold check, checkSubscriptionAccess. rewrite G'. reflexivity.
    + unfold daysLeft, getTrialDaysLeft. rewrite G'. reflexivity.
Qed.

(** X13 on the profile first written at 1 000 000 ms: access on the
    seventh day to the millisecond, none one millisecond later and none
    ever after, one day left after six days and a half. *)
Lemma trial_lasts_seven_days_witness :
  snd (checkSubscriptionAccess 0%nat allTruthy allTruthy
         0 (1000000 + trialLength) installed) = true /\
  snd (checkSubscriptionAccess 0%nat allTruthy allTruthy
         0 (1000001 + trialLength) installed) = false /\
  snd (checkSubscriptionAccess 0%nat allTruthy allTruthy 0 1000000
         (fst (checkSubscriptionAccess 0%nat allTruthy allTruthy
                 0 (1000001 + trialLength) installed))) = false /\
  getTrialDaysLeft 0%nat allTruthy allTruthy 0 (1000000 + 561600000) installed
    = 1%Z.
Proof.
  pose proof (fun now =>
    @trial_lasts_seven_days nat nat nat 0%nat allTruthy allTruthy installed
      _ _ 0%Z now eq_refl eq_refl eq_refl eq_refl) as T.
  cbv zeta in T.
  destruct (T (1000000 + trialLength)%Z) as (A & _).
  destruct (T (1000001 + trialLength)%Z) as (B & _ & _ & _ & C).
  destruct (T (1000000 + 561600000)%Z) as (_ & _ & _ & D & _).
  split; [apply A; vm_compute; discriminate|].
  split.
  { apply not_true_is_false. intros E. apply (proj1 B) in E.
    vm_compute in E. apply E. reflexivity. }
  split.
  { destruct (C eq_refl eq_refl 0%Z 1000000%Z) as [-> _]. reflexivity. }
  assert (L : (1000000 + 561600000 - trialStartDate
                 (mkSubscription TRIAL NONE 1000000 None) < trialLength)%Z)
    by (vm_compute; reflexivity).
  specialize (D L).
  match type of D with context [trialStartDate ?s] =>
    replace (trialStartDate s) with 1000000%Z in D by (vm_compute; reflexivity)
  end.
  unfold dayLength, trialLength in D. lia.
Defined.

Module ServiceFacts.

Section Facts.
Context {PersonaType DailyDigest DigestSection : Type}.
Variable DEFAULT : PersonaType.
Variable digestId : DailyDigest -> Str.
Variable title : DigestSection -> Str.
Variables truthyStatus : SubscriptionStatus -> bool.
Variable truthyFrequency : NotificationFrequency -> bool.
Variable toLowerCase : Str -> Str.

#[local] Abbreviation Store := (@LocalStorage PersonaType DailyDigest DigestSection).
#[local] Abbreviation getProfile := (getUserProfile DEFAULT truthyStatus truthyFrequency).
#[local] Abbreviation call :=
  (Storage.call DEFAULT digestId title truthyStatus truthyFrequency toLowerCase).
#[local] Abbreviation calls :=
  (Storage.calls DEFAULT digestId title truthyStatus truthyFrequency toLowerCase).






End Facts.
End ServiceFacts.
Import ServiceFacts.



(** X15.  The trial begins with the first write of the profile.  While
    no profile is stored, every reading makes a profile on trial from the
    time of the reading and stores nothing: whatever the time,
    [checkSubscriptionAccess] grants access (its two readings of the clock
    being no more than a week apart) and [getTrialDaysLeft] is 7.  The
    first call that rewrites the profile as it read it, [setPersona],
    [toggleTheme] or [updateLastNotification], stores the time of its
    reading as [trialStartDate], with the status [TRIAL]. *)
Theorem trial_begins_at_first_write
    {PersonaType DailyDigest DigestSection : Type}
    (DEFAULT : PersonaType) (digestId : DailyDigest -> Str)
    (title : DigestSection -> Str)
    (truthyStatus : SubscriptionStatus -> bool)
    (truthyFrequency : NotificationFrequency -> bool)
    (toLowerCase : Str -> Str)
    (st : @LocalStorage PersonaType DailyDigest DigestSection) :
  PROFILE_KEY st = None ->
  (forall read now,
     (0 <= now - read <= trialLength)%Z ->
     checkSubscriptionAccess DEFAULT truthyStatus truthyFrequency read now st
       = (st, true)) /\
  (forall read,
     getTrialDaysLeft DEFAULT truthyStatus truthyFrequency read read st
       = 7%Z) /\
  (forall c read,
     readsAt c = Some read ->
     exists p sub,
       PROFILE_KEY (Storage.call DEFAULT digestId title truthyStatus
                      truthyFrequency toLowerCase st c) = Some p /\
       stored_subscription p = Some sub /\
       subscriptionStatus sub = TRIAL /\ trialStartDate sub = read).
Proof.
  intros P.
  assert (G : forall t, subscription
                (getUserProfile DEFAULT truthyStatus truthyFrequency t st)
              = mkSubscription TRIAL NONE t None)
    by (intros t; unfold getUserProfile; rewrite P; reflexivity).
  split; [|split].
  - intros read now B. unfold checkSubscriptionAccess. rewrite G.
    cbn [subscriptionStatus isLIFETIME isACTIVE isTRIAL trialStartDate].
    destruct (Z.ltb_spec trialLength (now - read)); [lia | reflexivity].
  - intros read. unfold getTrialDaysLeft. rewrite G.
    cbn [subscriptionStatus isTRIAL negb trialStartDate].
    rewrite Z.sub_diag. vm_compute. reflexivity.
  - intros c read R.
    destruct c; try discriminate R; injection R as ->; cbn [Storage.call];
      unfold setPersona, toggleTheme, updateLastNotification, saveUserProfile;
      cbn [fst PROFILE_KEY subscription]; rewrite G;
      eexists; eexists; (split; [reflexivity|]); cbn [stored_subscription];
      (split; [reflexivity|]); split; reflexivity.
Qed.

(** X15 on the empty storage: access a week after the reading, and the
    trial of [installed] began at 1 000 000 ms. *)
Lemma trial_begins_at_first_write_witness :
  checkSubscriptionAccess 0%nat allTruthy allTruthy 5000 (5000 + trialLength)
    (@empty nat nat nat) = (empty, true) /\
  exists p sub,
    PROFILE_KEY installed = Some p /\ stored_subscription p = Some sub /\
    trialStartDate sub = 1000000%Z.
Proof.
  pose proof (@trial_begins_at_first_write nat nat nat 0%nat
                numbered numbered
                allTruthy allTruthy asciiLower empty eq_refl) as (A & _ & B).
  split.
  - apply A. vm_compute. split; discriminate.
  - destruct (B (SetPersona 1000000 1%nat) 1000000%Z eq_refl)
      as (p & sub & E & S & _ & T).
    exists p, sub. split; [exact E | split; [exact S | exact T]].
Defined.

Module StreakFacts.

Section Facts.
Context {PersonaType DailyDigest DigestSection : Type}.
Variable DEFAULT : PersonaType.
Variable digestId : DailyDigest -> Str.
Variable title : DigestSection -> Str.
Variables truthyStatus : SubscriptionStatus -> bool.
Variable truthyFrequency : NotificationFrequency -> bool.
Variable toLowerCase : Str -> Str.

#[local] Abbreviation Store := (@LocalStorage PersonaType DailyDigest DigestSection).
#[local] Abbreviation getProfile := (getUserProfile DEFAULT truthyStatus truthyFrequency).
#[local] Abbreviation update := (updateStreak DEFAULT truthyStatus truthyFrequency).
#[local] Abbreviation call :=
  (Storage.call DEFAULT digestId title truthyStatus truthyFrequency toLowerCase).








End Facts.
End StreakFacts.
Import StreakFacts.



Module DigestsFacts.

Section Facts.
Context {DailyDigest : Type}.
Variable digestId : DailyDigest -> Str.

Lemma eqb_refl (a : Str) : eqb a a = true.
Proof. apply eqb_eq. reflexivity. Qed.

Lemma eqb_neq (a b : Str) : a <> b -> eqb a b = false.
Proof.
  intros N. destruct (eqb a b) eqn:E; [|reflexivity].
  apply eqb_eq in E. congruence.
Qed.

(** [findIndex] and [find] look for the same digest. *)
Lemma findIndex_find (id : Str) (l : list DailyDigest) :
  (findIndex digestId id l = None <-> find (fun d => eqb (digestId d) id) l = None) /\
  (findIndex digestId id l = None -> ~ In id (map digestId l)).
Proof.
  induction l as [|d l [IH1 IH2]];
    [split; [split; reflexivity | intros _ []]|].
  simpl. destruct (eqb (digestId d) id) eqn:E.
  - repeat split; discriminate.
  - destruct (findIndex digestId id l).
    + split; [split; [discriminate|]|discriminate].
      intros X. apply IH1 in X. discriminate X.
    + split; [split; [intros _; apply IH1; reflexivity | reflexivity]|].
      intros _ [X | X]; [|apply (IH2 eq_refl X)].
      rewrite X, eqb_refl in E. discriminate E.
Qed.

(** The digest found is at the index found, and has the identifier. *)
Lemma setIndex_spec (digest : DailyDigest) (l : list DailyDigest) : forall i,
  findIndex digestId (digestId digest) l = Some i ->
  find (fun d => eqb (digestId d) (digestId digest)) (setIndex i digest l) = Some digest /\
  map digestId (setIndex i digest l) = map digestId l /\
  forall id, id <> digestId digest ->
    find (fun d => eqb (digestId d) id) (setIndex i digest l) = find (fun d => eqb (digestId d) id) l.
Proof.
  induction l as [|d l IH]; intros i F; [discriminate F|].
  simpl in F. destruct (eqb (digestId d) (digestId digest)) eqn:E.
  - injection F as <-. apply eqb_eq in E. simpl.
    rewrite eqb_refl. split; [reflexivity|]. split; [rewrite E; reflexivity|].
    intros id N. rewrite E, (eqb_neq _ _ (not_eq_sym N)). reflexivity.
  - destruct (findIndex digestId (digestId digest) l) as [j|]; [|discriminate].
    injection F as <-. destruct (IH j eq_refl) as (A & B & C).
    simpl. rewrite E. split; [exact A|]. split; [rewrite B; reflexivity|].
    intros id N. rewrite (C id N). reflexivity.
Qed.

Lemma find_filter_out (id : Str) (l : list DailyDigest) :
  find (fun d => eqb (digestId d) id) (filter (fun d => negb (eqb (digestId d) id)) l) = None /\
  forall id', id' <> id ->
    find (fun d => eqb (digestId d) id') (filter (fun d => negb (eqb (digestId d) id)) l)
      = find (fun d => eqb (digestId d) id') l.
Proof.
  induction l as [|d l [IH1 IH2]]; [split; reflexivity|].
  simpl. destruct (eqb (digestId d) id) eqn:E; cbn [negb].
  - split; [exact IH1|]. intros id' N. apply eqb_eq in E.
    rewrite E, (eqb_neq _ _ (not_eq_sym N)). apply IH2. exact N.
  - simpl. rewrite E. split; [exact IH1|]. intros id' N.
    destruct (eqb (digestId d) id'); [reflexivity | apply IH2; exact N].
Qed.

End Facts.
End DigestsFacts.
Import DigestsFacts.

(** X17.  The digests.  After [saveDigest] the digest is the one found
    under its identifier, and what is found under any other identifier is
    as before; a digest whose identifier is known takes the place of the
    one that had it, the profile being left alone, and a digest whose
    identifier is new goes to the front, [updateStreak] being called; so
    identifiers that are distinct stay distinct.  After [deleteDigest]
    nothing is found under the identifier, and what is found under any
    other is as before. *)
Theorem digest_saved_is_found {PersonaType DailyDigest DigestSection : Type}
    (DEFAULT : PersonaType) (digestId : DailyDigest -> Str)
    (truthyStatus : SubscriptionStatus -> bool)
    (truthyFrequency : NotificationFrequency -> bool)
    (st : @LocalStorage PersonaType DailyDigest DigestSection)
    (read : Z) (today yesterdayStr : Str) (digest : DailyDigest)
    (id : Str) :
  let saved :=
    saveDigest DEFAULT digestId truthyStatus truthyFrequency
      read today yesterdayStr digest st in
  let ids s := map digestId (getDigests s) in
  getDigestById digestId (digestId digest) saved = Some digest /\
  (id <> digestId digest ->
   getDigestById digestId id saved = getDigestById digestId id st) /\
  (getDigestById digestId (digestId digest) st <> None ->
   ids saved = ids st /\ PROFILE_KEY saved = PROFILE_KEY st) /\
  (getDigestById digestId (digestId digest) st = None ->
   getDigests saved = digest :: getDigests st /\
   PROFILE_KEY saved
     = PROFILE_KEY (updateStreak DEFAULT truthyStatus truthyFrequency
                      read today yesterdayStr st)) /\
  (NoDup (ids st) -> NoDup (ids saved)) /\
  getDigestById digestId id (deleteDigest digestId id st) = None /\
  (id <> digestId digest ->
   getDigestById digestId (digestId digest) (deleteDigest digestId id st)
     = getDigestById digestId (digestId digest) st).
Proof.
  intros saved ids. subst saved ids. unfold saveDigest, getDigestById.
  destruct (findIndex_find digestId (digestId digest) (getDigests st))
    as [FN FI].
  destruct (find_filter_out digestId id (getDigests st)) as [D1 D2].
  destruct (findIndex digestId (digestId digest) (getDigests st)) as [i|] eqn:F.
  - destruct (setIndex_spec digestId digest (getDigests st) i F)
      as (A & B & C).
    assert (K : find (fun d => eqb (digestId d) (digestId digest))
                  (getDigests st) <> None).
    { intros X. apply FN in X. discriminate X. }
    cbn [getDigests setDigests DIGESTS_KEY PROFILE_KEY].
    fold (getDigests st).
    split; [exact A|]. split; [intros N; apply C; exact N|].
    split; [intros _; split; [exact B | reflexivity]|].
    split; [intros X; congruence|].
    split; [rewrite B; exact (fun H => H)|].
    split; [exact D1|]. intros N. apply D2. congruence.
  - assert (K : find (fun d => eqb (digestId d) (digestId digest))
                  (getDigests st) = None) by (apply FN; reflexivity).
    assert (G : getDigests (updateStreak DEFAULT truthyStatus truthyFrequency
                              read today yesterdayStr st) = getDigests st).
    { unfold updateStreak. destruct (eqb _ today); reflexivity. }
    cbn [getDigests setDigests DIGESTS_KEY PROFILE_KEY].
    fold (getDigests st).
    split; [simpl; rewrite eqb_refl; reflexivity|].
    split.
    { intros N. simpl. rewrite (eqb_neq _ _ (not_eq_sym N)). reflexivity. }
    split; [intros X; congruence|].
    split; [intros _; split; reflexivity|].
    split.
    { intros ND. simpl. constructor; [apply FI; reflexivity | exact ND]. }
    split; [exact D1|]. intros N. apply D2. congruence.
Qed.

(** X17 on two digests saved to [installed], the second one twice. *)
Lemma digest_saved_is_found_witness :
  map numbered
    (getDigests
       (saveDigest 0%nat numbered allTruthy allTruthy
          0 day21 day20 8%nat
          (saveDigest 0%nat numbered allTruthy allTruthy
             0 day21 day20 8%nat
             (saveDigest 0%nat numbered allTruthy allTruthy
                0 day20 [49; 57]%N 7%nat installed))))
    = [[8]; [7]]%N.
Proof.
  set (one := saveDigest 0%nat numbered allTruthy allTruthy
                0 day20 [49; 57]%N 7%nat installed).
  set (two := saveDigest 0%nat numbered allTruthy allTruthy
                0 day21 day20 8%nat one).
  pose proof (@digest_saved_is_found nat nat nat 0%nat numbered
                allTruthy allTruthy one 0%Z day21 day20 8%nat [8]%N)
    as (_ & _ & _ & New & _).
  pose proof (@digest_saved_is_found nat nat nat 0%nat numbered
                allTruthy allTruthy two 0%Z day21 day20 8%nat [8]%N)
    as (_ & _ & Known & _).
  cbv beta zeta in New, Known. fold two in New.
  assert (K : getDigestById numbered (numbered 8) two
              <> None) by (vm_compute; discriminate).
  assert (F : getDigestById numbered (numbered 8) one
              = None) by (vm_compute; reflexivity).
  rewrite (proj1 (Known K)). rewrite (proj1 (New F)).
  vm_compute. reflexivity.
Defined.

Module InsightsFacts.

Section Facts.
Context {DigestSection : Type}.

Lemma insights_filter_out (id : Str) (l : list (@SavedInsight DigestSection)) :
  existsb (fun i => eqb (insight_id i) id)
    (filter (fun i => negb (eqb (insight_id i) id)) l) = false.
Proof.
  induction l as [|i l IH]; [reflexivity|].
  simpl. destruct (eqb (insight_id i) id) eqn:E; cbn [negb]; [exact IH|].
  simpl. rewrite E. exact IH.
Qed.

Lemma insights_fresh (id : Str) (l : list (@SavedInsight DigestSection)) :
  existsb (fun i => eqb (insight_id i) id) l = false ->
  ~ In id (map insight_id l).
Proof.
  induction l as [|i l IH]; [intros _ []|].
  simpl. intros E. apply orb_false_elim in E. destruct E as [E1 E2].
  intros [X | X]; [|apply (IH E2 X)].
  rewrite X in E1. rewrite (proj2 (eqb_eq id id) eq_refl) in E1.
  discriminate E1.
Qed.

End Facts.
End InsightsFacts.
Import InsightsFacts.

(** X18.  The saved insights.  After [saveInsight] the section counts as
    saved; the identifier being made of the digest and of the first ten
    code units of the title, white space aside, a section of the same
    digest whose title agrees on these with a saved one is not saved
    again, whatever its content, so a second save changes nothing and
    identifiers that are distinct stay distinct; after [removeInsight] of
    its identifier the section does not count as saved. *)
Theorem insight_is_saved_once {PersonaType DailyDigest DigestSection : Type}
    (title : DigestSection -> Str)
    (st : @LocalStorage PersonaType DailyDigest DigestSection)
    (now : Z) (section : DigestSection)
    (sourceDigestId sourceDigestDate : Str) :
  let saved :=
    saveInsight title now section sourceDigestId sourceDigestDate st in
  let ids s := map insight_id (getSavedInsights s) in
  isInsightSaved (title section) sourceDigestId saved = true /\
  (forall now' section' date',
     stripWhiteSpace (substring0 10 (title section'))
       = stripWhiteSpace (substring0 10 (title section)) ->
     saveInsight title now' section' sourceDigestId date' saved = saved) /\
  (NoDup (ids st) -> NoDup (ids saved)) /\
  (isInsightSaved (title section) sourceDigestId st = false ->
   getSavedInsights saved
     = mkInsight (insightIdOf sourceDigestId (title section)) section now
         sourceDigestId sourceDigestDate :: getSavedInsights st) /\
  isInsightSaved (title section) sourceDigestId
    (removeInsight (insightIdOf sourceDigestId (title section)) saved)
    = false.
Proof.
  intros saved ids.
  assert (S : isInsightSaved (title section) sourceDigestId saved = true).
  { subst saved. unfold saveInsight, isInsightSaved.
    destruct (existsb _ (getSavedInsights st)) eqn:E; [exact E|].
    cbn [getSavedInsights setCollection COLLECTION_KEY existsb insight_id].
    rewrite (proj2 (eqb_eq _ _) eq_refl). reflexivity. }
  split; [exact S|]. split; [|split; [|split]].
  - intros now' section' date' E. unfold saveInsight at 1.
    unfold insightIdOf. rewrite E. fold (insightIdOf sourceDigestId (title section)).
    unfold isInsightSaved in S. rewrite S. reflexivity.
  - subst saved ids. unfold saveInsight.
    destruct (existsb _ (getSavedInsights st)) eqn:E; [exact (fun H => H)|].
    cbn [getSavedInsights setCollection COLLECTION_KEY map insight_id].
    fold (getSavedInsights st). intros ND.
    constructor; [apply insights_fresh; exact E | exact ND].
  - subst saved. unfold isInsightSaved, saveInsight. intros E. rewrite E.
    reflexivity.
  - unfold isInsightSaved, removeInsight.
    cbn [getSavedInsights setCollection COLLECTION_KEY].
    apply insights_filter_out.
Qed.

(** X18 on two sections of one digest whose titles, "Nova technologia"
    and "Nova techno", begin alike: the second is not saved. *)
Lemma insight_is_saved_once_witness :
  length (getSavedInsights
            (saveInsight (fun s : nat => firstn s Tags.novaTechnologia)
               2 11%nat day20 day20
               (saveInsight (fun s : nat => firstn s Tags.novaTechnologia)
                  1 16%nat day20 day20 installed))) = 1%nat.
Proof.
  pose proof (@insight_is_saved_once nat nat nat
                (fun s : nat => firstn s Tags.novaTechnologia)
                installed 1%Z 16%nat day20 day20) as (_ & Again & _ & New & _).
  cbv beta zeta in Again, New.
  rewrite (Again 2%Z 11%nat day20); [|vm_compute; reflexivity].
  rewrite New; [reflexivity | vm_compute; reflexivity].
Defined.

(** * The learning topics *)

Module TopicsFacts.

Section Facts.
Context {PersonaType DailyDigest DigestSection : Type}.
Variable DEFAULT : PersonaType.
Variable digestId : DailyDigest -> Str.
Variable title : DigestSection -> Str.
Variables truthyStatus : SubscriptionStatus -> bool.
Variable truthyFrequency : NotificationFrequency -> bool.
Variable toLowerCase : Str -> Str.

#[local] Abbreviation Store := (@LocalStorage PersonaType DailyDigest DigestSection).
#[local] Abbreviation getProfile := (getUserProfile DEFAULT truthyStatus truthyFrequency).
#[local] Abbreviation mark :=
  (markLearningTopicComplete DEFAULT truthyStatus truthyFrequency toLowerCase).
#[local] Abbreviation call :=
  (Storage.call DEFAULT digestId title truthyStatus truthyFrequency toLowerCase).







End Facts.
End TopicsFacts.
Import TopicsFacts.



(** * The notification scheduler *)

Module NotifierFacts.
Import Notifier.

(** [hoursSinceLast > n], in milliseconds. *)
Lemma hours_gt (n now last : Z) :
  Qltb (inject_Z n) (hoursSince now last) = true <->
  (n * 3600000 < now - last)%Z.
Proof.
  rewrite Qltb_lt. unfold hoursSince, Qlt.
  change (inject_Z (1000 * 60 * 60)) with (3600000 # 1).
  cbn. lia.
Qed.

Lemma hours_le (n now last : Z) :
  (now - last <= n * 3600000)%Z ->
  Qltb (inject_Z n) (hoursSince now last) = false.
Proof.
  intros L. apply not_true_is_false. rewrite hours_gt. lia.
Qed.

Section Facts.
Context {PersonaType DailyDigest DigestSection : Type}.
Variable DEFAULT : PersonaType.
Variables truthyStatus : SubscriptionStatus -> bool.
Variable truthyFrequency : NotificationFrequency -> bool.

#[local] Abbreviation Store := (@LocalStorage PersonaType DailyDigest DigestSection).
#[local] Abbreviation getProfile := (getUserProfile DEFAULT truthyStatus truthyFrequency).
#[local] Abbreviation check :=
  (@checkAndTriggerNotification PersonaType DEFAULT truthyStatus
     truthyFrequency DailyDigest DigestSection).

#[local] Abbreviation lastOf :=
  (@Notifier.lastOf PersonaType DEFAULT truthyStatus truthyFrequency
     DailyDigest DigestSection).

(** When the scheduler stays quiet. *)
Lemma quiet (permission : Permission) (canVibrate : bool)
    (read0 now currentHour day read sent : Z) (st : Store) :
  let freq := notificationFrequency (getProfile read0 st) in
  let gap := (now - lastOf read0 st)%Z in
  freq = OFF \/ freq = otherFrequency \/ permission <> granted \/
  (currentHour < 9)%Z \/ (gap <= 3 * 3600000)%Z \/
  (freq = DAILY /\ (gap <= 20 * 3600000)%Z) \/
  (freq = EVERY_OTHER /\ (gap <= 46 * 3600000)%Z) \/
  (freq = WEEKLY /\ (day <> 1 \/ gap <= 150 * 3600000)%Z) ->
  check permission canVibrate read0 now currentHour day read sent st
    = (st, []).
Proof.
  intros freq gap C. unfold checkAndTriggerNotification. fold freq.
  fold gap.
  destruct (isGranted permission) eqn:G; cbn [negb];
    [|destruct freq; reflexivity].
  assert (Gp : permission = granted)
    by (destruct permission; try discriminate G; reflexivity).
  change 20 with (inject_Z 20). change 3 with (inject_Z 3).
  change 46 with (inject_Z 46). change 150 with (inject_Z 150).
  destruct freq eqn:F; try reflexivity.
  - (* DAILY *)
    destruct (Z.leb_spec 9 currentHour) as [H9 | H9]; cbn [andb];
      [|reflexivity].
    rewrite hours_le; [reflexivity|].
    destruct C as [C | [C | [C | [C | [C | [[_ C] | [[C _] | [C _]]]]]]]];
      try congruence; lia.
  - (* THREE_TIMES_DAY *)
    destruct (Qltb (inject_Z 3) (hoursSince now (lastOf read0 st))) eqn:H3;
      [|reflexivity].
    apply hours_gt in H3. fold gap in H3.
    destruct (Z.leb_spec 9 currentHour) as [H9 | H9]; cbn [andb].
    + destruct C as [C | [C | [C | [C | [C | [[C _] | [[C _] | [C _]]]]]]]];
        try congruence; lia.
    + destruct (Z.leb_spec 13 currentHour); [lia|].
      destruct (Z.leb_spec 18 currentHour); [lia|]. reflexivity.
  - (* EVERY_OTHER *)
    destruct (Z.leb_spec 9 currentHour) as [H9 | H9]; cbn [andb];
      [|reflexivity].
    rewrite hours_le; [reflexivity|].
    destruct C as [C | [C | [C | [C | [C | [[C _] | [[_ C] | [C _]]]]]]]];
      try congruence; lia.
  - (* WEEKLY *)
    destruct (Z.eqb_spec day 1) as [D1 | D1]; cbn [andb]; [|reflexivity].
    destruct (Z.leb_spec 9 currentHour) as [H9 | H9]; cbn [andb];
      [|reflexivity].
    rewrite hours_le; [reflexivity|].
    destruct C as [C | [C | [C | [C | [C | [[C _] | [[C _] | [_ C]]]]]]]];
      try congruence; lia.
Qed.

(** What is read after [updateLastNotification]: the frequency as before,
    the time of the notification. *)
Lemma notified_profile (read read' sent : Z) (st : Store) :
  let st' := updateLastNotification DEFAULT truthyStatus truthyFrequency
               read sent st in
  notificationFrequency (getProfile read' st')
    = notificationFrequency (getProfile read st) /\
  lastNotification (getProfile read' st') = Some sent.
Proof.
  cbv zeta. unfold updateLastNotification, saveUserProfile.
  unfold getUserProfile at 1 3.
  cbn [PROFILE_KEY stored_notificationFrequency stored_lastNotification
       notificationFrequency lastNotification].
  split; [|reflexivity].
  unfold getUserProfile. destruct (PROFILE_KEY st) as [p|].
  - cbn [notificationFrequency].
    destruct (stored_notificationFrequency p) as [f|];
      [|destruct (truthyFrequency DAILY); reflexivity].
    destruct (truthyFrequency f) eqn:E; [rewrite E; reflexivity|].
    destruct (truthyFrequency DAILY); reflexivity.
  - cbn [notificationFrequency].
    destruct (truthyFrequency DAILY); reflexivity.
Qed.

(** What the scheduler does when it does not stay quiet. *)
Lemma loud (permission : Permission) (canVibrate : bool)
    (read0 now currentHour day read sent : Z) (st : Store) :
  check permission canVibrate read0 now currentHour day read sent st
    = (st, []) \/
  exists title body,
    check permission canVibrate read0 now currentHour day read sent st
      = (updateLastNotification DEFAULT truthyStatus truthyFrequency
           read sent st,
         (if canVibrate then [vibrate] else []) ++ [notify title body]).
Proof.
  unfold checkAndTriggerNotification.
  destruct (isGranted permission) eqn:G; cbn [negb];
    [|left; destruct (notificationFrequency _); reflexivity].
  unfold sendNotification. rewrite G.
  destruct (notificationFrequency (getProfile read0 st));
    try (left; reflexivity);
    repeat match goal with
           | |- context [if ?b then _ else _] =>
               lazymatch b with
               | canVibrate => fail
               | _ => destruct b
               end
           end;
    try (left; reflexivity); right; eexists; eexists; reflexivity.
Qed.

End Facts.
End NotifierFacts.
Import Notifier NotifierFacts.

(** X19.  The scheduler keeps quiet.  [checkAndTriggerNotification] sends
    nothing and writes nothing when the frequency is [OFF], when the
    permission is not granted, before 9 o'clock, within three hours of
    the last notification, and, by frequency, within 20 hours ([DAILY]),
    46 hours ([EVERY_OTHER]), 150 hours or on a day other than Monday
    ([WEEKLY]).  Otherwise it sends at most one notification, after the
    vibration if there is one, and stores the time of it as the last
    notification; so a check within three hours of a notification sent
    sends nothing. *)
Theorem scheduler_keeps_quiet {PersonaType DailyDigest DigestSection : Type}
    (DEFAULT : PersonaType)
    (truthyStatus : SubscriptionStatus -> bool)
    (truthyFrequency : NotificationFrequency -> bool)
    (permission : Permission) (canVibrate : bool)
    (read0 now currentHour day read sent : Z)
    (st : @LocalStorage PersonaType DailyDigest DigestSection) :
  let check :=
    @checkAndTriggerNotification PersonaType DEFAULT truthyStatus
      truthyFrequency DailyDigest DigestSection in
  let freq :=
    notificationFrequency
      (getUserProfile DEFAULT truthyStatus truthyFrequency read0 st) in
  let gap :=
    (now - lastOf DEFAULT truthyStatus truthyFrequency read0 st)%Z in
  let out := check permission canVibrate read0 now currentHour day read sent st in
  (freq = OFF \/ freq = otherFrequency \/ permission <> granted \/
   (currentHour < 9)%Z \/ (gap <= 3 * 3600000)%Z \/
   (freq = DAILY /\ (gap <= 20 * 3600000)%Z) \/
   (freq = EVERY_OTHER /\ (gap <= 46 * 3600000)%Z) \/
   (freq = WEEKLY /\ (day <> 1 \/ gap <= 150 * 3600000)%Z) ->
   out = (st, [])) /\
  (out = (st, []) \/
   exists title body,
     out = (updateLastNotification DEFAULT truthyStatus truthyFrequency
              read sent st,
            (if canVibrate then [vibrate] else []) ++ [notify title body])) /\
  (snd out <> [] ->
   forall permission' canVibrate' read0' now' currentHour' day' read' sent',
     (now' - sent <= 3 * 3600000)%Z ->
     check permission' canVibrate' read0' now' currentHour' day' read' sent'
       (fst out) = (fst out, [])).
Proof.
  intros check freq gap out.
  split; [apply quiet|].
  pose proof (loud DEFAULT truthyStatus truthyFrequency permission canVibrate
                read0 now currentHour day read sent st) as L.
  fold check in L. fold out in L.
  split; [exact L|]. intros N permission' canVibrate' read0' now' currentHour'
    day' read' sent' G.
  destruct L as [E | (title & body & E)];
    [rewrite E in N; cbn [snd] in N; congruence|].
  rewrite E. cbn [fst]. apply quiet.
  right. right. right. right. left.
  unfold lastOf.
  rewrite (proj2 (notified_profile DEFAULT truthyStatus truthyFrequency
                    read read0' sent st)).
  exact G.
Qed.

(** X19 on a morning at 10 with the daily frequency and no notification
    before: one notification after the vibration, and nothing at a second
    check an hour later. *)
Lemma scheduler_keeps_quiet_witness :
  snd morning = [vibrate; notify morningDigest startTheDay] /\
  checkAndTriggerNotification 0%nat allTruthy allTruthy granted true
    867600000 867600000 11 3 867600001 867600002 (fst morning)
    = (fst morning, []).
Proof.
  pose proof (@scheduler_keeps_quiet nat nat nat 0%nat allTruthy allTruthy
                granted true 864000000 864000000 10 3 864000001 864000002
                installed) as (_ & _ & Q).
  assert (S : snd morning = [vibrate; notify morningDigest startTheDay])
    by (vm_compute; reflexivity).
  split; [exact S|].
  apply Q; [fold morning; rewrite S; discriminate | vm_compute; discriminate].
Defined.
